(** * Inventory handler: record normalisation and anomaly pass

    A shallow embedding of [inventorymanagement.py].  Text is modelled as
    [string] over code points below 128 (the ASCII range): characters above
    it are treated as uncased and non-blank.  The pandas, openpyxl and
    extract_msg calls are taken at their interface: a data frame is a list of
    column names with a list of rows, a worksheet column is a list of cell
    values, and the date parser of pandas is a parameter of the functions that
    call it. *)

From Stdlib Require Import ZArith Ascii.
From stdpp Require Import gmap strings list sorting pretty.

(** ** Python [str] operations *)

Module Py.

(** [str.isspace], which is also the class [\s] of [re] on [str]. *)
Definition isspace (c : ascii) : bool :=
  match c with
  | "009" | "010" | "011" | "012" | "013"
  | "028" | "029" | "030" | "031" | " " => true
  | _ => false
  end%char.

Definition lower_char (c : ascii) : ascii :=
  let n := N_of_ascii c in
  if ((65 <=? n) && (n <=? 90))%N then ascii_of_N (n + 32) else c.

Definition upper_char (c : ascii) : ascii :=
  let n := N_of_ascii c in
  if ((97 <=? n) && (n <=? 122))%N then ascii_of_N (n - 32) else c.

Fixpoint map_chars (f : ascii -> ascii) (s : string) : string :=
  match s with
  | "" => ""
  | String c s' => String (f c) (map_chars f s')
  end.

Definition lower : string -> string := map_chars lower_char.
Definition upper : string -> string := map_chars upper_char.

(** [s.lstrip(chars)], [s.rstrip(chars)] and [s.strip(chars)] for the
    character set [p]. *)
Fixpoint lstrip_of (p : ascii -> bool) (s : string) : string :=
  match s with
  | "" => ""
  | String c s' => if p c then lstrip_of p s' else s
  end.

Definition rstrip_of (p : ascii -> bool) (s : string) : string :=
  String.rev (lstrip_of p (String.rev s)).

Definition strip_of (p : ascii -> bool) (s : string) : string :=
  rstrip_of p (lstrip_of p s).

Definition strip : string -> string := strip_of isspace.

(** Truth value of a [str]. *)
Definition truthy (s : string) : bool :=
  match s with "" => false | _ => true end.

Fixpoint startswith (s p : string) {struct p} : bool :=
  match p, s with
  | "", _ => true
  | String a p', String b s' => if Ascii.eqb a b then startswith s' p' else false
  | String _ _, "" => false
  end.

Definition endswith (s p : string) : bool :=
  startswith (String.rev s) (String.rev p).

(** [sub in s]. *)
Fixpoint contains (sub s : string) : bool :=
  startswith s sub ||
  match s with
  | "" => false
  | String _ s' => contains sub s'
  end.

Fixpoint drop (n : nat) (s : string) : string :=
  match n, s with
  | 0, _ => s
  | S _, "" => ""
  | S n', String _ s' => drop n' s'
  end.

(** [s.replace(old, new, count)]; [count = None] stands for no limit.
    [skip] counts the characters of a matched [old] still to be dropped. *)
Fixpoint replace_go (old new : string) (count : option nat) (skip : nat)
    (s : string) : string :=
  match s with
  | "" => ""
  | String c s' =>
      match skip with
      | S k => replace_go old new count k s'
      | 0 =>
          if negb (bool_decide (count = Some 0)) && startswith s old
          then new +:+ replace_go old new (pred <$> count)
                         (pred (String.length old)) s'
          else String c (replace_go old new count 0 s')
      end
  end.

(** With an empty [old], Python inserts [new] before each character and at
    the end, [count] times at most. *)
Fixpoint replace_empty (new : string) (count : option nat) (s : string) : string :=
  if bool_decide (count = Some 0) then s
  else new +:+
       match s with
       | "" => ""
       | String c s' => String c (replace_empty new (pred <$> count) s')
       end.

Definition replace (s old new : string) (count : option nat) : string :=
  match old with
  | "" => replace_empty new count s
  | _ => replace_go old new count 0 s
  end.

(** [s.split(sep, 1)] for a one-character separator: the text before the
    first separator and, when there is one, the text after it. *)
Fixpoint split1 (sep : ascii) (s : string) : string * option string :=
  match s with
  | "" => ("", None)
  | String c s' =>
      if Ascii.eqb c sep then ("", Some s')
      else let '(a, b) := split1 sep s' in (String c a, b)
  end.

(** Line boundaries of [str.splitlines] below code point 128. *)
Definition is_linebreak (c : ascii) : bool :=
  match c with
  | "010" | "011" | "012" | "013" | "028" | "029" | "030" => true
  | _ => false
  end%char.

(** [s.splitlines()]: [cur] is the current line, reversed; a carriage
    return followed by a line feed is one boundary. *)
Fixpoint splitlines_go (cur : string) (pending : bool) (s : string) : list string :=
  match s with
  | "" => if pending then [String.rev cur] else []
  | String c s' =>
      if is_linebreak c then
        String.rev cur ::
        match c, s' with
        | "013"%char, String "010"%char s'' => splitlines_go "" false s''
        | _, _ => splitlines_go "" false s'
        end
      else splitlines_go (String c cur) true s'
  end.

Definition splitlines : string -> list string := splitlines_go "" false.

End Py.

(** ** The fragment of [re] used by [extract_field]

    A backtracking matcher for sequences of atoms, with the flags
    [re.IGNORECASE | re.MULTILINE] built in.  Every starred atom of the
    pattern is a greedy star over a character class, which is all the matcher
    has to support. *)

Module Re.

Inductive atom :=
| Bol                            (* caret: start of the text or after a line feed *)
| Eol                            (* dollar: end of the text or before a line feed *)
| Lit (c : ascii)                (* an escaped literal, compared without case *)
| Star (cls : ascii -> bool)     (* greedy star over a class *)
| Group (cls : ascii -> bool).   (* the same, captured as group 1 *)

(** A match object: [m.group(1)] and [m.end()]. *)
Record match_object := { group1 : string; m_end : nat }.

Definition at_bol (prev : option ascii) : bool :=
  match prev with
  | None | Some "010"%char => true
  | Some _ => false
  end.

Definition at_eol (s : string) : bool :=
  match s with
  | "" | String "010"%char _ => true
  | _ => false
  end.

(** A greedy star over the class [cls], followed by the continuation [k]:
    it first takes one more character of the class and falls back to [k] at
    the current offset when the longer attempt fails.  [acc] holds the
    characters taken, last first. *)
Fixpoint greedy (cls : ascii -> bool)
    (k : string -> option ascii -> string -> nat -> option match_object)
    (acc : string) (prev : option ascii) (s : string) (pos : nat)
    : option match_object :=
  match s with
  | String x s' =>
      if cls x then
        match greedy cls k (String x acc) (Some x) s' (S pos) with
        | Some m => Some m
        | None => k acc prev s pos
        end
      else k acc prev s pos
  | "" => k acc prev s pos
  end.

(** [match_here re g prev s pos] matches [re] against [s], the text from
    offset [pos] on, [prev] being the character before it and [g] the text
    captured so far. *)
Fixpoint match_here (re : list atom) (g : string) (prev : option ascii)
    (s : string) (pos : nat) : option match_object :=
  match re with
  | [] => Some {| group1 := g; m_end := pos |}
  | Bol :: re' => if at_bol prev then match_here re' g prev s pos else None
  | Eol :: re' => if at_eol s then match_here re' g prev s pos else None
  | Lit c :: re' =>
      match s with
      | String x s' =>
          if Ascii.eqb (Py.lower_char x) (Py.lower_char c)
          then match_here re' g (Some x) s' (S pos)
          else None
      | "" => None
      end
  | Star cls :: re' =>
      greedy cls (fun _ prev s pos => match_here re' g prev s pos) "" prev s pos
  | Group cls :: re' =>
      greedy cls (fun acc prev s pos => match_here re' (String.rev acc) prev s pos)
             "" prev s pos
  end.

(** [pattern.search(body)]: the match at the leftmost offset that has one. *)
Fixpoint search_from (re : list atom) (prev : option ascii) (s : string)
    (pos : nat) : option match_object :=
  match match_here re "" prev s pos with
  | Some m => Some m
  | None =>
      match s with
      | "" => None
      | String x s' => search_from re (Some x) s' (S pos)
      end
  end.

Definition search (re : list atom) (body : string) : option match_object :=
  search_from re None body 0.

(** [re.escape(label)]: every character of the label stands for itself. *)
Fixpoint escape (label : string) : list atom :=
  match label with
  | "" => []
  | String c l => Lit c :: escape l
  end.

(** The class of [.] without [re.DOTALL]. *)
Definition dot (c : ascii) : bool := negb (Ascii.eqb c "010").

End Re.

(** ** Field extraction from a message body *)

(** The pattern compiled by [extract_field]: a line start, the escaped
    label, blanks, a colon, blanks, the rest of the line as group 1 and a
    line end. *)
Definition field_pattern (label : string) : list Re.atom :=
  [Re.Bol] ++ Re.escape label ++
  [Re.Star Py.isspace; Re.Lit ":"; Re.Star Py.isspace; Re.Group Re.dot; Re.Eol].

(** The loop over [tail.splitlines()]: it leaves at its first iteration,
    by [break] on a blank line and by [return] otherwise. *)
Definition next_line (lines : list string) : option string :=
  match lines with
  | [] => None
  | line :: _ =>
      if negb (Py.truthy (Py.strip line)) then None
      else Some (Py.strip line)
  end.

Definition extract_field (body label : string) : option string :=
  if negb (Py.truthy body) then None
  else
    match Re.search (field_pattern label) body with
    | None => None
    | Some m =>
        let inline := Py.strip (Re.group1 m) in
        if Py.truthy inline then Some inline
        else
          let tail := Py.drop (Re.m_end m) body in
          next_line (Py.splitlines tail)
    end.

(** ** Cell values and data frames *)

(** A [pd.Timestamp] normalised to midnight. *)
Record date := { year : nat; month : nat; day : nat }.

(** What a cell of a data frame or of a worksheet holds. [NaN] stands for
    the missing values of pandas ([nan] and [NaT]). *)
Inductive cell :=
| NaN
| PyNone
| Str (s : string)
| Int (z : Z)
| Bool (b : bool)
| Stamp (d : date).

Definition pad (width : nat) (n : nat) : string :=
  let s := pretty n in
  String.string_of_list_ascii (replicate (width - String.length s) "0"%char) +:+ s.

(** [d.strftime(fmt)] for the directives [%m], [%d] and [%Y]; any other
    character of the format is copied. *)
Fixpoint strftime (fmt : string) (d : date) : string :=
  match fmt with
  | "" => ""
  | String "%" (String "m" f) => pad 2 (month d) +:+ strftime f d
  | String "%" (String "d" f) => pad 2 (day d) +:+ strftime f d
  | String "%" (String "Y" f) => pad 4 (year d) +:+ strftime f d
  | String c f => String c (strftime f d)
  end.

(** [str(v)]. *)
Definition str (v : cell) : string :=
  match v with
  | NaN => "nan"
  | PyNone => "None"
  | Str s => s
  | Int z => pretty z
  | Bool true => "True"
  | Bool false => "False"
  | Stamp d => strftime "%Y-%m-%d 00:00:00" d
  end.

(** [pd.isna(v)]. *)
Definition isna (v : cell) : bool :=
  match v with
  | NaN | PyNone => true
  | _ => false
  end.

(** Truth value of a cell, as tested by [if cell.value]. *)
Definition cell_truthy (v : cell) : bool :=
  match v with
  | PyNone => false
  | Str s => Py.truthy s
  | Int z => negb (z =? 0)%Z
  | Bool b => b
  | NaN | Stamp _ => true
  end.

(** A row maps column names to cells, as the dictionaries appended to
    [workflow_data] do; a column the row does not carry reads as missing. *)
Abbreviation row := (gmap string cell).

Definition cell_at (r : row) (c : string) : cell := default NaN (r !! c).

Record DataFrame := { columns : list string; rows : list row }.

(** [pd.DataFrame()] *)
Definition empty_frame : DataFrame := {| columns := []; rows := [] |}.

(** [df.empty]: some axis has length zero. *)
Definition df_empty (df : DataFrame) : bool :=
  bool_decide (columns df = []) || bool_decide (rows df = []).

(** [df[c]] as a list of cells. *)
Definition column (df : DataFrame) (c : string) : list cell :=
  (fun r => cell_at r c) <$> rows df.

(** [df[c] = values]: the column is appended when it is new. *)
Definition set_column (df : DataFrame) (c : string) (values : list cell) : DataFrame :=
  {| columns := if bool_decide (c ∈ columns df) then columns df else columns df ++ [c];
     rows := zip_with (fun r v => <[c := v]> r) (rows df) values |}.

(** [df[c] = v] for a scalar [v]. *)
Definition set_column_scalar (df : DataFrame) (c : string) (v : cell) : DataFrame :=
  set_column df c (replicate (length (rows df)) v).

(** [df[c].fillna(v)] *)
Definition fillna (v : cell) (x : cell) : cell := if isna x then v else x.

(** ** Configuration *)

Definition DATE_FMT : string := "%m/%d/%Y".
Definition WORKFLOW_DEFAULT : string := "N/A, Workflow".
Definition WORKFLOW_NO_ROOM : string := "NA".
Definition WORKFLOW_SUBJECT_KEY : string := "[INSERT EMAIL SUBJECT KEY HERE]".
Definition DATE_COL : string := "Date of Latest Change".
Definition SERIAL_COL : string := "Serial Number".

Definition ignore_serials : list string :=
  ["Common Classification Cheat Sheet"; "Serial Number"].

Definition skip_locs : list string :=
  [""; "NA"; "N/A"; "NONE"; "NULL"; Py.upper WORKFLOW_DEFAULT].

Definition cols : list string :=
  ["Serial Number"; "Device Model"; "P.O. Number"; "Device Owner";
   "Computer Name"; "Date of Latest Change"; "Changed By";
   "Location"; "Classification"; "Comments"].

(** ** Row validation *)

Definition junk_serials : list string :=
  ["nan"; "none"; "null"; "n/a"; ""; "serial number"].

(** One entry of the mask [bad] of [remove_bad_rows]. *)
Definition bad_serial (v : cell) : bool :=
  bool_decide (Py.lower (Py.strip (str v)) ∈ junk_serials) || isna v.

Definition remove_bad_rows (df : DataFrame) : DataFrame :=
  if df_empty df || negb (bool_decide (SERIAL_COL ∈ columns df)) then empty_frame
  else {| columns := columns df;
          rows := filter (fun r => bad_serial (cell_at r SERIAL_COL) = false) (rows df) |}.

(** ** Priority sort *)

(** The alternatives of the priority pattern. *)
Definition priority_models : list string :=
  ["macbook"; "imac"; "iphone"; "ipad"; "apple"].

(** One entry of the mask [is_priority] of [sort_priority_devices]. *)
Definition is_priority (r : row) : bool :=
  let s := Py.lower (str (fillna (Str "") (cell_at r "Device Model"))) in
  existsb (fun p => Py.contains p s) priority_models.

(** The sort key read from the two helper columns: [_p] descending, then
    [_idx] ascending. *)
Definition sort_key (r : row) : bool * Z :=
  (match cell_at r "_p" with Bool b => b | _ => false end,
   match cell_at r "_idx" with Int z => z | _ => 0%Z end).

Definition key_le (a b : row) : Prop :=
  ((sort_key a).1 = true /\ (sort_key b).1 = false) \/
  ((sort_key a).1 = (sort_key b).1 /\ ((sort_key a).2 <= (sort_key b).2)%Z).

#[global] Instance key_le_dec : RelDecision key_le.
Proof. intros a b. unfold key_le. apply _. Defined.

(** [df.drop(columns=cs)] *)
Definition drop_columns (cs : list string) (df : DataFrame) : DataFrame :=
  {| columns := filter (fun c => c ∉ cs) (columns df);
     rows := (fun r => foldr delete r cs) <$> rows df |}.

Definition sort_priority_devices (df : DataFrame) : DataFrame :=
  if df_empty df || negb (bool_decide ("Device Model" ∈ columns df)) then df
  else
    let df1 := set_column df "_p" ((fun r => Bool (is_priority r)) <$> rows df) in
    let df2 := set_column df1 "_idx" ((fun i => Int (Z.of_nat i)) <$> seq 0 (length (rows df1))) in
    let df3 := {| columns := columns df2; rows := merge_sort key_le (rows df2) |} in
    drop_columns ["_p"; "_idx"] df3.

(** ** Dates *)

(** A reference date parser: the fragment of [pd.to_datetime] on time stamps
    and on text in the month/day/year layout that [DATE_FMT] produces.  It
    instantiates the parser parameter below in the examples. *)
Fixpoint digits_go (acc : nat) (s : string) : option nat :=
  match s with
  | "" => Some acc
  | String c s' =>
      match Ascii.is_nat c with
      | Some d => digits_go (10 * acc + d) s'
      | None => None
      end
  end.

Definition digits (s : string) : option nat :=
  if Py.truthy s then digits_go 0 s else None.

Definition leap_year (y : nat) : bool :=
  ((y mod 4 =? 0) && negb (y mod 100 =? 0)) || (y mod 400 =? 0).

Definition days_in_month (y m : nat) : nat :=
  match m with
  | 2 => if leap_year y then 29 else 28
  | 4 | 6 | 9 | 11 => 30
  | _ => 31
  end.

Definition valid_date (d : date) : bool :=
  (1678 <=? year d) && (year d <=? 2261) &&
  (1 <=? month d) && (month d <=? 12) &&
  (1 <=? day d) && (day d <=? days_in_month (year d) (month d)).

Definition parse_mdy (s : string) : option date :=
  match s with
  | String m1 (String m2 (String "/" (String d1 (String d2 (String "/" y))))) =>
      match digits (String m1 (String m2 "")),
            digits (String d1 (String d2 "")), digits y with
      | Some m, Some d, Some yy =>
          let t := {| year := yy; month := m; day := d |} in
          if (String.length y =? 4) && valid_date t then Some t else None
      | _, _, _ => None
      end
  | _ => None
  end.

Definition parse_cell (v : cell) : option date :=
  match v with
  | Stamp d => Some d
  | Str s => parse_mdy s
  | _ => None
  end.

Definition to_datetime_ref (values : list cell) : option (list (option date)) :=
  Some (parse_cell <$> values).

(** The pair [(dt.year, dt.month)] that the date pass reads off a converted
    value.  For the missing time stamp NaT both readings are the float nan,
    one and the same object, so that such pairs hash alike, compare equal to
    each other and differ from the pair of every date. *)
Inductive year_month :=
| YearMonth (y m : nat)     (* the year and the month of a time stamp *)
| NanNan.                   (* the readings of NaT *)

#[global] Instance year_month_eq_dec : EqDecision year_month.
Proof. solve_decision. Defined.

(** The texts that the conversion reads as NaT, beside the empty text. *)
Definition nat_strings : list string := ["NaT"; "nat"; "NAT"; "nan"; "NaN"; "NAN"].

(** The body of the [try] of the date pass on the reference parser:
    [pd.to_datetime(cell.value)] and the reading of year and month.  An empty
    cell converts to NaT without an exception, as a missing number and the
    texts above do; a text that is no date raises ([None]). *)
Definition to_ym_ref (v : cell) : option year_month :=
  match v with
  | PyNone | NaN => Some NanNan
  | Stamp d => Some (YearMonth (year d) (month d))
  | Str s =>
      if bool_decide (s = "") || bool_decide (s ∈ nat_strings) then Some NanNan
      else (fun d => YearMonth (year d) (month d)) <$> parse_mdy s
  | _ => None
  end.

(** ** Column clean-up and batch assembly *)

Section Assembly.

(** [pd.to_datetime(column, errors='coerce')]: [None] when the call (or
    the [.dt] accessor on its result) raises, and otherwise one entry per
    value, [None] for a value coerced to [NaT]. *)
Variable to_datetime : list cell -> option (list (option date)).

(** Fragments of model names to leave out; the list is empty as shipped. *)
Variable ignore_models : list string.

(** [.dt.strftime(DATE_FMT)]: [NaT] gives a missing value. *)
Definition strftime_cell (t : option date) : cell :=
  match t with
  | Some d => Str (strftime DATE_FMT d)
  | None => NaN
  end.

Definition format_date_columns (df : DataFrame) : DataFrame :=
  foldl (fun df c =>
           if bool_decide (c ∈ columns df) then
             match to_datetime (column df c) with
             | Some ts => set_column df c (strftime_cell <$> ts)
             | None => df
             end
           else df)
        df ["Date of Latest Change"].

(** Column names in the order of their first appearance. *)
Definition union_columns (dfs : list DataFrame) : list string :=
  foldl (fun acc c => if bool_decide (c ∈ acc) then acc else acc ++ [c])
        [] (mjoin (columns <$> dfs)).

Definition reindex (cs : list string) (r : row) : row :=
  list_to_map ((fun c => (c, cell_at r c)) <$> cs).

(** [pd.concat(dfs, ignore_index=True)] *)
Definition concat (dfs : list DataFrame) : DataFrame :=
  let cs := union_columns dfs in
  {| columns := cs; rows := reindex cs <$> mjoin (rows <$> dfs) |}.

(** [df.dropna(how='all')] *)
Definition dropna_all (df : DataFrame) : DataFrame :=
  {| columns := columns df;
     rows := filter (fun r => forallb (fun c => isna (cell_at r c)) (columns df) = false)
                    (rows df) |}.

(** The alternation [model_filter_pattern] of escaped fragments. *)
Definition model_filter_pattern : list string :=
  (fun x => Py.strip (Py.lower x)) <$> ignore_models.

Definition banned_model (r : row) : bool :=
  let s := Py.lower (str (cell_at r "Device Model")) in
  existsb (fun p => Py.contains p s) model_filter_pattern.

Definition ignored_serial (r : row) : bool :=
  bool_decide (Py.lower (str (cell_at r SERIAL_COL)) ∈ Py.lower <$> ignore_serials).

Definition keep_rows (f : row -> bool) (df : DataFrame) : DataFrame :=
  {| columns := columns df; rows := filter (fun r => f r = true) (rows df) |}.

(** The branch [if data_frames:] of step 2. *)
Definition clean_excel (data_frames : list DataFrame) : DataFrame :=
  let combined := dropna_all (concat data_frames) in
  let combined :=
    if bool_decide ("Device Model" ∈ columns combined)
       && negb (bool_decide (ignore_models = []))
    then keep_rows (fun r => negb (banned_model r)) combined else combined in
  let combined :=
    if bool_decide (SERIAL_COL ∈ columns combined)
    then keep_rows (fun r => negb (ignored_serial r)) combined else combined in
  format_date_columns (remove_bad_rows combined).

(** [pd.DataFrame(workflow_data)]: every workflow record carries the ten
    keys of [cols], in that order. *)
Definition frame_of_records (records : list row) : DataFrame :=
  {| columns := cols; rows := records |}.

(** The branch [if workflow_data:] of step 2. *)
Definition clean_workflow (workflow_data : list row) : DataFrame :=
  format_date_columns (remove_bad_rows (frame_of_records workflow_data)).

Definition all_dfs (data_frames : list DataFrame) (workflow_data : list row)
    : list DataFrame :=
  (if bool_decide (data_frames = []) then [] else [clean_excel data_frames]) ++
  (if bool_decide (workflow_data = []) then [] else [clean_workflow workflow_data]).

(** [final_df] after the last [remove_bad_rows]. *)
Definition merged (data_frames : list DataFrame) (workflow_data : list row)
    : DataFrame :=
  remove_bad_rows (concat (all_dfs data_frames workflow_data)).

(** [if c not in final_df.columns: final_df[c] = ''] *)
Definition ensure_column (df : DataFrame) (c : string) : DataFrame :=
  if bool_decide (c ∈ columns df) then df else set_column_scalar df c (Str "").

(** [df[cs]]: a [KeyError] when a name is not a column. *)
Definition select (df : DataFrame) (cs : list string) : option DataFrame :=
  if bool_decide (Forall (fun c => c ∈ columns df) cs)
  then Some {| columns := cs; rows := reindex cs <$> rows df |}
  else None.

(** Step 2 up to the priority sort; [None] is one of the two exits on an
    empty batch (or a [KeyError], which the theorems exclude). *)
Definition assemble (data_frames : list DataFrame) (workflow_data : list row)
    : option DataFrame :=
  if bool_decide (data_frames = []) && bool_decide (workflow_data = []) then None
  else
    let final_df := merged data_frames workflow_data in
    if df_empty final_df then None
    else
      let final_df := foldl ensure_column final_df cols in
      sort_priority_devices <$> select final_df cols.

End Assembly.

(** ** Step 1: the loop over the input directory *)

(** [clean_name]; the argument and the result may be [None]. *)
Definition is_quote (c : ascii) : bool :=
  Ascii.eqb c "034" || Ascii.eqb c "'".

Definition clean_name (s : option string) : option string :=
  match s with
  | None => None
  | Some s0 =>
      if negb (Py.truthy s0) then Some s0
      else
        let s1 := Py.strip_of is_quote (Py.strip s0) in
        let s2 := if Py.contains "<" s1 then Py.strip (Py.split1 "<" s1).1 else s1 in
        if Py.contains "," s2 then
          match Py.split1 "," s2 with
          | (last, Some first) => Some (Py.strip first +:+ " " +:+ Py.strip last)
          | (_, None) => Some s2
          end
        else Some s2
  end.

(** [x or d] for an optional text [x]. *)
Definition or_else (x : option string) (d : string) : string :=
  match x with
  | Some s => if Py.truthy s then s else d
  | None => d
  end.

(** An attachment, as the loop sees it: its [longFilename], the frame read
    by [pd.read_excel] ([None] when reading raises) and the date that
    [get_file_date] returns for it. *)
Record Attachment := {
  longFilename : option string;
  excel : option DataFrame;
  file_date : date
}.

(** A message that opened: its subject and body, the name that
    [get_sender] resolves, and its attachments. *)
Record Message := {
  subject : option string;
  body : option string;
  sender : string;
  attachments : list Attachment
}.

Record State := {
  stats : gmap string nat;
  data_frames : list DataFrame;
  workflow_data : list row;
  no_row_emails : list string
}.

Definition initial_stats : gmap string nat :=
  list_to_map [("total_emails", 0); ("with_excel", 0); ("workflow_emails", 0);
               ("no_excel", 0); ("entries_created", 0)].

Definition initial_state : State :=
  {| stats := initial_stats; data_frames := []; workflow_data := [];
     no_row_emails := [] |}.

(** [stats[k] += 1] *)
Definition bump (k : string) (st : gmap string nat) : gmap string nat :=
  <[k := S (st !!! k)]> st.

Definition is_excel_name (fname : string) : bool :=
  let l := Py.lower fname in
  Py.endswith l ".xlsx" || Py.endswith l ".xlsm" || Py.endswith l ".xls".

(** The two fallback fills of an attachment's frame. *)
Definition fill_defaults (date_val : date) (who : string) (df : DataFrame) : DataFrame :=
  let df := if bool_decide (DATE_COL ∈ columns df) then df
            else set_column_scalar df DATE_COL (Stamp date_val) in
  let df := set_column df DATE_COL (fillna (Stamp date_val) <$> column df DATE_COL) in
  let df := if bool_decide ("Changed By" ∈ columns df) then df
            else set_column_scalar df "Changed By" (Str who) in
  set_column df "Changed By" (fillna (Str who) <$> column df "Changed By").

(** One turn of the loop over [msg.attachments], on the pair of [has_excel]
    and [data_frames]. *)
Definition process_attachment (who : string) (acc : bool * list DataFrame)
    (att : Attachment) : bool * list DataFrame :=
  let '(has_excel, frames) := acc in
  let fname := or_else (longFilename att) "" in
  if is_excel_name fname then
    match excel att with
    | Some df =>
        let df := remove_bad_rows (fill_defaults (file_date att) who df) in
        (true, if df_empty df then frames else frames ++ [df])
    | None => (true, frames)
    end
  else (has_excel, frames).

(** The record appended to [workflow_data]. *)
Definition workflow_record (body who serial : string) : row :=
  list_to_map
    [("Serial Number", Str (Py.strip serial));
     ("Device Model", Str (or_else (extract_field body "[HEADER: MODEL]") WORKFLOW_DEFAULT));
     ("P.O. Number", Str "");
     ("Device Owner", Str (or_else (extract_field body "Full Name") WORKFLOW_DEFAULT));
     ("Computer Name", Str WORKFLOW_DEFAULT);
     ("Date of Latest Change", Str (or_else (extract_field body "Date") WORKFLOW_DEFAULT));
     ("Changed By", Str (or_else (clean_name (extract_field body "[HEADER: STAFF]")) who));
     ("Location", Str (or_else (extract_field body "[HEADER: ROOM]") WORKFLOW_NO_ROOM));
     ("Classification", Str WORKFLOW_DEFAULT);
     ("Comments", Str "")].

(** The test that guards the creation of a workflow record. *)
Definition serial_accepted (serial : option string) : bool :=
  match serial with
  | Some s => Py.truthy s && negb (bool_decide (Py.lower s ∈ ["nan"; "none"; ""]))
  | None => false
  end.

(** The body of the loop for one directory entry [f]; [opened] is [None]
    when opening or parsing the message raises.  [has_excel] has three
    values in the source: [Some true], [Some false] and the error mark
    [None]. *)
Definition process_file (st : State) (entry : string * option Message) : State :=
  let '(f, opened) := entry in
  if negb (Py.endswith (Py.lower f) ".msg") then st
  else
    let stats1 := bump "total_emails" (stats st) in
    let '(has_excel, has_workflow, stats2, frames, records) :=
      match opened with
      | None => (None, false, stats1, data_frames st, workflow_data st)
      | Some msg =>
          let '(has_excel, frames) :=
            foldl (process_attachment (sender msg)) (false, data_frames st)
                  (attachments msg) in
          let subj := or_else (subject msg) "" in
          if Py.contains (Py.lower WORKFLOW_SUBJECT_KEY) (Py.lower subj) then
            let stats2 := bump "workflow_emails" stats1 in
            let body := or_else (body msg) "" in
            let serial := extract_field body "Serial Number" in
            if serial_accepted serial then
              (Some has_excel, true, bump "entries_created" stats2, frames,
               workflow_data st ++ [workflow_record body (sender msg) (default "" serial)])
            else (Some has_excel, false, stats2, frames, workflow_data st)
          else (Some has_excel, false, stats1, frames, workflow_data st)
      end in
    let excel_seen := default false has_excel in
    {| stats := if excel_seen then bump "with_excel" stats2 else bump "no_excel" stats2;
       data_frames := frames;
       workflow_data := records;
       no_row_emails :=
         if negb excel_seen && negb has_workflow then no_row_emails st ++ [f]
         else no_row_emails st |}.

Definition process_files (entries : list (string * option Message)) : State :=
  foldl process_file initial_state entries.

(** ** Step 1, with an exception at any access of the [try] *)

(** What an access inside the [try] of the loop gives: an exception or a
    value. *)
Inductive attempt (A : Type) :=
| Raises
| Returns (a : A).

Arguments Raises {A}.
Arguments Returns {A} a.

(** A message as the [try] reads it, access by access and in the order of
    the source: [get_sender(msg)], then [msg.attachments] and, for each
    attachment in turn, the reading of its [longFilename], then
    [msg.subject] and, under the marker only, [msg.body]. *)
Record Reading := {
  read_sender : attempt string;
  read_attachments : attempt (list (attempt Attachment));
  read_subject : attempt (option string);
  read_body : attempt (option string)
}.

(** The loop over [msg.attachments], up to the first attachment whose name
    fails to read: the frames appended before it stay in [data_frames]. *)
Fixpoint try_attachments (who : string) (acc : bool * list DataFrame)
    (atts : list (attempt Attachment)) : attempt bool * list DataFrame :=
  match atts with
  | [] => (Returns acc.1, acc.2)
  | Raises :: _ => (Raises, acc.2)
  | Returns att :: atts' => try_attachments who (process_attachment who acc att) atts'
  end.

(** The body of the loop for one directory entry [f], with the [except]
    that ends the [try] wherever an access raises: what was appended and
    counted before stays, [has_excel] becomes the error mark [None] and
    [has_workflow] is still false. *)
Definition process_file_try (st : State) (entry : string * attempt Reading) : State :=
  let '(f, opened) := entry in
  if negb (Py.endswith (Py.lower f) ".msg") then st
  else
    let stats1 := bump "total_emails" (stats st) in
    let raised (counted : gmap string nat) (frames : list DataFrame) :=
      (@None bool, false, counted, frames, workflow_data st) in
    let '(has_excel, has_workflow, stats2, frames, records) :=
      match opened with
      | Raises => raised stats1 (data_frames st)
      | Returns msg =>
          match read_sender msg with
          | Raises => raised stats1 (data_frames st)
          | Returns who =>
              match read_attachments msg with
              | Raises => raised stats1 (data_frames st)
              | Returns atts =>
                  match try_attachments who (false, data_frames st) atts with
                  | (Raises, frames) => raised stats1 frames
                  | (Returns has_excel, frames) =>
                      match read_subject msg with
                      | Raises => raised stats1 frames
                      | Returns subject =>
                          let subj := or_else subject "" in
                          if Py.contains (Py.lower WORKFLOW_SUBJECT_KEY) (Py.lower subj) then
                            let stats2 := bump "workflow_emails" stats1 in
                            match read_body msg with
                            | Raises => raised stats2 frames
                            | Returns text =>
                                let body := or_else text "" in
                                let serial := extract_field body "Serial Number" in
                                if serial_accepted serial then
                                  (Some has_excel, true, bump "entries_created" stats2,
                                   frames,
                                   workflow_data st ++
                                     [workflow_record body who (default "" serial)])
                                else (Some has_excel, false, stats2, frames,
                                      workflow_data st)
                            end
                          else (Some has_excel, false, stats1, frames, workflow_data st)
                      end
                  end
              end
          end
      end in
    let excel_seen := default false has_excel in
    {| stats := if excel_seen then bump "with_excel" stats2 else bump "no_excel" stats2;
       data_frames := frames;
       workflow_data := records;
       no_row_emails :=
         if negb excel_seen && negb has_workflow then no_row_emails st ++ [f]
         else no_row_emails st |}.

Definition process_files_try (entries : list (string * attempt Reading)) : State :=
  foldl process_file_try initial_state entries.

(** ** Step 3: the audit passes over the worksheet *)

Section Audit.

(** The table [corrections], in the order of its entries. *)
Variable corrections : list (string * string).

(** The body of the [try] of the date pass: [pd.to_datetime(cell.value)]
    followed by the reading of its year and month; [None] when it raises.  A
    value that converts to NaT does not raise: it gives [Some NanNan]. *)
Variable to_ym : cell -> option year_month.

(** [str(cell.value).strip().upper() if cell.value else ""] *)
Definition location_val (v : cell) : string :=
  if cell_truthy v then Py.upper (Py.strip (str v)) else "".

(** The loop over [corrections.items()] with its [break]. *)
Fixpoint apply_corrections (table : list (string * string)) (clean_val : string)
    : option string :=
  match table with
  | [] => None
  | (bad, good) :: table' =>
      if Py.startswith clean_val bad
      then Some (Py.replace clean_val bad good (Some 1))
      else apply_corrections table' clean_val
  end.

Record LocationPass := {
  loc_values : list cell;        (* the cells after the pass *)
  loc_fill : list bool;          (* which cells were filled yellow *)
  corrections_count : nat;
  missing_loc_count : nat
}.

Definition location_step (acc : LocationPass) (v : cell) : LocationPass :=
  let val := location_val v in
  if bool_decide (val ∈ skip_locs) then
    {| loc_values := loc_values acc ++ [v];
       loc_fill := loc_fill acc ++ [true];
       corrections_count := corrections_count acc;
       missing_loc_count := S (missing_loc_count acc) |}
  else
    let clean_val := Py.replace val " " "" None in
    match apply_corrections corrections clean_val with
    | Some fixed =>
        {| loc_values := loc_values acc ++ [Str fixed];
           loc_fill := loc_fill acc ++ [false];
           corrections_count := S (corrections_count acc);
           missing_loc_count := missing_loc_count acc |}
    | None =>
        {| loc_values := loc_values acc ++ [v];
           loc_fill := loc_fill acc ++ [false];
           corrections_count := corrections_count acc;
           missing_loc_count := missing_loc_count acc |}
    end.

Definition location_pass (cells : list cell) : LocationPass :=
  foldl location_step
        {| loc_values := []; loc_fill := []; corrections_count := 0;
           missing_loc_count := 0 |} cells.

(** [collections.Counter] as a list of keys with their counts, in the
    order the keys were first seen. *)
Fixpoint counter_add (x : year_month) (cnt : list (year_month * nat))
    : list (year_month * nat) :=
  match cnt with
  | [] => [(x, 1)]
  | (y, n) :: cnt' =>
      if bool_decide (x = y) then (y, S n) :: cnt'
      else (y, n) :: counter_add x cnt'
  end.

Definition Counter (l : list year_month) : list (year_month * nat) :=
  foldl (flip counter_add) [] l.

(** One turn of [max(items, key=count)]: the best entry changes only for
    an entry with a larger count, so the first of the largest is kept. *)
Definition max_step (best : option (year_month * nat)) (it : year_month * nat)
    : option (year_month * nat) :=
  match best with
  | None => Some it
  | Some b => if b.2 <? it.2 then Some it else Some b
  end.

Definition max_by_count (items : list (year_month * nat))
    : option (year_month * nat) :=
  foldl max_step None items.

(** [cnt.most_common(1)] *)
Definition most_common_1 (cnt : list (year_month * nat))
    : list (year_month * nat) :=
  option_list (max_by_count cnt).

(** The date pass: the yellow fills and [outliers]; [None] would be an
    [IndexError] on [most_common(1)[0]]. *)
Definition date_pass (cells : list cell) : option (list bool * nat) :=
  let dates := omap to_ym cells in
  if bool_decide (dates = []) then Some (replicate (length cells) false, 0)
  else
    match most_common_1 (Counter dates) with
    | (mode_ym, _) :: _ =>
        let fill := (fun v => match to_ym v with
                              | Some ym => bool_decide (ym ≠ mode_ym)
                              | None => false
                              end) <$> cells in
        Some (fill, length (filter (fun b => b = true) fill))
    | [] => None
    end.

(** The optional check of the serials: the answer to the first dialog,
    the chosen path, and the first column of the reference file ([None]
    when reading it raises).  The result holds the yellow fills,
    [missing_serials] and [check_performed]. *)
Definition serial_check (answer : string) (ref_path : option string)
    (masters : option (list cell)) (serials : list cell)
    : list bool * nat * bool :=
  let skipped := (replicate (length serials) false, 0, false) in
  if bool_decide (answer = "Yes") then
    if Py.truthy (or_else ref_path "") then
      match masters with
      | Some first_col =>
          let master_set : gset string :=
            list_to_set ((fun v => Py.strip (str v)) <$> first_col) in
          let fill :=
            (fun v => let s_val := Py.strip (str v) in
                      Py.truthy s_val && bool_decide (s_val ∉ master_set))
              <$> serials in
          (fill, length (filter (fun b => b = true) fill), true)
      | None => skipped
      end
    else skipped
  else skipped.

(** The last line of the report. *)
Definition serial_line (missing_serials : nat) (check_performed : bool) : string :=
  if check_performed then "Unknown Serials: " +:+ pretty missing_serials
  else "Serial Check: Skipped".

End Audit.

(** ** Step 3: the header row and the column widths *)

(** [headers]: the texts of the first worksheet row, trimmed and in lower
    case.  The first row holds the column names of the frame written. *)
Definition headers (first_row : list string) : list string :=
  (fun c => Py.lower (Py.strip c)) <$> first_row.

(** [l.index(x)]; [None] stands for the [ValueError]. *)
Fixpoint list_index (x : string) (l : list string) : option nat :=
  match l with
  | [] => None
  | y :: l' => if bool_decide (y = x) then Some 0 else S <$> list_index x l'
  end.

(** The column numbers [loc_idx], [date_idx] and [ser_idx]; [None] is the
    exit on a missing column. *)
Definition find_columns (first_row : list string) : option (nat * nat * nat) :=
  let hs := headers first_row in
  match list_index "location" hs with
  | None => None
  | Some loc =>
      match list_index "date of latest change" hs with
      | None => None
      | Some date =>
          match list_index "serial number" hs with
          | None => None
          | Some ser => Some (loc + 1, date + 1, ser + 1)
          end
      end
  end.

(** The width given to a worksheet column, its header cell included: two
    more than the longest text of a cell whose value is true. *)
Definition column_width (col : list cell) : nat :=
  foldl (fun len v => if cell_truthy v then Nat.max len (String.length (str v)) else len)
        0 col + 2.

(** ** Helpers for the statements on field extraction *)

(** Every character of [s] is in the class [p]. *)
Fixpoint all_chars (p : ascii -> bool) (s : string) : bool :=
  match s with
  | "" => true
  | String c s' => p c && all_chars p s'
  end.

(** A greedy star over [cls] takes nothing at the start of [s]. *)
Definition stops (cls : ascii -> bool) (s : string) : bool :=
  match s with
  | "" => true
  | String c _ => negb (cls c)
  end.

(** ** The location rule, in the words of the specification

    The rule is stated here a second time, from the text of the
    specification, to be compared with [location_pass]. *)

(** The text of a worksheet cell; an empty cell reads as the empty text. *)
Definition cell_text (v : cell) : string :=
  if cell_truthy v then str v else "".

(** A text with its spaces taken out. *)
Fixpoint without_spaces (s : string) : string :=
  match s with
  | "" => ""
  | String c s' =>
      if Ascii.eqb c " " then without_spaces s' else String c (without_spaces s')
  end.

(** The first entry of the table, in its order, whose key starts [s]. *)
Definition first_prefix_key (table : list (string * string)) (s : string)
    : option (string * string) :=
  head (filter (fun kv => Py.startswith s kv.1 = true) table).

Inductive location_outcome :=
| LocMissing                       (* in the skip set: marked, nothing else *)
| LocCorrected (fixed : string)    (* a key matched: its prefix replaced *)
| LocKept.                         (* no key matched: left as it is *)

Definition location_rule (table : list (string * string)) (v : cell)
    : location_outcome :=
  let val := Py.upper (Py.strip (cell_text v)) in
  if bool_decide (val ∈ skip_locs) then LocMissing
  else
    let clean := without_spaces val in
    match first_prefix_key table clean with
    | Some (bad, good) => LocCorrected (good +:+ Py.drop (String.length bad) clean)
    | None => LocKept
    end.

Definition is_missing (o : location_outcome) : bool :=
  match o with LocMissing => true | _ => false end.

Definition is_corrected (o : location_outcome) : bool :=
  match o with LocCorrected _ => true | _ => false end.

Definition outcome_value (v : cell) (o : location_outcome) : cell :=
  match o with LocCorrected fixed => Str fixed | _ => v end.

(** ** Helpers for the statement of the priority sort *)

(** A row without the two helper columns of the sort. *)
Definition without_helpers (r : row) : row := delete "_p" (delete "_idx" r).

(** A row with its two helper columns set, as the sort sees the row at
    position [i]. *)
Definition tag (i : nat) (r : row) : row :=
  <["_idx" := Int (Z.of_nat i)]> (<["_p" := Bool (is_priority r)]> r).

Fixpoint tag_from (j : nat) (l : list row) : list row :=
  match l with
  | [] => []
  | r :: l' => tag j r :: tag_from (S j) l'
  end.

(** The rows the sort puts in front: their helper column [_p] is set. *)
Definition in_front (x : row) : Prop := (sort_key x).1 = true.

(** ** Helpers for the statement of the date pass *)

(** How often [ym] occurs among the dates. *)
Definition occurrences (ym : year_month) (dates : list year_month) : nat :=
  length (filter (fun d => d = ym) dates).

(** ** Helpers for the statements on the fallback fills *)

(** The frame in which a fallback fill replaces the missing values of the
    column [c]: the column is created with the default first when the frame
    lacks it. *)
Definition fill_column_frame (df : DataFrame) (c : string) (v : cell) : DataFrame :=
  if bool_decide (c ∈ columns df) then df else set_column_scalar df c v.

(** ** Helpers for the statements on the loop of step 1 *)

(** Some attachment of the message has an Excel file name. *)
Definition has_excel_attachment (msg : Message) : bool :=
  existsb (fun att => is_excel_name (or_else (longFilename att) "")) (attachments msg).

(** The message carries the workflow marker in its subject. *)
Definition has_marker (msg : Message) : bool :=
  Py.contains (Py.lower WORKFLOW_SUBJECT_KEY) (Py.lower (or_else (subject msg) "")).

(** The message gets a workflow record. *)
Definition makes_workflow_record (msg : Message) : bool :=
  has_marker msg &&
  serial_accepted (extract_field (or_else (body msg) "") "Serial Number").

(** The directory entry is listed among the files that gave nothing. *)
Definition yields_nothing (opened : option Message) : bool :=
  match opened with
  | None => true
  | Some msg => negb (has_excel_attachment msg) && negb (makes_workflow_record msg)
  end.

(** Which directory entries each counter of [stats] counts, and which
    entries are listed in [no_row_emails]. *)
Definition counts_total (e : string * option Message) : bool :=
  Py.endswith (Py.lower e.1) ".msg".

Definition counts_with_excel (e : string * option Message) : bool :=
  counts_total e &&
  match e.2 with Some msg => has_excel_attachment msg | None => false end.

Definition counts_workflow (e : string * option Message) : bool :=
  counts_total e && match e.2 with Some msg => has_marker msg | None => false end.

Definition counts_entry (e : string * option Message) : bool :=
  counts_total e &&
  match e.2 with Some msg => makes_workflow_record msg | None => false end.

Definition listed (e : string * option Message) : bool :=
  counts_total e && yields_nothing e.2.

Definition tally (P : string * option Message -> bool)
    (entries : list (string * option Message)) : nat :=
  length (filter (fun e => P e = true) entries).

(** A frame as the loop stores it in [data_frames]. *)
Definition stored_frame (df : DataFrame) : Prop :=
  df_empty df = false /\
  SERIAL_COL ∈ columns df /\ DATE_COL ∈ columns df /\ "Changed By" ∈ columns df /\
  Forall (fun r => bad_serial (cell_at r SERIAL_COL) = false /\
                   isna (cell_at r DATE_COL) = false /\
                   isna (cell_at r "Changed By") = false) (rows df).


(** ** Helpers for the statement on a [try] that raises part-way *)

(** The attachments of a message, when the name of each is read. *)
Fixpoint all_read (atts : list (attempt Attachment)) : option (list Attachment) :=
  match atts with
  | [] => Some []
  | Raises :: _ => None
  | Returns att :: atts' => cons att <$> all_read atts'
  end.

(** What the [try] holds when it reaches the test of the subject: the
    sender, the attachments and the subject; [None] when one of these
    accesses raises. *)
Definition read_head (msg : Reading)
    : option (string * list Attachment * option string) :=
  match read_sender msg, read_attachments msg with
  | Returns who, Returns atts =>
      match all_read atts, read_subject msg with
      | Some files, Returns subj => Some (who, files, subj)
      | _, _ => None
      end
  | _, _ => None
  end.

(** The [try] reaches the test of the subject and finds the marker. *)
Definition marker_seen (msg : Reading) : bool :=
  match read_head msg with
  | Some (_, _, subj) =>
      Py.contains (Py.lower WORKFLOW_SUBJECT_KEY) (Py.lower (or_else subj ""))
  | None => false
  end.

(** The message that the [try] has read when it runs to its end; [None]
    when an access raises.  The body is read under the marker only. *)
Definition read_message (msg : Reading) : option Message :=
  match read_head msg with
  | Some (who, files, subj) =>
      if Py.contains (Py.lower WORKFLOW_SUBJECT_KEY) (Py.lower (or_else subj "")) then
        match read_body msg with
        | Returns text =>
            Some {| subject := subj; body := text; sender := who; attachments := files |}
        | Raises => None
        end
      else Some {| subject := subj; body := None; sender := who; attachments := files |}
  | None => None
  end.

(** A directory entry with the message of a [try] that ran to its end. *)
Definition completed (e : string * attempt Reading) : string * option Message :=
  (e.1, match e.2 with Returns msg => read_message msg | Raises => None end).

(** The entries that [workflow_emails] counts. *)
Definition counts_marker (e : string * attempt Reading) : bool :=
  Py.endswith (Py.lower e.1) ".msg" &&
  match e.2 with Returns msg => marker_seen msg | Raises => false end.

(** The [try] of the entry ends without an exception, or fails at once on
    opening the file. *)
Definition no_late_failure (e : string * attempt Reading) : Prop :=
  match e.2 with
  | Returns msg => is_Some (read_message msg)
  | Raises => True
  end.

(** ** Helpers for the statement on the counters *)


(** A line feed, for the bodies used in the examples. *)
Definition nl : string := String "010" "".

(** * Properties *)

(** Closed decidable goals are settled by evaluation. *)
Ltac by_compute := apply (bool_decide_unpack _); vm_compute; exact I.

(** ** Text *)

Lemma app_String (a : ascii) (s t : string) :
  String a s +:+ t = String a (s +:+ t).
Proof. reflexivity. Qed.

Lemma app_empty (t : string) : "" +:+ t = t.
Proof. reflexivity. Qed.

Lemma app_empty_r (t : string) : t +:+ "" = t.
Proof. induction t as [|a t IH]; [done|]. by rewrite app_String, IH. Qed.

(** ** The counters of step 1 *)

Lemma bump_eq (k : string) (st : gmap string nat) : bump k st !!! k = S (st !!! k).
Proof. unfold bump. apply lookup_total_insert_eq. Qed.

Lemma bump_ne (k k' : string) (st : gmap string nat) :
  k ≠ k' -> bump k st !!! k' = st !!! k'.
Proof. intros Hne. unfold bump. by apply lookup_total_insert_ne. Qed.

Ltac bump_simpl :=
  repeat first [ rewrite bump_eq | rewrite bump_ne by done ].







(** ** Row validation *)

Lemma isna_junk (v : cell) :
  isna v = true -> Py.lower (Py.strip (str v)) ∈ junk_serials.
Proof.
  destruct v; try discriminate; intros _; by_compute.
Qed.

Lemma bad_serial_false (v : cell) :
  bad_serial v = false <->
  isna v = false /\ Py.lower (Py.strip (str v)) ∉ junk_serials.
Proof.
  unfold bad_serial. rewrite orb_false_iff, bool_decide_eq_false. tauto.
Qed.

Lemma remove_bad_rows_guard (df : DataFrame) (r : row) :
  r ∈ rows df -> SERIAL_COL ∈ columns df ->
  df_empty df || negb (bool_decide (SERIAL_COL ∈ columns df)) = false.
Proof.
  intros Hr Hc. unfold df_empty.
  rewrite (bool_decide_eq_true_2 _ Hc).
  destruct (columns df); [by apply elem_of_nil in Hc|].
  destruct (rows df); [by apply elem_of_nil in Hr|]. done.
Qed.

(** C4: [remove_bad_rows] keeps a row exactly when the frame has the
    Serial Number column, the row has a value there that is not missing, and
    that value, trimmed and in lower case, is none of the reserved junk
    values; in particular a text serial is rejected only for being one of
    them. *)
Theorem remove_bad_rows_keeps_iff (df : DataFrame) (r : row) :
  (r ∈ rows (remove_bad_rows df) <->
   r ∈ rows df /\ SERIAL_COL ∈ columns df /\
   exists v, r !! SERIAL_COL = Some v /\ isna v = false /\
             Py.lower (Py.strip (str v)) ∉ junk_serials) /\
  (forall s : string,
     bad_serial (Str s) = false <-> Py.lower (Py.strip s) ∉ junk_serials).
Proof.
  split.
  - split.
    + unfold remove_bad_rows.
      destruct (df_empty df || negb (bool_decide (SERIAL_COL ∈ columns df))) eqn:Hg;
        simpl; [by intros ?%elem_of_nil|].
      apply orb_false_iff in Hg as [_ Hc].
      apply negb_false_iff, bool_decide_eq_true in Hc.
      rewrite list_elem_of_filter, bad_serial_false. intros [[Hna Hj] Hr].
      repeat split; [done..|].
      unfold cell_at in *. destruct (r !! SERIAL_COL) as [v|] eqn:Hv; [by eauto|].
      discriminate.
    + intros (Hr & Hc & v & Hv & Hna & Hj).
      unfold remove_bad_rows. rewrite (remove_bad_rows_guard df r Hr Hc). simpl.
      apply list_elem_of_filter. split; [|done].
      apply bad_serial_false. unfold cell_at. by rewrite Hv.
  - intros s. rewrite bad_serial_false. simpl. tauto.
Qed.

(** ** Field extraction and the workflow record *)

(** C1: on a body whose label line is followed by a blank line and then by a
    line of text, [extract_field] returns that later line: the blanks after
    the colon of the pattern run over the line ends, so the blank line is
    skipped and the loop over the following lines never sees it. *)
Theorem extract_field_skips_blank_line :
  extract_field ("Serial Number:" +:+ nl +:+ nl +:+ "ABC123") "Serial Number"
  = Some "ABC123".
Proof. by vm_compute. Qed.

Lemma app_assoc_string (s t u : string) : (s +:+ t) +:+ u = s +:+ (t +:+ u).
Proof. induction s as [|a s IH]; [done|]. by rewrite !app_String, IH. Qed.

Lemma rev_app_spec (s acc : string) : String.rev_app s acc = String.rev s +:+ acc.
Proof.
  unfold String.rev. revert acc. induction s as [|a s IH]; intros acc; [done|].
  cbn [String.rev_app]. rewrite (IH (String a "")), IH.
  by rewrite app_assoc_string.
Qed.

Lemma rev_rev_app (s acc : string) :
  String.rev (String.rev_app s acc) = String.rev acc +:+ s.
Proof.
  revert acc. induction s as [|a s IH]; intros acc.
  - by rewrite app_empty_r.
  - cbn [String.rev_app]. rewrite IH. unfold String.rev at 1.
    cbn [String.rev_app]. by rewrite rev_app_spec, app_assoc_string.
Qed.

Lemma all_chars_rev_app (p : ascii -> bool) (s acc : string) :
  all_chars p (String.rev_app s acc) = all_chars p s && all_chars p acc.
Proof.
  revert acc. induction s as [|a s IH]; intros acc; [done|].
  cbn [String.rev_app all_chars]. rewrite IH. cbn [all_chars].
  by destruct (p a), (all_chars p s), (all_chars p acc).
Qed.

Lemma lstrip_of_empty (p : ascii -> bool) (s : string) :
  Py.lstrip_of p s = "" -> all_chars p s = true.
Proof.
  induction s as [|a s IH]; [done|]. simpl. by destruct (p a).
Qed.

(** A text that starts with a character outside the class is not stripped
    to nothing. *)
Lemma strip_of_truthy (p : ascii -> bool) (c : ascii) (s : string) :
  p c = false -> Py.truthy (Py.strip_of p (String c s)) = true.
Proof.
  intros Hc. unfold Py.strip_of, Py.rstrip_of. cbn [Py.lstrip_of]. rewrite Hc.
  destruct (Py.lstrip_of p (String.rev (String c s))) as [|a t] eqn:Hl.
  - apply lstrip_of_empty in Hl. unfold String.rev in Hl.
    rewrite all_chars_rev_app in Hl. cbn [all_chars] in Hl.
    rewrite Hc in Hl. discriminate Hl.
  - unfold String.rev. cbn [String.rev_app]. rewrite rev_app_spec.
    destruct (String.rev t); reflexivity.
Qed.

(** A greedy star that can take all of [ws] and then stops takes it, when
    the continuation succeeds behind it. *)
Lemma greedy_run (cls : ascii -> bool)
    (k : string -> option ascii -> string -> nat -> option Re.match_object)
    (ws s : string) (m : string) :
  all_chars cls ws = true -> stops cls s = true ->
  forall acc,
  (forall prev pos, exists e,
     k (String.rev_app ws acc) prev s pos = Some {| Re.group1 := m; Re.m_end := e |}) ->
  forall prev pos, exists e,
    Re.greedy cls k acc prev (ws +:+ s) pos = Some {| Re.group1 := m; Re.m_end := e |}.
Proof.
  intros Hws Hs. induction ws as [|w ws IH]; intros acc Hk prev pos.
  - rewrite app_empty. destruct (Hk prev pos) as [e He]. exists e.
    destruct s as [|c s]; cbn [Re.greedy]; [done|].
    simpl in Hs. apply negb_true_iff in Hs. by rewrite Hs.
  - cbn [all_chars] in Hws. apply andb_true_iff in Hws as [Hw Hws].
    rewrite app_String. cbn [Re.greedy]. rewrite Hw.
    destruct (IH Hws (String w acc) Hk (Some w) (S pos)) as [e ->]. by exists e.
Qed.

Lemma match_here_label (label : string) (re : list Re.atom) (s g m : string) :
  (forall prev pos, exists e,
     Re.match_here re g prev s pos = Some {| Re.group1 := m; Re.m_end := e |}) ->
  forall prev pos, exists e,
    Re.match_here (Re.escape label ++ re) g prev (label +:+ s) pos
    = Some {| Re.group1 := m; Re.m_end := e |}.
Proof.
  intros Hre. induction label as [|a label IH]; intros prev pos; [apply Hre|].
  rewrite app_String. cbn [Re.escape app Re.match_here].
  rewrite Ascii.eqb_refl. apply IH.
Qed.

(** The match of the pattern on a label line: whatever blanks [ws] follow
    the colon, line ends included, group 1 is the text that comes after
    them up to its line end. *)
Lemma field_pattern_match (label ws v rest : string) (c : ascii) :
  all_chars Py.isspace ws = true ->
  Py.isspace c = false ->
  all_chars Re.dot (String c v) = true ->
  Re.at_eol rest = true ->
  exists e,
    Re.search (field_pattern label)
              (label +:+ ":" +:+ ws +:+ String c v +:+ rest)
    = Some {| Re.group1 := String c v; Re.m_end := e |}.
Proof.
  intros Hws Hc Hv Hrest.
  assert (exists e, Re.match_here (field_pattern label) "" None
            (label +:+ ":" +:+ ws +:+ String c v +:+ rest) 0
          = Some {| Re.group1 := String c v; Re.m_end := e |}) as [e He].
  { unfold field_pattern. cbn [app Re.match_here Re.at_bol].
    apply match_here_label. intros prev pos.
    cbn [Re.match_here]. rewrite app_String. cbn [Re.greedy Py.isspace].
    cbn [Re.match_here]. rewrite Ascii.eqb_refl, app_empty.
    apply greedy_run; [done|by rewrite app_String; simpl; rewrite Hc|].
    intros prev1 pos1. cbn [Re.match_here].
    apply greedy_run; [done| |].
    { destruct rest as [|r rest]; [done|]. simpl in Hrest. simpl.
      destruct (Ascii.eqb_spec r "010") as [->|]; [done|].
      destruct r as [[] [] [] [] [] [] [] []]; try discriminate; congruence. }
    intros prev2 pos2. cbn [Re.match_here]. rewrite Hrest.
    exists pos2. by rewrite rev_rev_app. }
  exists e. unfold Re.search. destruct (label +:+ _); cbn [Re.search_from]; by rewrite He.
Qed.

(** X1: [extract_field] on a label line with nothing behind its colon: it
    returns the trimmed text of the next line that is not blank, however
    many blank lines lie between (none, one or more). *)
Lemma extract_field_after_blanks (label ws v rest : string) (c : ascii) :
  all_chars Py.isspace ws = true ->
  Py.isspace c = false ->
  all_chars Re.dot (String c v) = true ->
  Re.at_eol rest = true ->
  extract_field (label +:+ ":" +:+ ws +:+ String c v +:+ rest) label
  = Some (Py.strip (String c v)).
Proof.
  intros Hws Hc Hv Hrest. unfold extract_field.
  destruct (field_pattern_match label ws v rest c Hws Hc Hv Hrest) as [e ->].
  cbn [Re.group1]. unfold Py.strip. rewrite strip_of_truthy by done.
  destruct label; reflexivity.
Qed.

(** The three layouts of a field: the value on the label line, on the next
    line, and behind a blank line; and a label line with nothing after it. *)
Example extract_field_inline :
  extract_field ("Hello" +:+ nl +:+ "serial number :  ABC123 " +:+ nl) "Serial Number"
  = Some "ABC123".
Proof. by vm_compute. Qed.

Example extract_field_next_line :
  extract_field ("Serial Number:" +:+ nl +:+ " ABC123 " +:+ nl +:+ "Date: x") "Serial Number"
  = Some "ABC123".
Proof. by vm_compute. Qed.

Example extract_field_nothing_after :
  extract_field ("Serial Number:  " +:+ nl +:+ nl) "Serial Number" = None.
Proof. by vm_compute. Qed.

(** [clean_name] on the two header layouts. *)
Example clean_name_comma : clean_name (Some "Doe, John") = Some "John Doe".
Proof. by vm_compute. Qed.

Example clean_name_address :
  clean_name (Some (String "034" "Jane Smith" +:+ String "034" " <jane@x.com>"))
  = Some ("Jane Smith" +:+ String "034" "").
Proof. by vm_compute. Qed.

(** Without case, [serial_accepted] turns down an absent serial and the
    three values of its own list only. *)
Lemma serial_accepted_false (serial : option string) :
  serial_accepted serial = false <->
  serial = None \/ exists s, serial = Some s /\ Py.lower s ∈ ["nan"; "none"; ""].
Proof.
  destruct serial as [s|]; simpl.
  - rewrite andb_false_iff, negb_false_iff, bool_decide_eq_true. split.
    + intros [Hs|Hs]; right; exists s; split; try done.
      destruct s; [|discriminate]. by_compute.
    + intros [|(s' & [= <-] & Hs)]; [done|by right].
  - split; [by left|done].
Qed.

(** A turn of the loop appends one workflow record at most, and none when
    [serial_accepted] fails. *)
Lemma process_file_records (st : State) (f : string) (opened : option Message) :
  let st' := process_file st (f, opened) in
  (workflow_data st' = workflow_data st /\
   stats st' !!! "entries_created" = stats st !!! "entries_created") \/
  (exists msg r, opened = Some msg /\
     serial_accepted (extract_field (or_else (body msg) "") "Serial Number") = true /\
     workflow_data st' = workflow_data st ++ [r] /\
     stats st' !!! "entries_created" = S (stats st !!! "entries_created")).
Proof.
  unfold process_file.
  destruct (Py.endswith (Py.lower f) ".msg"); simpl; [|by left].
  destruct opened as [msg|]; simpl.
  - destruct (foldl _ _ _) as [has_excel frames].
    destruct (Py.contains _ _);
      [destruct (serial_accepted _) eqn:Hs|]; destruct has_excel; simpl;
      bump_simpl; try (by left); right; do 2 eexists; split_and!; done.
  - bump_simpl. by left.
Qed.

(** C3: a message with the workflow marker in its subject and the body
    [Serial Number: N/A] gets a workflow record and adds one to
    [entries_created], although [N/A] is a junk serial for
    [remove_bad_rows], which drops the record in step 2. *)
Theorem workflow_record_for_junk_serial :
  let msg := {| subject := Some WORKFLOW_SUBJECT_KEY;
                body := Some "Serial Number: N/A";
                sender := "Pat"; attachments := [] |} in
  let st := process_file initial_state ("form.msg", Some msg) in
  extract_field "Serial Number: N/A" "Serial Number" = Some "N/A" /\
  bad_serial (Str "N/A") = true /\
  length (workflow_data st) = 1 /\
  stats st !!! "entries_created" = 1 /\
  rows (remove_bad_rows (frame_of_records (workflow_data st))) = [].
Proof. by vm_compute. Qed.


(** ** The cross-reference against the master list *)

Lemma truthy_true (s : string) : Py.truthy s = true <-> s <> "".
Proof. destruct s; simpl; split; congruence. Qed.

Lemma length_filter_true {A} (f : A -> bool) (l : list A) :
  length (filter (fun b => b = true) (f <$> l)) =
  length (filter (fun x => f x = true) l).
Proof.
  induction l as [|x l IH]; [done|].
  rewrite fmap_cons, !filter_cons. destruct (f x) eqn:Hf.
  - rewrite !decide_True by done. simpl. by rewrite IH.
  - rewrite !decide_False by congruence. done.
Qed.

Lemma length_filter_ext {A} (P Q : A -> Prop)
    `{!forall x, Decision (P x)} `{!forall x, Decision (Q x)} (l : list A) :
  (forall x, P x <-> Q x) -> length (filter P l) = length (filter Q l).
Proof.
  intros HPQ. induction l as [|x l IH]; [done|].
  rewrite !filter_cons. destruct (decide (P x)) as [HP|HP].
  - rewrite decide_True by by apply HPQ. simpl. by rewrite IH.
  - rewrite decide_False by by rewrite <-HPQ. done.
Qed.

Lemma bool_eq_decide (b : bool) (P : Prop) `{!Decision P} :
  (b = true <-> P) -> b = bool_decide P.
Proof.
  intros H. destruct b.
  - symmetry. apply bool_decide_eq_true. by apply H.
  - symmetry. apply bool_decide_eq_false. intros HP. by apply H in HP.
Qed.

Lemma unknown_serial_flag (known : list string) (v : cell) :
  Py.truthy (Py.strip (str v)) &&
    bool_decide (Py.strip (str v) ∉ (list_to_set known : gset string)) = true <->
  Py.strip (str v) <> "" /\ Py.strip (str v) ∉ known.
Proof.
  rewrite andb_true_iff, truthy_true, bool_decide_eq_true, elem_of_list_to_set.
  done.
Qed.

(** C9: with a reference list read from a chosen file, the check marks
    exactly the serials whose trimmed text is not empty and not in the list,
    and counts them (for the list SN001, SN002 and the serials SN001, SN003
    it marks SN003 alone); when the check is declined, no file is chosen or
    the file fails to read, nothing is marked, the count is zero and the
    check is reported as not performed; the report line of a check that was
    not performed differs from the line of any count. *)
Theorem serial_check_spec :
  (forall (c : ascii) (p : string) (first_col serials : list cell),
     let known : list string := (fun v => Py.strip (str v)) <$> first_col in
     let unknown (v : cell) : Prop :=
       Py.strip (str v) <> "" /\ Py.strip (str v) ∉ known in
     serial_check "Yes" (Some (String c p)) (Some first_col) serials =
       ((fun v => bool_decide (unknown v)) <$> serials,
        length (filter unknown serials), true)) /\
  serial_check "Yes" (Some "master.xlsx") (Some [Str "SN001"; Str "SN002"])
               [Str "SN001"; Str "SN003"] = ([false; true], 1, true) /\
  (forall (answer : string) (ref_path : option string)
          (masters : option (list cell)) (serials : list cell),
     answer <> "Yes" \/ ref_path = None \/ ref_path = Some "" \/ masters = None ->
     serial_check answer ref_path masters serials =
       (replicate (length serials) false, 0, false)) /\
  (forall n m : nat,
     serial_line n false = "Serial Check: Skipped" /\
     serial_line m true = "Unknown Serials: " +:+ pretty m /\
     serial_line n false <> serial_line m true).
Proof.
  split_and!.
  - intros c p first_col serials known unknown. unfold serial_check.
    rewrite bool_decide_eq_true_2 by done. simpl.
    rewrite length_filter_true. f_equal. f_equal.
    + apply list_fmap_ext. intros _ v _. apply bool_eq_decide.
      apply unknown_serial_flag.
    + apply length_filter_ext. intros v. apply unknown_serial_flag.
  - by vm_compute.
  - intros answer ref_path masters serials H. unfold serial_check.
    destruct (bool_decide (answer = "Yes")) eqn:Ha; [|done].
    apply bool_decide_eq_true in Ha.
    destruct H as [H|[H|[H|H]]]; subst; [done..|].
    by destruct (Py.truthy _).
  - intros n m. split_and!; [done..|]. unfold serial_line. discriminate.
Qed.

(** The skipping cases at an input: the check is declined. *)
Lemma serial_check_spec_witness :
  "Skip" <> "Yes" /\
  serial_check "Skip" None None [Str "SN001"] = (replicate 1 false, 0, false).
Proof.
  split; [discriminate|].
  apply (proj1 (proj2 (proj2 serial_check_spec))). left. discriminate.
Defined.


(** ** The location pass *)

Lemma startswith_prefix (s p : string) :
  Py.startswith s p = true <-> exists rest, s = p +:+ rest.
Proof.
  revert s. induction p as [|a p IH]; intros s; simpl.
  - split; [intros _; exists s; reflexivity|done].
  - destruct s as [|b s].
    { split; [done|]. intros [rest H]. by rewrite app_String in H. }
    destruct (Ascii.eqb_spec a b) as [->|Hne].
    + rewrite IH. split; intros [rest H]; exists rest.
      * by rewrite app_String, H.
      * rewrite app_String in H. congruence.
    + split; [done|]. intros [rest H]. rewrite app_String in H. congruence.
Qed.

Lemma replace_spaces (s : string) : Py.replace s " " "" None = without_spaces s.
Proof.
  unfold Py.replace. induction s as [|c s IH]; [done|].
  cbn [Py.replace_go without_spaces]. rewrite bool_decide_eq_false_2 by done.
  cbn [negb andb Py.startswith].
  destruct (Ascii.eqb_spec " " c) as [<-|Hne].
  - simpl. exact IH.
  - rewrite (proj2 (Ascii.eqb_neq c " ")) by congruence. by rewrite IH.
Qed.

Lemma replace_go_exhausted (old new : string) (k : nat) (s : string) :
  Py.replace_go old new (Some 0) k s = Py.drop k s.
Proof.
  revert k. induction s as [|c s IH]; intros [|k]; simpl; try done.
  by rewrite IH.
Qed.

Lemma replace_empty_exhausted (new s : string) :
  Py.replace_empty new (Some 0) s = s.
Proof. by destruct s. Qed.

(** Replacing the first occurrence of a prefix replaces the prefix. *)
Lemma replace_prefix (s bad good : string) :
  Py.startswith s bad = true ->
  Py.replace s bad good (Some 1) = good +:+ Py.drop (String.length bad) s.
Proof.
  destruct bad as [|a bad]; simpl.
  - intros _. destruct s as [|c s]; simpl; [done|].
    by rewrite replace_empty_exhausted.
  - destruct s as [|b s]; [done|]. intros H. simpl.
    rewrite H. simpl. by rewrite replace_go_exhausted.
Qed.

Lemma apply_corrections_first (table : list (string * string)) (clean : string) :
  apply_corrections table clean =
  (fun kv => kv.2 +:+ Py.drop (String.length kv.1) clean) <$>
    first_prefix_key table clean.
Proof.
  unfold first_prefix_key.
  induction table as [|[bad good] table IH]; [done|].
  rewrite filter_cons. simpl.
  destruct (Py.startswith clean bad) eqn:Hp.
  - rewrite decide_True by done. simpl. by rewrite replace_prefix.
  - rewrite decide_False by congruence. exact IH.
Qed.

Lemma location_val_text (v : cell) :
  location_val v = Py.upper (Py.strip (cell_text v)).
Proof. unfold location_val, cell_text. by destruct (cell_truthy v). Qed.

Lemma location_step_rule (table : list (string * string)) (acc : LocationPass)
    (v : cell) :
  let o := location_rule table v in
  location_step table acc v =
  {| loc_values := loc_values acc ++ [outcome_value v o];
     loc_fill := loc_fill acc ++ [is_missing o];
     corrections_count := corrections_count acc + (if is_corrected o then 1 else 0);
     missing_loc_count := missing_loc_count acc + (if is_missing o then 1 else 0) |}.
Proof.
  unfold location_step, location_rule. cbv zeta.
  rewrite location_val_text, replace_spaces, apply_corrections_first.
  destruct (bool_decide _); simpl.
  - f_equal; lia.
  - destruct (first_prefix_key _ _) as [[bad good]|]; simpl; f_equal; lia.
Qed.

Lemma length_filter_snoc {A} (f : A -> bool) (l : list A) (x : A) :
  length (filter (fun y => f y = true) (l ++ [x])) =
  length (filter (fun y => f y = true) l) + (if f x then 1 else 0).
Proof.
  rewrite filter_app, length_app, filter_cons. destruct (f x).
  - by rewrite decide_True.
  - by rewrite decide_False.
Qed.

Lemma location_pass_snoc (table : list (string * string)) (cells : list cell)
    (v : cell) :
  location_pass table (cells ++ [v]) =
  location_step table (location_pass table cells) v.
Proof. unfold location_pass. by rewrite foldl_snoc. Qed.

(** C7: the location pass follows the rule of the specification cell by
    cell: the trimmed, upper-case text of a cell in the skip set (empty, NA,
    N/A, NONE, NULL, the workflow placeholder in upper case) marks the cell
    and leaves it alone; otherwise the spaces are taken out and the first key
    of the table that starts the result is replaced by its value, which
    counts as one correction, and a cell no key matches keeps its value.
    With the table BLD1 to BLDG1, the location [bld 1 203] becomes BLDG1203
    and one correction is counted. *)
Theorem location_pass_spec :
  (forall (table : list (string * string)) (cells : list cell),
     let rule := location_rule table in
     location_pass table cells =
     {| loc_values := (fun v => outcome_value v (rule v)) <$> cells;
        loc_fill := (fun v => is_missing (rule v)) <$> cells;
        corrections_count :=
          length (filter (fun v => is_corrected (rule v) = true) cells);
        missing_loc_count :=
          length (filter (fun v => is_missing (rule v) = true) cells) |}) /\
  skip_locs = [""; "NA"; "N/A"; "NONE"; "NULL"; "N/A, WORKFLOW"] /\
  (forall s p : string, Py.startswith s p = true <-> exists rest, s = p +:+ rest) /\
  location_pass [("BLD1", "BLDG1")] [Str "bld 1 203"] =
    {| loc_values := [Str "BLDG1203"]; loc_fill := [false];
       corrections_count := 1; missing_loc_count := 0 |}.
Proof.
  split_and!.
  - intros table cells rule. induction cells as [|v cells IH] using rev_ind; [done|].
    rewrite location_pass_snoc, location_step_rule, IH. simpl.
    rewrite !fmap_app, !length_filter_snoc. done.
  - done.
  - apply startswith_prefix.
  - by vm_compute.
Qed.


(** ** The priority sort *)

Section PrioritySort.

Implicit Types (r x y : row) (l : list row).

Lemma sort_key_tag (i : nat) r : sort_key (tag i r) = (is_priority r, Z.of_nat i).
Proof.
  unfold sort_key, tag, cell_at.
  rewrite lookup_insert_ne by done.
  by rewrite !lookup_insert_eq.
Qed.

Lemma without_helpers_tag (i : nat) r : without_helpers (tag i r) = without_helpers r.
Proof.
  unfold without_helpers, tag. apply map_eq. intros k.
  destruct (decide (k = "_p")) as [->|Hp]; [by rewrite !lookup_delete_eq|].
  rewrite !(lookup_delete_ne _ "_p") by done.
  destruct (decide (k = "_idx")) as [->|Hi]; [by rewrite !lookup_delete_eq|].
  rewrite !(lookup_delete_ne _ "_idx") by done.
  by rewrite !lookup_insert_ne.
Qed.

Lemma is_priority_without_helpers r : is_priority (without_helpers r) = is_priority r.
Proof.
  unfold is_priority, without_helpers, cell_at.
  by rewrite !lookup_delete_ne.
Qed.

#[local] Instance key_le_trans : Transitive key_le.
Proof.
  intros a b c. unfold key_le.
  destruct (sort_key a) as [[] ?], (sort_key b) as [[] ?], (sort_key c) as [[] ?];
    simpl; intros [[??]|[??]] [[??]|[??]]; try discriminate; auto; right; split; auto; lia.
Qed.

#[local] Instance key_le_total : Total key_le.
Proof.
  intros a b. unfold key_le.
  destruct (sort_key a) as [[] ia], (sort_key b) as [[] ib]; simpl;
    destruct (Z.le_ge_cases ia ib); auto.
Qed.

Lemma key_le_antisym x y : key_le x y -> key_le y x -> sort_key x = sort_key y.
Proof.
  unfold key_le. destruct (sort_key x) as [px ix], (sort_key y) as [py iy]. simpl.
  intros [[??]|[??]] [[??]|[??]]; subst; try discriminate. f_equal. lia.
Qed.

(** The frame after the two helper columns are set. *)
Lemma tagged_rows (j : nat) l :
  zip_with (fun r v => <["_idx" := v]> r)
    (zip_with (fun r v => <["_p" := v]> r) l ((fun r => Bool (is_priority r)) <$> l))
    ((fun i => Int (Z.of_nat i)) <$> seq j (length l))
  = tag_from j l.
Proof.
  revert j. induction l as [|r l IH]; intros j; simpl; [done|].
  by rewrite IH.
Qed.

Lemma elem_of_tag_from (j : nat) l x :
  x ∈ tag_from j l <-> exists i r, l !! i = Some r /\ x = tag (j + i) r.
Proof.
  revert j. induction l as [|r0 l IH]; intros j; simpl.
  - split; [by intros ?%elem_of_nil|by intros (i & r & ? & _)].
  - rewrite elem_of_cons, IH. split.
    + intros [->|(i & r & Hi & ->)].
      * exists 0, r0. split; [done|]. by rewrite Nat.add_0_r.
      * exists (S i), r. split; [done|]. by rewrite Nat.add_succ_r.
    + intros ([|i] & r & Hi & ->); simpl in Hi.
      * left. injection Hi as ->. by rewrite Nat.add_0_r.
      * right. exists i, r. split; [done|]. by rewrite Nat.add_succ_r.
Qed.

(** Two tagged rows with one key are one row. *)
Lemma tag_from_key_inj (j : nat) l x y :
  x ∈ tag_from j l -> y ∈ tag_from j l -> sort_key x = sort_key y -> x = y.
Proof.
  intros (i1 & r1 & H1 & ->)%elem_of_tag_from (i2 & r2 & H2 & ->)%elem_of_tag_from.
  rewrite !sort_key_tag. intros [= _ Hi].
  assert (i1 = i2) as -> by lia. congruence.
Qed.

Lemma tag_from_increasing (j : nat) l :
  StronglySorted (fun x y => ((sort_key x).2 < (sort_key y).2)%Z) (tag_from j l).
Proof.
  revert j. induction l as [|r l IH]; intros j; cbn [tag_from]; constructor; [done|].
  apply Forall_forall. intros y (i & r' & _ & ->)%elem_of_tag_from.
  cbv beta. rewrite !sort_key_tag. simpl. lia.
Qed.

(** A list with increasing positions, split by the priority mark, is sorted
    for the key of the sort. *)
Lemma partition_sorted l :
  StronglySorted (fun x y => ((sort_key x).2 < (sort_key y).2)%Z) l ->
  StronglySorted key_le (filter in_front l ++ filter (fun x => ~ in_front x) l).
Proof.
  induction 1 as [|x l Hl IH Hx]; [constructor|].
  rewrite Forall_forall in Hx.
  apply StronglySorted_app in IH as (Hcross & Hfront & Hback).
  rewrite !filter_cons. destruct (decide (in_front x)) as [Hp|Hp].
  - rewrite decide_False by tauto. simpl. constructor.
    + apply StronglySorted_app. done.
    + apply Forall_forall. intros y [Hy|Hy]%elem_of_app.
      * apply list_elem_of_filter in Hy as [Hy1 Hy2].
        right. split; [by rewrite Hp, Hy1|]. specialize (Hx y Hy2). cbv beta in Hx. lia.
      * apply list_elem_of_filter in Hy as [Hy1 Hy2].
        left. split; [done|]. unfold in_front in Hy1. by destruct (sort_key y).1.
  - rewrite decide_True by done. apply StronglySorted_app.
    assert ((sort_key x).1 = false) as Hx0.
    { unfold in_front in Hp. by destruct (sort_key x).1. }
    split_and!; [|done|].
    + intros a b Ha [->|Hb]%elem_of_cons; [|by apply Hcross].
      apply list_elem_of_filter in Ha as [Ha _]. by left.
    + constructor; [done|]. apply Forall_forall. intros y Hy.
      apply list_elem_of_filter in Hy as [Hy1 Hy2].
      right. split.
      * unfold in_front in Hy1. rewrite Hx0. by destruct (sort_key y).1.
      * specialize (Hx y Hy2). cbv beta in Hx. lia.
Qed.

(** Sorting the tagged rows splits them by the priority mark, each part in
    the order of the input. *)
Lemma merge_sort_tag_from l :
  merge_sort key_le (tag_from 0 l) =
  filter in_front (tag_from 0 l) ++ filter (fun x => ~ in_front x) (tag_from 0 l).
Proof.
  apply (Sorted_unique_strong key_le).
  - intros x y Hx Hy Hxy Hyx.
    apply (tag_from_key_inj 0 l).
    + by rewrite merge_sort_Permutation in Hx.
    + by rewrite filter_app_complement in Hy.
    + by apply key_le_antisym.
  - apply Sorted_merge_sort, _.
  - apply StronglySorted_Sorted, partition_sorted, tag_from_increasing.
  - by rewrite merge_sort_Permutation, filter_app_complement.
Qed.

Lemma in_front_tag (j : nat) r : in_front (tag j r) <-> is_priority r = true.
Proof. unfold in_front. by rewrite sort_key_tag. Qed.

Lemma untag_front (j : nat) l :
  without_helpers <$> filter in_front (tag_from j l) =
  filter (fun r => is_priority r = true) (without_helpers <$> l).
Proof.
  revert j. induction l as [|r l IH]; intros j; [done|].
  cbn [tag_from]. rewrite fmap_cons, !filter_cons, is_priority_without_helpers.
  pose proof (in_front_tag j r) as Hk.
  destruct (is_priority r).
  - rewrite decide_True by by apply Hk. rewrite decide_True by done.
    by rewrite fmap_cons, without_helpers_tag, IH.
  - rewrite decide_False by (rewrite Hk; done). rewrite decide_False by done.
    apply IH.
Qed.

Lemma untag_back (j : nat) l :
  without_helpers <$> filter (fun x => ~ in_front x) (tag_from j l) =
  filter (fun r => is_priority r = false) (without_helpers <$> l).
Proof.
  revert j. induction l as [|r l IH]; intros j; [done|].
  cbn [tag_from]. rewrite fmap_cons, !filter_cons, is_priority_without_helpers.
  pose proof (in_front_tag j r) as Hk.
  destruct (is_priority r).
  - rewrite decide_False by tauto. rewrite decide_False by done. apply IH.
  - rewrite decide_True by (rewrite Hk; done). rewrite decide_True by done.
    by rewrite fmap_cons, without_helpers_tag, IH.
Qed.

Lemma sort_priority_devices_rows (df : DataFrame) :
  "Device Model" ∈ columns df ->
  rows (sort_priority_devices df) =
  filter (fun r => is_priority r = true) (without_helpers <$> rows df) ++
  filter (fun r => is_priority r = false) (without_helpers <$> rows df).
Proof.
  intros Hc. unfold sort_priority_devices, df_empty.
  rewrite (bool_decide_eq_true_2 _ Hc).
  destruct (columns df) as [|c0 cs] eqn:Hcols; [by apply elem_of_nil in Hc|].
  rewrite bool_decide_eq_false_2 by done. simpl.
  destruct (rows df) as [|r0 l] eqn:Hrows; [done|].
  rewrite bool_decide_eq_false_2 by done. cbn [negb orb].
  cbn [drop_columns set_column rows].
  rewrite length_zip_with_l_eq by by rewrite length_fmap.
  rewrite tagged_rows, merge_sort_tag_from, fmap_app.
  change (fun r => foldr delete r ["_p"; "_idx"]) with without_helpers.
  by rewrite untag_front, untag_back.
Qed.

End PrioritySort.

Lemma filter_bool_same {A} (f : A -> bool) (b : bool) (l : list A) :
  filter (fun x => f x = b) (filter (fun x => f x = b) l) = filter (fun x => f x = b) l.
Proof.
  induction l as [|x l IH]; [done|].
  rewrite filter_cons. destruct (decide (f x = b)) as [Hx|Hx]; [|done].
  by rewrite filter_cons, decide_True, IH.
Qed.

Lemma filter_bool_other {A} (f : A -> bool) (b : bool) (l : list A) :
  filter (fun x => f x = negb b) (filter (fun x => f x = b) l) = [].
Proof.
  induction l as [|x l IH]; [done|].
  rewrite filter_cons. destruct (decide (f x = b)) as [Hx|Hx]; [|done].
  rewrite filter_cons, decide_False; [done|]. rewrite Hx. by destruct b.
Qed.

(** In a list split by a test, an element that passes stands before any
    element that fails. *)
Lemma partition_positions {A} (f : A -> bool) (l : list A) (i j : nat) (a b : A) :
  let out := filter (fun x => f x = true) l ++ filter (fun x => f x = false) l in
  out !! i = Some a -> out !! j = Some b -> f a = true -> f b = false -> i < j.
Proof.
  intros out Hi Hj Ha Hb. unfold out in *.
  destruct (decide (i < length (filter (fun x => f x = true) l))) as [Hlt|Hge].
  - destruct (decide (j < length (filter (fun x => f x = true) l))) as [Hjl|Hjg]; [|lia].
    rewrite lookup_app_l in Hj by done.
    apply list_elem_of_lookup_2, list_elem_of_filter in Hj as [Hj _]. congruence.
  - rewrite lookup_app_r in Hi by lia.
    apply list_elem_of_lookup_2, list_elem_of_filter in Hi as [Hi _]. congruence.
Qed.

(** C8: [sort_priority_devices] is a stable partition.  On a frame with a
    Device Model column the output rows are the priority records in their
    input order followed by the other records in their input order: a
    priority record stands before every other record, and each of the two
    groups reads in the output as it does in the input.  (The records are
    the rows without the helper columns of the sort, which the function
    drops.)  A frame without that column is returned as it is. *)
Theorem sort_priority_devices_stable (df : DataFrame) :
  let records := without_helpers <$> rows df in
  let out := rows (sort_priority_devices df) in
  if bool_decide ("Device Model" ∈ columns df) then
    out = filter (fun r => is_priority r = true) records ++
          filter (fun r => is_priority r = false) records /\
    (forall (i j : nat) (a b : row),
       out !! i = Some a -> out !! j = Some b ->
       is_priority a = true -> is_priority b = false -> i < j) /\
    filter (fun r => is_priority r = true) out =
      filter (fun r => is_priority r = true) records /\
    filter (fun r => is_priority r = false) out =
      filter (fun r => is_priority r = false) records
  else sort_priority_devices df = df.
Proof.
  intros records out. destruct (bool_decide _) eqn:Hc.
  - apply bool_decide_eq_true in Hc.
    assert (out = filter (fun r => is_priority r = true) records ++
                  filter (fun r => is_priority r = false) records) as Hout
      by by apply sort_priority_devices_rows.
    split_and!; [done|..].
    + rewrite Hout. apply partition_positions.
    + rewrite Hout, filter_app, filter_bool_same.
      rewrite (filter_bool_other is_priority false). by rewrite app_nil_r.
    + rewrite Hout, filter_app, filter_bool_same.
      by rewrite (filter_bool_other is_priority true).
  - unfold sort_priority_devices. rewrite Hc. simpl. by rewrite orb_true_r.
Qed.


(** ** The date pass *)

Lemma filter_split {A} (P : A -> Prop) `{!forall a, Decision (P a)}
    (l pre post : list A) (a : A) :
  filter P l = pre ++ a :: post ->
  exists l1 l2, l = l1 ++ a :: l2 /\ filter P l1 = pre.
Proof.
  revert pre. induction l as [|z l IH]; intros pre.
  - by destruct pre.
  - rewrite filter_cons. destruct (decide (P z)) as [Hz|Hz].
    + destruct pre as [|p pre]; intros [= <- Hl].
      * by exists [], l.
      * destruct (IH _ Hl) as (l1 & l2 & -> & <-).
        exists (z :: l1), l2. split; [done|]. by rewrite filter_cons, decide_True.
    + intros Hl. destruct (IH _ Hl) as (l1 & l2 & -> & <-).
      exists (z :: l1), l2. split; [done|]. by rewrite filter_cons, decide_False.
Qed.

Section DatePass.

Implicit Types (x y k : year_month) (l : list year_month).
Implicit Types (cnt : list (year_month * nat)).

Lemma occurrences_cons_eq x l : occurrences x (x :: l) = S (occurrences x l).
Proof. unfold occurrences. by rewrite filter_cons, decide_True. Qed.

Lemma occurrences_cons_ne x y l : y <> x -> occurrences x (y :: l) = occurrences x l.
Proof. intros. unfold occurrences. by rewrite filter_cons, decide_False. Qed.

Lemma occurrences_others x y l :
  y <> x -> occurrences y (filter (fun z => z <> x) l) = occurrences y l.
Proof.
  intros Hne. induction l as [|z l IH]; [done|].
  rewrite filter_cons. destruct (decide (z <> x)) as [Hz|Hz].
  - destruct (decide (z = y)) as [->|Hzy].
    + by rewrite !occurrences_cons_eq, IH.
    + by rewrite !occurrences_cons_ne, IH.
  - apply dec_stable in Hz as ->. by rewrite occurrences_cons_ne.
Qed.

Lemma occurrences_pos x l : x ∈ l -> 0 < occurrences x l.
Proof.
  intros Hx. unfold occurrences.
  assert (x ∈ filter (fun d => d = x) l) as Hin by by apply list_elem_of_filter.
  destruct (filter _ l); [by apply elem_of_nil in Hin|simpl; lia].
Qed.

(** The entries of the head key gather in the head of the counter; the
    other dates are counted behind it. *)
Lemma foldl_add_head x (n : nat) cnt l :
  foldl (flip counter_add) ((x, n) :: cnt) l =
  (x, n + occurrences x l) :: foldl (flip counter_add) cnt (filter (fun z => z <> x) l).
Proof.
  revert n cnt. induction l as [|y l IH]; intros n cnt.
  - simpl. by rewrite Nat.add_0_r.
  - rewrite filter_cons. cbn [foldl]. unfold flip at 2. cbn [counter_add].
    destruct (decide (y = x)) as [->|Hy].
    + rewrite bool_decide_eq_true_2 by done.
      rewrite decide_False by auto.
      rewrite IH, occurrences_cons_eq. do 2 f_equal. lia.
    + rewrite bool_decide_eq_false_2 by done.
      rewrite decide_True by done.
      by rewrite IH, occurrences_cons_ne.
Qed.

Lemma Counter_cons x l :
  Counter (x :: l) =
  (x, S (occurrences x l)) :: Counter (filter (fun z => z <> x) l).
Proof. unfold Counter. cbn [foldl]. apply (foldl_add_head x 1 [] l). Qed.

(** The scan of [max] over the counter of [l], from a best entry of count
    [m]: the result keeps that entry when no date of [l] occurs more often,
    and otherwise holds the first date of [l] among those that occur most. *)
Lemma scan_counter (m : nat) :
  forall l k,
  exists k' n',
    foldl max_step (Some (k, m)) (Counter l) = Some (k', n') /\
    m <= n' /\
    (forall y, y ∈ l -> occurrences y l <= n') /\
    ((k' = k /\ n' = m) \/
     (m < n' /\ n' = occurrences k' l /\
      exists l1 l2, l = l1 ++ k' :: l2 /\
                    forall y, y ∈ l1 -> occurrences y l < n')).
Proof.
  intros l. revert m.
  induction l as [l IH] using (induction_ltof1 _ length). unfold ltof in IH.
  intros m k. destruct l as [|x l].
  { exists k, m. split_and!; [done|lia| |by left].
    by intros y ?%elem_of_nil. }
  rewrite Counter_cons. cbn [foldl]. unfold max_step at 2. cbn [snd].
  set (c := S (occurrences x l)).
  set (l' := filter (fun z => z <> x) l).
  assert (length l' < length (x :: l)) as Hlen.
  { unfold l'. pose proof (length_filter (fun z => z <> x) l). simpl. lia. }
  assert (occurrences x (x :: l) = c) as Hcx by apply occurrences_cons_eq.
  assert (forall y, y <> x -> occurrences y (x :: l) = occurrences y l') as Hcy.
  { intros y Hy. unfold l'. rewrite occurrences_others by done.
    by rewrite occurrences_cons_ne. }
  assert (forall y, y ∈ x :: l -> y <> x -> y ∈ l') as Hin.
  { intros y [->|Hy]%elem_of_cons Hne; [done|]. by apply list_elem_of_filter. }
  assert (forall n' k' pre post, l' = pre ++ k' :: post ->
            (forall y, y ∈ pre -> occurrences y l' < n') ->
            exists l1 l2, x :: l = l1 ++ k' :: l2 /\
              forall y, y ∈ l1 -> y <> x -> occurrences y (x :: l) < n') as Hsplit.
  { intros n' k' pre post Hl' Hpre.
    destruct (filter_split _ _ _ _ _ Hl') as (g1 & g2 & -> & Hg1).
    exists (x :: g1), g2. split; [done|].
    intros y [->|Hy]%elem_of_cons Hne; [done|].
    rewrite Hcy by done. apply Hpre. rewrite <-Hg1. by apply list_elem_of_filter. }
  destruct (m <? c) eqn:Hmc.
  - apply Nat.ltb_lt in Hmc.
    destruct (IH l' Hlen c x) as (k' & n' & Hfold & Hle & Hmax & Hwho).
    exists k', n'. split_and!; [done|lia| |right].
    { intros y Hy. destruct (decide (y = x)) as [->|Hne]; [lia|].
      rewrite Hcy by done. by apply Hmax, Hin. }
    destruct Hwho as [[-> ->]|(Hlt & Hn' & pre & post & Hl' & Hpre)].
    + split_and!; [done|done|]. exists [], l. split; [done|].
      by intros y ?%elem_of_nil.
    + assert (k' <> x) as Hk'.
      { intros ->. assert (x ∈ l') as Hx by (rewrite Hl', elem_of_app; right; by left).
        apply list_elem_of_filter in Hx as [Hx _]. done. }
      split_and!; [lia|by rewrite Hcy|].
      destruct (Hsplit n' k' pre post Hl' Hpre) as (l1 & l2 & Hl & Hl1).
      exists l1, l2. split; [done|]. intros y Hy.
      destruct (decide (y = x)) as [->|Hne]; [lia|by apply Hl1].
  - apply Nat.ltb_ge in Hmc.
    destruct (IH l' Hlen m k) as (k' & n' & Hfold & Hle & Hmax & Hwho).
    exists k', n'. split_and!; [done|lia| |].
    { intros y Hy. destruct (decide (y = x)) as [->|Hne]; [lia|].
      rewrite Hcy by done. by apply Hmax, Hin. }
    destruct Hwho as [[-> ->]|(Hlt & Hn' & pre & post & Hl' & Hpre)]; [by left|right].
    assert (k' <> x) as Hk'.
    { intros ->. assert (x ∈ l') as Hx by (rewrite Hl', elem_of_app; right; by left).
      apply list_elem_of_filter in Hx as [Hx _]. done. }
    split_and!; [lia|by rewrite Hcy|].
    destruct (Hsplit n' k' pre post Hl' Hpre) as (l1 & l2 & Hl & Hl1).
    exists l1, l2. split; [done|]. intros y Hy.
    destruct (decide (y = x)) as [->|Hne]; [lia|by apply Hl1].
Qed.

(** [most_common(1)] on the counter of a list that is not empty: the first
    date among those that occur most, with its count. *)
Lemma most_common_1_Counter l :
  l <> [] ->
  exists mode before after,
    most_common_1 (Counter l) = [(mode, occurrences mode l)] /\
    l = before ++ mode :: after /\
    (mode ∉ before) /\
    (forall y, occurrences y l <= occurrences mode l) /\
    (forall y, y ∈ before -> occurrences y l < occurrences mode l).
Proof.
  intros Hl. destruct l as [|x l]; [done|].
  destruct (scan_counter 0 (x :: l) x) as (k' & n' & Hfold & _ & Hmax & Hwho).
  assert (0 < n') as Hpos.
  { assert (x ∈ x :: l) as Hx by by left.
    pose proof (Hmax x Hx). pose proof (occurrences_pos x (x :: l) Hx). lia. }
  destruct Hwho as [[_ ->]|(_ & -> & before & after & Hsplit & Hbefore)]; [lia|].
  exists k', before, after. split_and!; [|done| | |done].
  - unfold most_common_1, max_by_count.
    rewrite Counter_cons in *. cbn [foldl] in *.
    unfold max_step at 2 in Hfold. cbn [snd] in Hfold.
    change (0 <? S (occurrences x l)) with true in Hfold. cbv iota in Hfold.
    unfold max_step at 2. by rewrite Hfold.
  - intros Hin. specialize (Hbefore _ Hin). lia.
  - intros y. destruct (decide (y ∈ x :: l)) as [Hy|Hy]; [by apply Hmax|].
    unfold occurrences at 1.
    destruct (filter (fun d => d = y) (x :: l)) as [|z ?] eqn:Hf; [simpl; lia|].
    assert (z ∈ filter (fun d => d = y) (x :: l)) as Hz by (rewrite Hf; by left).
    apply list_elem_of_filter in Hz as [-> Hz]. done.
Qed.

End DatePass.

Lemma filter_true_replicate_false (n : nat) :
  filter (fun b => b = true) (replicate n false) = [].
Proof. induction n as [|n IH]; [done|]. simpl. by rewrite filter_cons, decide_False. Qed.

(** X21: the date pass never fails and keeps one mark per cell.  The values
    whose conversion raises take no part: the consensus is computed on the
    pairs of the other values alone, and such a value is never marked.  A
    value that converts to NaT does not raise: its pair of two nan takes part
    like a month of its own.  With no pair at all nothing is marked and the
    count is zero.  Otherwise the consensus is the pair that occurs most
    often, the first seen among those that tie, and the marked cells are
    exactly those whose pair differs from it; [outliers] counts them.  Five
    dates of January 2024 and one of February 2024 mark the February record
    alone, dates of one month mark nothing, and a tie goes to the month seen
    first. *)
Theorem date_pass_consensus :
  (forall (to_ym : cell -> option year_month) (cells : list cell),
     let dates := omap to_ym cells in
     exists (fill : list bool) (outliers : nat),
       date_pass to_ym cells = Some (fill, outliers) /\
       length fill = length cells /\
       outliers = length (filter (fun b => b = true) fill) /\
       if bool_decide (dates = []) then
         fill = replicate (length cells) false /\ outliers = 0
       else
         exists mode before after,
           dates = before ++ mode :: after /\
           (mode ∉ before) /\
           (forall ym, occurrences ym dates <= occurrences mode dates) /\
           (forall ym, ym ∈ before -> occurrences ym dates < occurrences mode dates) /\
           (forall (i : nat) (v : cell), cells !! i = Some v ->
              (fill !! i = Some true <->
               exists ym, to_ym v = Some ym /\ ym <> mode))) /\
  date_pass to_ym_ref
    [Str "01/03/2024"; Str "01/10/2024"; Str "02/01/2024";
     Str "01/15/2024"; Str "01/20/2024"; Str "01/25/2024"]
  = Some ([false; false; true; false; false; false], 1) /\
  date_pass to_ym_ref [Str "01/03/2024"; Str "01/10/2024"; Stamp {| year := 2024; month := 1; day := 31 |}]
  = Some ([false; false; false], 0) /\
  date_pass to_ym_ref [Str "N/A, Workflow"; Str "unknown"] = Some ([false; false], 0) /\
  date_pass to_ym_ref
    [Str "02/01/2024"; Str "not a date"; Str "01/10/2024"; Str "01/15/2024"; Str "02/20/2024"]
  = Some ([false; false; true; true; false], 2).
Proof.
  split_and!; [|by vm_compute..].
  intros to_ym cells dates. unfold date_pass. fold dates.
  destruct (bool_decide (dates = [])) eqn:Hd.
  - eexists _, _. split_and!; [done| | |done|done].
    + by rewrite length_replicate.
    + by rewrite filter_true_replicate_false.
  - apply bool_decide_eq_false in Hd.
    destruct (most_common_1_Counter dates Hd)
      as (mode & before & after & -> & Hsplit & Hnotin & Hmax & Hfirst).
    eexists _, _. split_and!; [done| |done|].
    + by rewrite length_fmap.
    + exists mode, before, after. split_and!; [done..|].
      intros i v Hv. rewrite list_lookup_fmap, Hv. simpl.
      destruct (to_ym v) as [ym|]; split.
      * intros [= H%bool_decide_eq_true]. by exists ym.
      * intros (ym' & [= <-] & Hne). by rewrite bool_decide_eq_true_2.
      * done.
      * by intros (ym' & [=] & _).
Qed.

(** C6: a date cell that is empty is not ignored.  Its conversion gives the
    missing time stamp NaT without an exception, so the pair of two nan
    enters [dates] like a month of its own: beside five dates of January
    2024 the empty cell is marked and counted as an outlier, and in front of
    a single date it is the consensus (the first seen of a tie) and the date
    is the cell that is marked.  The same holds for every conversion that
    gives NaT for the one cell and a month for the other. *)
Theorem date_pass_marks_empty_cell :
  to_ym_ref PyNone = Some NanNan /\
  date_pass to_ym_ref
    [Str "01/03/2024"; Str "01/10/2024"; Str "01/15/2024"; Str "01/20/2024";
     Str "01/25/2024"; PyNone]
  = Some ([false; false; false; false; false; true], 1) /\
  date_pass to_ym_ref [PyNone; Str "01/10/2024"] = Some ([false; true], 1) /\
  (forall (to_ym : cell -> option year_month) (empty dated : cell) (y m : nat),
     to_ym empty = Some NanNan -> to_ym dated = Some (YearMonth y m) ->
     date_pass to_ym [dated; dated; empty] = Some ([false; false; true], 1) /\
     date_pass to_ym [empty; dated] = Some ([false; true], 1)).
Proof.
  split_and!; [by vm_compute..|].
  intros to_ym empty dated y m He Hd.
  assert (YearMonth y m <> NanNan) as Hne by discriminate.
  assert (NanNan <> YearMonth y m) as Hne' by discriminate.
  unfold date_pass, Counter, most_common_1, max_by_count.
  cbn [omap list_omap fmap list_fmap length]. rewrite !He, !Hd.
  repeat first
    [ rewrite bool_decide_eq_true_2 by congruence
    | rewrite bool_decide_eq_false_2 by (intros ?; congruence)
    | progress cbn [foldl flip counter_add max_step option_list option_rect snd
                    Nat.ltb Nat.leb] ].
  split; reflexivity.
Qed.

(** ** Date normalisation *)

Lemma format_date_columns_unfold (to_datetime : list cell -> option (list (option date)))
    (df : DataFrame) :
  format_date_columns to_datetime df =
  if bool_decide (DATE_COL ∈ columns df) then
    match to_datetime (column df DATE_COL) with
    | Some ts => set_column df DATE_COL (strftime_cell <$> ts)
    | None => df
    end
  else df.
Proof. reflexivity. Qed.

Lemma set_column_lookup (df : DataFrame) (c : string) (values : list cell)
    (i : nat) (r : row) (v : cell) :
  rows df !! i = Some r -> values !! i = Some v ->
  rows (set_column df c values) !! i = Some (<[c := v]> r).
Proof.
  intros Hr Hv. unfold set_column. cbn [rows].
  by rewrite lookup_zip_with, Hr, Hv.
Qed.

Lemma set_column_length (df : DataFrame) (c : string) (values : list cell) :
  length values = length (rows df) ->
  length (rows (set_column df c values)) = length (rows df).
Proof. intros H. unfold set_column. cbn [rows]. by rewrite length_zip_with_l_eq. Qed.

Lemma set_column_columns_present (df : DataFrame) (c : string) (values : list cell) :
  c ∈ columns df -> columns (set_column df c values) = columns df.
Proof. intros H. unfold set_column. cbn [columns]. by rewrite bool_decide_eq_true_2. Qed.

(** A value that fails to parse does not survive the normalisation: the
    workflow placeholder in the date column comes out as a missing value. *)
Lemma format_date_columns_replaces_unparsable :
  let df := {| columns := cols;
               rows := [ {[ "Serial Number" := Str "B2";
                            "Date of Latest Change" := Str "N/A, Workflow" ]} ] |} in
  to_datetime_ref (column df DATE_COL) = Some [None] /\
  column df DATE_COL = [Str "N/A, Workflow"] /\
  column (format_date_columns to_datetime_ref df) DATE_COL = [NaN] /\
  column (format_date_columns to_datetime_ref df) DATE_COL <> column df DATE_COL.
Proof. split_and!; [by vm_compute..|]. vm_compute. discriminate. Qed.

(** C2, amended: [format_date_columns] never raises.  When the conversion
    of the date column succeeds, a value that does not parse is replaced by
    a missing value and a value that parses is replaced by its date in the
    month/day/four-digit-year pattern, the other columns staying as they
    are; only when the conversion of the whole column raises is the frame,
    and with it every date, left as received.  A frame without the date
    column is returned unchanged. *)
Theorem format_date_columns_entries
    (to_datetime : list cell -> option (list (option date))) (df : DataFrame) :
  let out := format_date_columns to_datetime df in
  (if bool_decide (DATE_COL ∈ columns df) then
     match to_datetime (column df DATE_COL) with
     | None => out = df
     | Some ts =>
         length ts = length (rows df) ->
         columns out = columns df /\
         length (rows out) = length (rows df) /\
         forall (i : nat) (r : row), rows df !! i = Some r ->
           exists r', rows out !! i = Some r' /\
             (forall c, c <> DATE_COL -> r' !! c = r !! c) /\
             match ts !! i with
             | Some (Some d) => r' !! DATE_COL = Some (Str (strftime DATE_FMT d))
             | _ => r' !! DATE_COL = Some NaN
             end
     end
   else out = df) /\
  (forall d : date,
     strftime DATE_FMT d =
     pad 2 (month d) +:+ "/" +:+ pad 2 (day d) +:+ "/" +:+ pad 4 (year d)) /\
  strftime DATE_FMT {| year := 2024; month := 1; day := 5 |} = "01/05/2024".
Proof.
  intros out. unfold out. rewrite format_date_columns_unfold.
  split_and!; [| |by vm_compute].
  2: { intros d. cbn [strftime DATE_FMT]. by rewrite app_empty_r. }
  destruct (bool_decide (DATE_COL ∈ columns df)) eqn:Hc; [|done].
  apply bool_decide_eq_true in Hc.
  destruct (to_datetime (column df DATE_COL)) as [ts|]; [|done].
  intros Hlen. split_and!.
  - by apply set_column_columns_present.
  - apply set_column_length. by rewrite length_fmap.
  - intros i r Hr.
    destruct (lookup_lt_is_Some_2 ts i) as [t Ht].
    { rewrite Hlen. by eapply lookup_lt_Some. }
    exists (<[DATE_COL := strftime_cell t]> r). split_and!.
    + apply set_column_lookup; [done|]. by rewrite list_lookup_fmap, Ht.
    + intros c Hne. by rewrite lookup_insert_ne.
    + rewrite Ht, lookup_insert_eq. by destruct t.
Qed.

(** The theorem at a frame of three rows: a time stamp, a date in text and
    the workflow placeholder. *)
Lemma format_date_columns_entries_witness :
  let df := {| columns := [SERIAL_COL; DATE_COL];
               rows := [ {[ SERIAL_COL := Str "A1";
                            DATE_COL := Stamp {| year := 2024; month := 3; day := 9 |} ]};
                         {[ SERIAL_COL := Str "A2"; DATE_COL := Str "12/31/2023" ]};
                         {[ SERIAL_COL := Str "B2"; DATE_COL := Str "N/A, Workflow" ]} ] |} in
  length [Some {| year := 2024; month := 3; day := 9 |};
          Some {| year := 2023; month := 12; day := 31 |}; None] = length (rows df) /\
  column (format_date_columns to_datetime_ref df) DATE_COL =
    [Str "03/09/2024"; Str "12/31/2023"; NaN] /\
  columns (format_date_columns to_datetime_ref df) = columns df.
Proof.
  intros df. split; [done|]. split; [by vm_compute|].
  exact (proj1 (proj1 (format_date_columns_entries to_datetime_ref df) eq_refl)).
Defined.

(** ** Batch assembly *)

Lemma reindex_lookup (cs : list string) (r : row) (c : string) :
  reindex cs r !! c = if bool_decide (c ∈ cs) then Some (cell_at r c) else None.
Proof.
  unfold reindex. induction cs as [|c0 cs IH]; [done|].
  rewrite fmap_cons, list_to_map_cons, lookup_insert.
  destruct (decide (c0 = c)) as [->|Hne].
  - rewrite bool_decide_eq_true_2; [done|by left].
  - rewrite IH. apply (f_equal (fun b : bool => if b then _ else _)).
    apply bool_decide_ext. rewrite elem_of_cons. intuition congruence.
Qed.

Lemma set_column_scalar_rows (df : DataFrame) (c : string) (v : cell) :
  rows (set_column_scalar df c v) = (fun r => <[c := v]> r) <$> rows df.
Proof.
  unfold set_column_scalar, set_column. cbn [rows].
  by rewrite zip_with_replicate_r_eq.
Qed.

Lemma ensure_column_columns (df : DataFrame) (c0 c : string) :
  c ∈ columns (ensure_column df c0) <-> c ∈ columns df \/ c = c0.
Proof.
  unfold ensure_column. destruct (bool_decide (c0 ∈ columns df)) eqn:H0.
  - apply bool_decide_eq_true in H0. intuition congruence.
  - unfold set_column_scalar, set_column. cbn [columns]. rewrite H0.
    rewrite elem_of_app, list_elem_of_singleton. done.
Qed.

Lemma ensure_columns_columns (cs : list string) (df : DataFrame) (c : string) :
  c ∈ columns (foldl ensure_column df cs) <-> c ∈ columns df \/ c ∈ cs.
Proof.
  revert df. induction cs as [|c0 cs IH]; intros df; simpl.
  - rewrite elem_of_nil. tauto.
  - rewrite IH, ensure_column_columns, elem_of_cons. tauto.
Qed.

(** A row after the missing columns are created: a created column holds the
    empty text, any other column holds what it held. *)
Lemma ensure_columns_rows (cs : list string) (df : DataFrame) (r' : row) :
  r' ∈ rows (foldl ensure_column df cs) ->
  exists r, r ∈ rows df /\
    forall c, r' !! c =
      if bool_decide (c ∈ cs /\ c ∉ columns df) then Some (Str "") else r !! c.
Proof.
  revert df. induction cs as [|c0 cs IH]; intros df; cbn [foldl].
  - intros Hr. exists r'. split; [done|]. intros c.
    rewrite bool_decide_eq_false_2; [done|]. rewrite elem_of_nil. tauto.
  - intros Hr. destruct (IH _ Hr) as (r1 & Hr1 & Hlook).
    unfold ensure_column in Hr1, Hlook.
    destruct (bool_decide (c0 ∈ columns df)) eqn:H0.
    + apply bool_decide_eq_true in H0.
      exists r1. split; [done|]. intros c. rewrite Hlook.
      apply (f_equal (fun b : bool => if b then _ else _)).
      apply bool_decide_ext. rewrite elem_of_cons. intuition congruence.
    + apply bool_decide_eq_false in H0.
      rewrite set_column_scalar_rows in Hr1.
      apply list_elem_of_fmap in Hr1 as (r & -> & Hr0).
      exists r. split; [done|]. intros c. rewrite Hlook.
      assert (columns (set_column_scalar df c0 (Str "")) = columns df ++ [c0]) as ->.
      { unfold set_column_scalar, set_column. cbn [columns].
        by rewrite bool_decide_eq_false_2. }
      destruct (decide (c = c0)) as [->|Hne].
      * rewrite bool_decide_eq_false_2.
        2: { rewrite elem_of_app, list_elem_of_singleton. tauto. }
        rewrite lookup_insert_eq, bool_decide_eq_true_2; [done|].
        split; [by left|done].
      * rewrite lookup_insert_ne by done.
        apply (f_equal (fun b : bool => if b then _ else _)).
        apply bool_decide_ext.
        rewrite elem_of_cons, elem_of_app, list_elem_of_singleton.
        intuition congruence.
Qed.

Lemma select_ensure_columns (df : DataFrame) :
  select (foldl ensure_column df cols) cols =
  Some {| columns := cols;
          rows := reindex cols <$> rows (foldl ensure_column df cols) |}.
Proof.
  unfold select. rewrite bool_decide_eq_true_2; [done|].
  apply Forall_forall. intros c Hc. apply ensure_columns_columns. by right.
Qed.

Lemma without_helpers_reindex (r : row) :
  without_helpers (reindex cols r) = reindex cols r.
Proof.
  unfold without_helpers. apply map_eq. intros c.
  destruct (decide (c = "_p")) as [->|Hp].
  { rewrite lookup_delete_eq, reindex_lookup. by vm_compute. }
  rewrite lookup_delete_ne by done.
  destruct (decide (c = "_idx")) as [->|Hi].
  { rewrite lookup_delete_eq, reindex_lookup. by vm_compute. }
  by rewrite lookup_delete_ne.
Qed.

Lemma sort_priority_devices_columns (l : list row) :
  columns (sort_priority_devices {| columns := cols; rows := l |}) = cols.
Proof.
  unfold sort_priority_devices.
  destruct (df_empty _ || negb _); [done|]. reflexivity.
Qed.

Lemma sort_priority_devices_elem (l : list row) (r : row) :
  r ∈ rows (sort_priority_devices {| columns := cols; rows := l |}) ->
  exists r0, r0 ∈ l /\ r = without_helpers r0.
Proof.
  rewrite sort_priority_devices_rows by by_compute. cbn [rows].
  intros [H|H]%elem_of_app; apply list_elem_of_filter in H as [_ H];
    apply list_elem_of_fmap in H as (r0 & -> & H); by exists r0.
Qed.

(** C5: whenever step 2 produces a table, its columns are the ten canonical
    names in their fixed order, every row carries a value for exactly these
    columns, and a column the merged sources lacked holds the empty text in
    every row; this holds for any input frames and workflow records.  Step 2
    produces no table only in the two cases of an empty batch. *)
Theorem assemble_canonical_columns :
  cols = ["Serial Number"; "Device Model"; "P.O. Number"; "Device Owner";
          "Computer Name"; "Date of Latest Change"; "Changed By";
          "Location"; "Classification"; "Comments"] /\
  (forall (to_datetime : list cell -> option (list (option date)))
          (ignore_models : list string)
          (data_frames : list DataFrame) (workflow_data : list row)
          (out : DataFrame),
     assemble to_datetime ignore_models data_frames workflow_data = Some out ->
     columns out = cols /\
     forall r : row, r ∈ rows out ->
       (forall c, is_Some (r !! c) <-> c ∈ cols) /\
       (forall c, c ∈ cols ->
          c ∉ columns (merged to_datetime ignore_models data_frames workflow_data) ->
          r !! c = Some (Str ""))) /\
  (forall (to_datetime : list cell -> option (list (option date)))
          (ignore_models : list string)
          (data_frames : list DataFrame) (workflow_data : list row),
     assemble to_datetime ignore_models data_frames workflow_data = None <->
     (data_frames = [] /\ workflow_data = []) \/
     df_empty (merged to_datetime ignore_models data_frames workflow_data) = true).
Proof.
  split; [reflexivity|]. split.
  - intros to_datetime ignore_models data_frames workflow_data out.
    unfold assemble.
    destruct (bool_decide (data_frames = []) && bool_decide (workflow_data = []));
      [intros H; discriminate H|].
    set (final_df := merged to_datetime ignore_models data_frames workflow_data).
    destruct (df_empty final_df); [intros H; discriminate H|].
    rewrite select_ensure_columns.
    cbn [fmap option_fmap option_map].
    intros H. apply (inj Some) in H. subst out.
    split; [apply sort_priority_devices_columns|].
    intros r (r0 & Hr0 & ->)%sort_priority_devices_elem.
    apply list_elem_of_fmap in Hr0 as (r1 & -> & Hr1).
    rewrite without_helpers_reindex. split.
    + intros c. rewrite reindex_lookup. destruct (bool_decide (c ∈ cols)) eqn:Hc.
      * apply bool_decide_eq_true in Hc. split; [intros _; exact Hc|intros _; by eexists].
      * apply bool_decide_eq_false in Hc. split; [by intros [? ?]|intros ?; contradiction].
    + intros c Hc Hmissing. rewrite reindex_lookup, bool_decide_eq_true_2 by exact Hc.
      destruct (ensure_columns_rows _ _ _ Hr1) as (r2 & _ & Hlook).
      unfold cell_at. rewrite Hlook. rewrite bool_decide_eq_true_2; [reflexivity|].
      split; assumption.
  - intros to_datetime ignore_models data_frames workflow_data.
    unfold assemble.
    destruct (bool_decide (data_frames = []) && bool_decide (workflow_data = []))
      eqn:Hnone.
    + apply andb_true_iff in Hnone as [?%bool_decide_eq_true ?%bool_decide_eq_true].
      split; [intros _; by left|reflexivity].
    + set (final_df := merged to_datetime ignore_models data_frames workflow_data).
      destruct (df_empty final_df).
      { split; [intros _; by right|reflexivity]. }
      rewrite select_ensure_columns. cbn [fmap option_fmap option_map].
      split; [intros H; discriminate H|]. intros [[-> ->]|H]; [|discriminate H].
      rewrite !bool_decide_eq_true_2 in Hnone by reflexivity. discriminate Hnone.
Qed.

(** The theorem at a batch of one attachment frame with two columns and one
    workflow record. *)
Lemma assemble_canonical_columns_witness :
  let frame := {| columns := ["Serial Number"; "Device Model"];
                  rows := [ {[ "Serial Number" := Str "A1";
                               "Device Model" := Str "MacBook Pro" ]} ] |} in
  let record := workflow_record "Serial Number: B2" "Pat" "B2" in
  exists out,
    assemble to_datetime_ref [] [frame] [record] = Some out /\
    columns out = cols /\ length (rows out) = 2.
Proof.
  intros frame record.
  destruct (assemble to_datetime_ref [] [frame] [record]) as [out|] eqn:H;
    [|by vm_compute in H].
  exists out. split; [done|]. split.
  - exact (proj1 (proj1 (proj2 assemble_canonical_columns) _ _ _ _ _ H)).
  - vm_compute in H. by injection H as <-.
Defined.


(** * Further properties of the code *)

(** ** Field extraction *)

(** The lemma [extract_field_after_blanks] at a body with one blank line
    between the label line and the value. *)
Lemma extract_field_after_blanks_witness :
  all_chars Py.isspace (nl +:+ " " +:+ nl) = true /\
  Py.isspace "A" = false /\
  all_chars Re.dot "ABC 123 " = true /\
  Re.at_eol (nl +:+ "Date: x") = true /\
  extract_field ("Serial Number:" +:+ nl +:+ " " +:+ nl +:+ "ABC 123 " +:+ nl +:+ "Date: x")
                "Serial Number" = Some "ABC 123".
Proof.
  split_and!; [reflexivity..|].
  exact (extract_field_after_blanks "Serial Number" (nl +:+ " " +:+ nl) "BC 123 "
           (nl +:+ "Date: x") "A" eq_refl eq_refl eq_refl eq_refl).
Defined.

Lemma rev_app_append (u v acc : string) :
  String.rev_app (u +:+ v) acc = String.rev_app v (String.rev_app u acc).
Proof.
  revert acc. induction u as [|a u IH]; intros acc; [done|].
  rewrite app_String. cbn [String.rev_app]. apply IH.
Qed.

Lemma rev_involutive (s : string) : String.rev (String.rev s) = s.
Proof. unfold String.rev at 2. by rewrite rev_rev_app. Qed.

Lemma lstrip_of_stop (p : ascii -> bool) (c : ascii) (t : string) :
  p c = false -> Py.lstrip_of p (String c t) = String c t.
Proof. intros Hc. simpl. by rewrite Hc. Qed.

Lemma lstrip_of_head (p : ascii -> bool) (s : string) :
  Py.lstrip_of p s = "" \/
  exists c t, Py.lstrip_of p s = String c t /\ p c = false.
Proof.
  induction s as [|a s IH]; [by left|]. simpl.
  destruct (p a) eqn:Ha; [done|]. right. by exists a, s.
Qed.

Lemma lstrip_of_idem (p : ascii -> bool) (s : string) :
  Py.lstrip_of p (Py.lstrip_of p s) = Py.lstrip_of p s.
Proof.
  destruct (lstrip_of_head p s) as [->|(c & t & -> & Hc)]; [done|].
  by apply lstrip_of_stop.
Qed.

Lemma lstrip_of_app_stop (p : ascii -> bool) (x : string) (c : ascii) (y : string) :
  p c = false ->
  Py.lstrip_of p (x +:+ String c y) = Py.lstrip_of p x +:+ String c y.
Proof.
  intros Hc. induction x as [|a x IH].
  - rewrite !app_empty. simpl. by rewrite Hc.
  - rewrite app_String. simpl. destruct (p a); [done|]. by rewrite app_String.
Qed.

(** What [strip] leaves of a text that starts outside the class. *)
Lemma strip_of_stop (p : ascii -> bool) (c : ascii) (t : string) :
  p c = false ->
  Py.strip_of p (String c t) =
  String c (String.rev (Py.lstrip_of p (String.rev t))).
Proof.
  intros Hc. unfold Py.strip_of, Py.rstrip_of. rewrite lstrip_of_stop by done.
  unfold String.rev at 2. cbn [String.rev_app]. rewrite rev_app_spec.
  rewrite lstrip_of_app_stop by done.
  unfold String.rev at 1. rewrite rev_app_append. reflexivity.
Qed.

Lemma strip_of_idem (p : ascii -> bool) (s : string) :
  Py.strip_of p (Py.strip_of p s) = Py.strip_of p s.
Proof.
  destruct (lstrip_of_head p s) as [Hs|(c & t & Hs & Hc)].
  - assert (Py.strip_of p s = "") as ->; [|reflexivity].
    unfold Py.strip_of. by rewrite Hs.
  - assert (Py.strip_of p s = Py.strip_of p (String c t)) as ->.
    { unfold Py.strip_of. by rewrite Hs, lstrip_of_stop. }
    rewrite !strip_of_stop by done.
    by rewrite rev_involutive, lstrip_of_idem.
Qed.

(** X2: a value that [extract_field] returns is never empty and carries no
    blank at either end, so that the fallback [or DEFAULT] of the callers
    only fires on a field that was not found. *)
Theorem extract_field_trimmed (body label v : string) :
  extract_field body label = Some v -> v <> "" /\ Py.strip v = v.
Proof.
  unfold extract_field, next_line.
  destruct (negb (Py.truthy body)); [done|].
  destruct (Re.search _ _) as [m|]; [|done].
  destruct (Py.truthy (Py.strip (Re.group1 m))) eqn:Hin.
  - intros [= <-]. split; [by apply truthy_true|apply strip_of_idem].
  - destruct (Py.splitlines _) as [|line lines]; [done|].
    destruct (negb (Py.truthy (Py.strip line))) eqn:Hl; [done|].
    apply negb_false_iff in Hl.
    intros [= <-]. split; [by apply truthy_true|apply strip_of_idem].
Qed.

Lemma extract_field_trimmed_witness :
  extract_field ("Full Name :   Ada Lovelace  " +:+ nl +:+ "Date: x") "Full Name"
    = Some "Ada Lovelace" /\
  "Ada Lovelace" <> "" /\ Py.strip "Ada Lovelace" = "Ada Lovelace".
Proof.
  split; [by vm_compute|].
  apply (extract_field_trimmed
           ("Full Name :   Ada Lovelace  " +:+ nl +:+ "Date: x") "Full Name").
  by vm_compute.
Defined.

Lemma lower_String_inv (a b : ascii) (s t : string) :
  Py.lower (String a s) = Py.lower (String b t) ->
  Py.lower_char a = Py.lower_char b /\ Py.lower s = Py.lower t.
Proof. unfold Py.lower. simpl. by intros [= ? ?]. Qed.

Lemma match_here_label_case (l1 l2 : string) (re : list Re.atom) :
  Py.lower l1 = Py.lower l2 ->
  forall g prev s pos,
    Re.match_here (Re.escape l1 ++ re) g prev s pos =
    Re.match_here (Re.escape l2 ++ re) g prev s pos.
Proof.
  revert l2. induction l1 as [|a l1 IH]; intros [|b l2] Hl; try done.
  apply lower_String_inv in Hl as [Hab Hl].
  intros g prev s pos. cbn [Re.escape app Re.match_here].
  destruct s as [|x s]; [done|]. rewrite Hab.
  destruct (Ascii.eqb _ _); [|done]. by apply IH.
Qed.

Lemma search_label_case (l1 l2 : string) (body : string) :
  Py.lower l1 = Py.lower l2 ->
  Re.search (field_pattern l1) body = Re.search (field_pattern l2) body.
Proof.
  intros Hl. unfold Re.search. generalize 0 (@None ascii).
  induction body as [|x body IH]; intros pos prev; cbn [Re.search_from];
    unfold field_pattern; cbn [app Re.match_here];
    rewrite (match_here_label_case l1 l2 _ Hl); [done|].
  destruct (if Re.at_bol prev then _ else _); [done|]. apply IH.
Qed.

(** X3: the label of a field is matched without regard to case: two labels
    that agree in lower case extract the same value from every body. *)
Theorem extract_field_label_case (body l1 l2 : string) :
  Py.lower l1 = Py.lower l2 ->
  extract_field body l1 = extract_field body l2.
Proof.
  intros Hl. unfold extract_field. by rewrite (search_label_case l1 l2 body Hl).
Qed.

Lemma extract_field_label_case_witness :
  Py.lower "SERIAL number" = Py.lower "Serial Number" /\
  extract_field ("serial NUMBER: A1") "SERIAL number"
  = extract_field ("serial NUMBER: A1") "Serial Number".
Proof.
  split; [reflexivity|]. by apply extract_field_label_case.
Defined.

(** ** Sender names *)

Lemma contains_char (c : ascii) (s : string) :
  Py.contains (String c "") s = negb (all_chars (fun x => negb (Ascii.eqb c x)) s).
Proof.
  induction s as [|b s IH]; [done|].
  cbn [Py.contains Py.startswith all_chars]. rewrite IH.
  by destruct (Ascii.eqb c b).
Qed.

Lemma all_chars_app (q : ascii -> bool) (s t : string) :
  all_chars q (s +:+ t) = all_chars q s && all_chars q t.
Proof.
  induction s as [|a s IH]; [done|].
  rewrite app_String. cbn [all_chars]. rewrite IH. by destruct (q a).
Qed.

Lemma all_chars_rev (q : ascii -> bool) (s : string) :
  all_chars q (String.rev s) = all_chars q s.
Proof. unfold String.rev. rewrite all_chars_rev_app. simpl. by rewrite andb_true_r. Qed.

Lemma all_chars_lstrip (q p : ascii -> bool) (s : string) :
  all_chars q s = true -> all_chars q (Py.lstrip_of p s) = true.
Proof.
  induction s as [|a s IH]; [done|]. intros H. simpl.
  destruct (p a); [|done]. apply IH. simpl in H. by apply andb_true_iff in H as [_ ?].
Qed.

Lemma all_chars_strip (q p : ascii -> bool) (s : string) :
  all_chars q s = true -> all_chars q (Py.strip_of p s) = true.
Proof.
  intros H. unfold Py.strip_of, Py.rstrip_of.
  rewrite all_chars_rev. apply all_chars_lstrip.
  rewrite all_chars_rev. by apply all_chars_lstrip.
Qed.

Lemma all_chars_split1 (q : ascii -> bool) (sep : ascii) (s : string) :
  all_chars q s = true ->
  all_chars q (Py.split1 sep s).1 = true /\
  forall t, (Py.split1 sep s).2 = Some t -> all_chars q t = true.
Proof.
  induction s as [|a s IH]; [done|]. cbn [all_chars Py.split1].
  intros [Ha Hs]%andb_true_iff. destruct (Ascii.eqb a sep).
  - split; [done|]. by intros t [= <-].
  - destruct (Py.split1 sep s) as [x y]. destruct (IH Hs) as [Hx Hy].
    split; [|done]. simpl. by rewrite Ha.
Qed.

Lemma split1_before (sep : ascii) (s : string) :
  all_chars (fun x => negb (Ascii.eqb sep x)) (Py.split1 sep s).1 = true.
Proof.
  induction s as [|a s IH]; [done|]. cbn [Py.split1].
  destruct (Ascii.eqb_spec a sep) as [->|Hne]; [done|].
  destruct (Py.split1 sep s) as [x y]. simpl in *. rewrite IH.
  rewrite (proj2 (Ascii.eqb_neq sep a)); [done|congruence].
Qed.

(** X4: [clean_name] gives no name exactly for no input, and a name it gives
    never holds an opening angle bracket: whatever follows the first one,
    the address of the header, is dropped before the name is reordered. *)
Theorem clean_name_no_address (s : option string) :
  (clean_name s = None <-> s = None) /\
  (forall r, clean_name s = Some r -> Py.contains "<" r = false).
Proof.
  split.
  - unfold clean_name. destruct s as [s0|]; [|done].
    split; [|done]. destruct (negb (Py.truthy s0)); [done|].
    destruct (if Py.contains "<" _ then _ else _) as [|a t];
      [by destruct (Py.contains "," "")|].
    destruct (Py.contains "," _); [|done]. by destruct (Py.split1 _ _) as [? []].
  - intros r. unfold clean_name. destruct s as [s0|]; [|done].
    destruct (negb (Py.truthy s0)) eqn:Ht.
    { apply negb_true_iff in Ht. destruct s0; [|done]. by intros [= <-]. }
    set (q := fun x => negb (Ascii.eqb "<" x)).
    set (s1 := Py.strip_of is_quote (Py.strip s0)).
    assert (all_chars q (if Py.contains "<" s1
                         then Py.strip (Py.split1 "<" s1).1 else s1) = true) as Hs2.
    { destruct (Py.contains "<" s1) eqn:Hc.
      - apply all_chars_strip, split1_before.
      - rewrite contains_char in Hc. by apply negb_false_iff in Hc. }
    revert Hs2. generalize (if Py.contains "<" s1
                            then Py.strip (Py.split1 "<" s1).1 else s1).
    intros s2 Hs2. rewrite !contains_char.
    assert (forall t, all_chars q t = true ->
              negb (all_chars (fun x => negb (Ascii.eqb "<" x)) t) = false) as Hdone.
    { intros t Ht'. fold q. by rewrite Ht'. }
    destruct (negb (all_chars _ s2)).
    + destruct (all_chars_split1 q "," s2 Hs2) as [Hlast Hfirst].
      destruct (Py.split1 "," s2) as [last [first|]]; intros [= <-]; apply Hdone; [|done].
      rewrite !all_chars_app. unfold Py.strip.
      rewrite (all_chars_strip q Py.isspace first (Hfirst _ eq_refl)).
      by rewrite (all_chars_strip q Py.isspace last Hlast).
    + intros [= <-]. by apply Hdone.
Qed.

Lemma clean_name_no_address_witness :
  clean_name (Some "Doe, John <john.doe@example.org>") = Some "John Doe" /\
  Py.contains "<" "John Doe" = false.
Proof.
  split; [by vm_compute|].
  apply (proj2 (clean_name_no_address (Some "Doe, John <john.doe@example.org>"))).
  by vm_compute.
Defined.

(** ** Row validation, again *)

Lemma remove_bad_rows_cases (df : DataFrame) :
  remove_bad_rows df = empty_frame \/
  (SERIAL_COL ∈ columns df /\
   remove_bad_rows df =
   {| columns := columns df;
      rows := filter (fun r => bad_serial (cell_at r SERIAL_COL) = false) (rows df) |}).
Proof.
  unfold remove_bad_rows.
  destruct (df_empty df || negb (bool_decide (SERIAL_COL ∈ columns df))) eqn:Hg;
    [by left|right].
  apply orb_false_iff in Hg as [_ Hc].
  by apply negb_false_iff, bool_decide_eq_true in Hc.
Qed.

Lemma filter_idem {A} (P : A -> Prop) `{!forall a, Decision (P a)} (l : list A) :
  filter P (filter P l) = filter P l.
Proof.
  induction l as [|a l IH]; [done|].
  rewrite filter_cons. destruct (decide (P a)); [|done].
  by rewrite filter_cons, decide_True, IH.
Qed.

Lemma remove_bad_rows_rows (df : DataFrame) :
  rows (remove_bad_rows df) =
  if bool_decide (SERIAL_COL ∈ columns df)
  then filter (fun r => bad_serial (cell_at r SERIAL_COL) = false) (rows df)
  else [].
Proof.
  unfold remove_bad_rows, df_empty.
  destruct (bool_decide (SERIAL_COL ∈ columns df)) eqn:Hc; [|by rewrite orb_true_r].
  apply bool_decide_eq_true in Hc.
  destruct (columns df) as [|c0 cs]; [by apply elem_of_nil in Hc|].
  rewrite bool_decide_eq_false_2 by done.
  by destruct (rows df).
Qed.

(** X5: [remove_bad_rows] only drops rows: what it keeps is a part of the
    input in the input's order, every row unchanged; every kept row has a
    valid serial; a second pass drops nothing more; and the columns are those
    of the input unless the result is the empty frame. *)
Theorem remove_bad_rows_sublist (df : DataFrame) :
  rows (remove_bad_rows df) `sublist_of` rows df /\
  Forall (fun r => bad_serial (cell_at r SERIAL_COL) = false)
         (rows (remove_bad_rows df)) /\
  rows (remove_bad_rows (remove_bad_rows df)) = rows (remove_bad_rows df) /\
  (remove_bad_rows df = empty_frame \/ columns (remove_bad_rows df) = columns df).
Proof.
  split_and!.
  - rewrite remove_bad_rows_rows. destruct (bool_decide _).
    + apply sublist_filter.
    + apply sublist_nil_l.
  - rewrite remove_bad_rows_rows. destruct (bool_decide _); [|constructor].
    apply Forall_forall. by intros r [? _]%list_elem_of_filter.
  - rewrite (remove_bad_rows_rows (remove_bad_rows df)).
    destruct (remove_bad_rows_cases df) as [->|[Hc ->]]; [done|].
    cbn [columns rows]. rewrite bool_decide_eq_true_2 by done. apply filter_idem.
  - destruct (remove_bad_rows_cases df) as [->|[Hc ->]]; [by left|by right].
Qed.

(** ** The priority sort, again *)

Lemma without_helpers_idem (r : row) :
  without_helpers (without_helpers r) = without_helpers r.
Proof.
  unfold without_helpers. apply map_eq. intros k.
  destruct (decide (k = "_p")) as [->|Hp]; [by rewrite !lookup_delete_eq|].
  destruct (decide (k = "_idx")) as [->|Hi];
    repeat (rewrite lookup_delete_eq || rewrite lookup_delete_ne by done); done.
Qed.

Lemma fmap_fixed {A} (f : A -> A) (l : list A) :
  (forall x, x ∈ l -> f x = x) -> f <$> l = l.
Proof.
  induction l as [|a l IH]; [done|]. intros H.
  rewrite fmap_cons, H, IH; [done| |by left]. intros x Hx. apply H. by right.
Qed.

Lemma partition_Permutation {A} (f : A -> bool) (l : list A) :
  filter (fun x => f x = true) l ++ filter (fun x => f x = false) l ≡ₚ l.
Proof.
  induction l as [|a l IH]; [done|].
  rewrite !filter_cons. destruct (f a) eqn:Hf.
  - rewrite decide_True, decide_False by done. simpl. by rewrite IH.
  - rewrite decide_False, decide_True by done.
    rewrite <-Permutation_middle. by rewrite IH.
Qed.

Lemma helper_columns_filter (cs : list string) (c : string) :
  c ∈ ["_p"; "_idx"] ->
  filter (fun c => c ∉ ["_p"; "_idx"])
         (if bool_decide (c ∈ cs) then cs else cs ++ [c])
  = filter (fun c => c ∉ ["_p"; "_idx"]) cs.
Proof.
  intros Hc. destruct (bool_decide (c ∈ cs)); [done|].
  rewrite filter_app, filter_cons, filter_nil.
  destruct (decide (c ∉ ["_p"; "_idx"])) as [Hn|_]; [done|].
  by rewrite app_nil_r.
Qed.

(** The output of the sort on a frame that has rows and the model column. *)
Lemma sort_priority_devices_frame (df : DataFrame) :
  "Device Model" ∈ columns df -> rows df <> [] ->
  sort_priority_devices df =
  {| columns := filter (fun c => c ∉ ["_p"; "_idx"]) (columns df);
     rows := filter (fun r => is_priority r = true) (without_helpers <$> rows df) ++
             filter (fun r => is_priority r = false) (without_helpers <$> rows df) |}.
Proof.
  intros Hc Hr. rewrite <-(sort_priority_devices_rows df Hc).
  unfold sort_priority_devices at 1 2, df_empty.
  rewrite (bool_decide_eq_true_2 _ Hc), (bool_decide_eq_false_2 (rows df = [])) by done.
  destruct (columns df) as [|c0 cs] eqn:Hcols; [by apply elem_of_nil in Hc|].
  rewrite bool_decide_eq_false_2 by done. cbn [negb orb].
  unfold drop_columns. f_equal.
  cbn [columns set_column].
  rewrite helper_columns_filter by (right; by left).
  rewrite helper_columns_filter by by left.
  by rewrite Hcols.
Qed.

(** X6: the priority sort loses and duplicates no record (its rows are a
    permutation of the input records) and is idempotent: sorting a sorted
    frame changes nothing. *)
Theorem sort_priority_devices_idempotent (df : DataFrame) :
  sort_priority_devices (sort_priority_devices df) = sort_priority_devices df /\
  rows (sort_priority_devices df) ≡ₚ
    (if bool_decide ("Device Model" ∈ columns df)
     then without_helpers <$> rows df else rows df) /\
  length (rows (sort_priority_devices df)) = length (rows df).
Proof.
  destruct (bool_decide ("Device Model" ∈ columns df)) eqn:Hc.
  - apply bool_decide_eq_true in Hc.
    destruct (decide (rows df = [])) as [Hr|Hr].
    + assert (sort_priority_devices df = df) as Hid.
      { unfold sort_priority_devices, df_empty.
        rewrite (bool_decide_eq_true_2 (rows df = [])) by done.
        by rewrite orb_true_r. }
      rewrite !Hid, Hr. done.
    + rewrite (sort_priority_devices_frame df Hc Hr).
      set (U := without_helpers <$> rows df).
      set (P := filter (fun r => is_priority r = true) U).
      set (N := filter (fun r => is_priority r = false) U).
      assert (P ++ N ≡ₚ U) as Hperm by apply partition_Permutation.
      assert (length (P ++ N) = length (rows df)) as Hlen.
      { rewrite Hperm. unfold U. by rewrite length_fmap. }
      split_and!; [|done|done].
      rewrite sort_priority_devices_frame; cbn [columns rows].
      * f_equal; [apply filter_idem|].
        rewrite fmap_fixed.
        { rewrite !filter_app. unfold P, N.
          rewrite !filter_bool_same.
          rewrite (filter_bool_other is_priority false).
          rewrite (filter_bool_other is_priority true).
          by rewrite app_nil_r. }
        intros x Hx. rewrite Hperm in Hx.
        apply list_elem_of_fmap in Hx as (r & -> & _). apply without_helpers_idem.
      * apply list_elem_of_filter. split; [|done]. by_compute.
      * intros Hnil. rewrite Hnil in Hlen. destruct (rows df); [done|discriminate].
  - assert (sort_priority_devices df = df) as Hid.
    { unfold sort_priority_devices. rewrite Hc. simpl. by rewrite orb_true_r. }
    by rewrite !Hid.
Qed.

(** ** The fallback fills of an attachment's frame *)

Lemma set_column_map_rows (df : DataFrame) (c : string) (f : cell -> cell) :
  rows (set_column df c (f <$> column df c)) =
  (fun r => <[c := f (cell_at r c)]> r) <$> rows df.
Proof.
  unfold set_column, column. cbn [rows].
  rewrite <-list_fmap_compose, zip_with_fmap_r, zip_with_diag. done.
Qed.

Lemma set_column_columns (df : DataFrame) (c : string) (values : list cell) (x : string) :
  x ∈ columns (set_column df c values) <-> x ∈ columns df \/ x = c.
Proof.
  unfold set_column. cbn [columns].
  destruct (bool_decide (c ∈ columns df)) eqn:Hc.
  - apply bool_decide_eq_true in Hc. split; [by left|]. by intros [?| ->].
  - by rewrite elem_of_app, list_elem_of_singleton.
Qed.

Lemma fillna_not_missing (v x : cell) : isna v = false -> isna (fillna v x) = false.
Proof. intros Hv. unfold fillna. by destruct (isna x) eqn:Hx. Qed.

(** One fallback fill: the column [c] is created with the default [v] when
    the frame lacks it, and its missing values are replaced by [v]. *)
Lemma fill_column_rows (df : DataFrame) (c : string) (v : cell) :
  rows (set_column (fill_column_frame df c v) c
          (fillna v <$> column (fill_column_frame df c v) c)) =
  (fun r => <[c := if bool_decide (c ∈ columns df)
                   then fillna v (cell_at r c) else v]> r) <$> rows df.
Proof.
  unfold fill_column_frame. rewrite set_column_map_rows.
  destruct (bool_decide (c ∈ columns df)); [done|].
  rewrite set_column_scalar_rows, <-list_fmap_compose.
  apply list_fmap_ext. intros _ r _. simpl.
  unfold cell_at. rewrite lookup_insert_eq, insert_insert_eq. simpl.
  unfold fillna. by destruct (isna v).
Qed.

Lemma fill_column_columns (df : DataFrame) (c : string) (v : cell) (x : string) :
  x ∈ columns (set_column (fill_column_frame df c v) c
                 (fillna v <$> column (fill_column_frame df c v) c))
  <-> x ∈ columns df \/ x = c.
Proof.
  rewrite set_column_columns. unfold fill_column_frame.
  destruct (bool_decide (c ∈ columns df)); [done|].
  unfold set_column_scalar. rewrite set_column_columns. tauto.
Qed.

Lemma fill_defaults_rows (d : date) (who : string) (df : DataFrame) :
  rows (fill_defaults d who df) =
  (fun r =>
     <["Changed By" := if bool_decide ("Changed By" ∈ columns df)
                       then fillna (Str who) (cell_at r "Changed By") else Str who]>
     (<[DATE_COL := if bool_decide (DATE_COL ∈ columns df)
                    then fillna (Stamp d) (cell_at r DATE_COL) else Stamp d]> r))
    <$> rows df.
Proof.
  unfold fill_defaults. cbv zeta.
  fold (fill_column_frame df DATE_COL (Stamp d)).
  set (dfd := set_column (fill_column_frame df DATE_COL (Stamp d)) DATE_COL _).
  fold (fill_column_frame dfd "Changed By" (Str who)).
  rewrite (fill_column_rows dfd "Changed By" (Str who)).
  assert (bool_decide ("Changed By" ∈ columns dfd)
          = bool_decide ("Changed By" ∈ columns df)) as ->.
  { apply bool_decide_ext. unfold dfd. rewrite fill_column_columns.
    split; [by intros [?|?]|by left]. }
  unfold dfd. rewrite (fill_column_rows df DATE_COL (Stamp d)).
  rewrite <-list_fmap_compose. apply list_fmap_ext. intros _ r _. cbn [compose].
  f_equal. destruct (bool_decide ("Changed By" ∈ columns df)); [|done].
  unfold cell_at. by rewrite lookup_insert_ne.
Qed.

(** X7: the two fallback fills of an attachment's frame keep every row and
    every other column, never overwrite a date or a Changed By value that is
    present, and leave neither of the two missing in any row: a missing date
    becomes the file date and a missing Changed By the sender. *)
Theorem fill_defaults_rows_filled (d : date) (who : string) (df : DataFrame) :
  length (rows (fill_defaults d who df)) = length (rows df) /\
  forall (i : nat) (r : row), rows df !! i = Some r ->
    exists r', rows (fill_defaults d who df) !! i = Some r' /\
      (forall c, c <> DATE_COL -> c <> "Changed By" -> r' !! c = r !! c) /\
      cell_at r' DATE_COL =
        (if bool_decide (DATE_COL ∈ columns df) && negb (isna (cell_at r DATE_COL))
         then cell_at r DATE_COL else Stamp d) /\
      cell_at r' "Changed By" =
        (if bool_decide ("Changed By" ∈ columns df) && negb (isna (cell_at r "Changed By"))
         then cell_at r "Changed By" else Str who) /\
      isna (cell_at r' DATE_COL) = false /\
      isna (cell_at r' "Changed By") = false.
Proof.
  rewrite fill_defaults_rows. split; [by rewrite length_fmap|].
  intros i r Hr. eexists. rewrite list_lookup_fmap, Hr. split; [reflexivity|].
  split_and!.
  - intros c H1 H2. by rewrite !lookup_insert_ne.
  - unfold cell_at at 1. rewrite lookup_insert_ne, lookup_insert_eq by done. simpl.
    unfold fillna. by destruct (bool_decide _), (isna (cell_at r DATE_COL)).
  - unfold cell_at at 1. rewrite lookup_insert_eq. simpl.
    unfold fillna. by destruct (bool_decide _), (isna (cell_at r "Changed By")).
  - unfold cell_at at 1. rewrite lookup_insert_ne, lookup_insert_eq by done. simpl.
    destruct (bool_decide _); [by apply fillna_not_missing|done].
  - unfold cell_at at 1. rewrite lookup_insert_eq. simpl.
    destruct (bool_decide _); [by apply fillna_not_missing|done].
Qed.

Lemma fill_defaults_rows_filled_witness :
  let df := {| columns := [SERIAL_COL; DATE_COL];
               rows := [ {[ SERIAL_COL := Str "A1"; DATE_COL := Str "01/02/2024" ]};
                         {[ SERIAL_COL := Str "A2"; DATE_COL := NaN ]} ] |} in
  let d := {| year := 2024; month := 3; day := 9 |} in
  rows df !! 1 = Some {[ SERIAL_COL := Str "A2"; DATE_COL := NaN ]} /\
  exists r', rows (fill_defaults d "Pat" df) !! 1 = Some r' /\
             cell_at r' DATE_COL = Stamp d /\ cell_at r' "Changed By" = Str "Pat".
Proof.
  intros df d. split; [reflexivity|].
  destruct (proj2 (fill_defaults_rows_filled d "Pat" df) 1 _ eq_refl)
    as (r' & Hr' & _ & Hd & Hc & _).
  exists r'. split; [exact Hr'|]. split; [exact Hd|exact Hc].
Defined.

(** ** The loop of step 1, again *)

Lemma fill_defaults_columns (d : date) (who : string) (df : DataFrame) (x : string) :
  x ∈ columns (fill_defaults d who df) <->
  x ∈ columns df \/ x = DATE_COL \/ x = "Changed By".
Proof.
  unfold fill_defaults. cbv zeta.
  fold (fill_column_frame df DATE_COL (Stamp d)).
  set (dfd := set_column (fill_column_frame df DATE_COL (Stamp d)) DATE_COL _).
  fold (fill_column_frame dfd "Changed By" (Str who)).
  rewrite fill_column_columns. unfold dfd. rewrite fill_column_columns. tauto.
Qed.

Lemma fill_defaults_not_missing (d : date) (who : string) (df : DataFrame) (r : row) :
  r ∈ rows (fill_defaults d who df) ->
  isna (cell_at r DATE_COL) = false /\ isna (cell_at r "Changed By") = false.
Proof.
  rewrite fill_defaults_rows. intros (r0 & -> & _)%list_elem_of_fmap.
  unfold cell_at. rewrite lookup_insert_ne, !lookup_insert_eq by done. simpl.
  split; destruct (bool_decide _); try done; by apply fillna_not_missing.
Qed.

(** The frame the loop keeps of an attachment, when it keeps one. *)
Lemma stored_frame_attachment (d : date) (who : string) (df : DataFrame) :
  df_empty (remove_bad_rows (fill_defaults d who df)) = false ->
  stored_frame (remove_bad_rows (fill_defaults d who df)).
Proof.
  intros Hne. split; [done|].
  destruct (remove_bad_rows_cases (fill_defaults d who df)) as [Hrb|[Hc Hrb]].
  { by rewrite Hrb in Hne. }
  rewrite Hrb. cbn [columns rows]. split_and!; [done| | |].
  - apply fill_defaults_columns. right. by left.
  - apply fill_defaults_columns. right. by right.
  - apply Forall_forall. intros r [Hs Hr]%list_elem_of_filter.
    split; [done|]. by apply (fill_defaults_not_missing d who df).
Qed.

Lemma process_attachment_step (who : string) (b : bool) (frames : list DataFrame)
    (att : Attachment) :
  exists frames',
    process_attachment who (b, frames) att =
      (b || is_excel_name (or_else (longFilename att) ""), frames') /\
    frames `prefix_of` frames' /\
    (Forall stored_frame frames -> Forall stored_frame frames').
Proof.
  unfold process_attachment.
  destruct (is_excel_name _).
  - rewrite orb_true_r. destruct (excel att) as [df|]; [|by exists frames].
    destruct (df_empty _) eqn:He; [by exists frames|].
    eexists. split; [done|]. split; [by apply prefix_app_r|].
    intros Hf. apply Forall_app. split; [done|].
    constructor; [|constructor]. by apply stored_frame_attachment.
  - rewrite orb_false_r. by exists frames.
Qed.

Lemma process_attachments (who : string) (atts : list Attachment) (b : bool)
    (frames : list DataFrame) :
  exists frames',
    foldl (process_attachment who) (b, frames) atts =
      (b || existsb (fun att => is_excel_name (or_else (longFilename att) "")) atts,
       frames') /\
    frames `prefix_of` frames' /\
    (Forall stored_frame frames -> Forall stored_frame frames').
Proof.
  revert b frames. induction atts as [|att atts IH]; intros b frames.
  - exists frames. by rewrite orb_false_r.
  - cbn [foldl existsb].
    destruct (process_attachment_step who b frames att) as (f1 & -> & Hp1 & Hg1).
    destruct (IH (b || is_excel_name (or_else (longFilename att) "")) f1)
      as (f2 & -> & Hp2 & Hg2).
    exists f2. rewrite orb_assoc. split; [done|].
    split; [by etrans|]. auto.
Qed.

(** One turn of the loop, spelled out by cases. *)
Lemma process_file_cases (st : State) (f : string) (opened : option Message) :
  Py.endswith (Py.lower f) ".msg" = true ->
  exists frames',
    data_frames st `prefix_of` frames' /\
    (Forall stored_frame (data_frames st) -> Forall stored_frame frames') /\
    process_file st (f, opened) =
    {| stats :=
         (let s1 := bump "total_emails" (stats st) in
          let s2 := match opened with
                    | Some msg =>
                        if has_marker msg then
                          if makes_workflow_record msg
                          then bump "entries_created" (bump "workflow_emails" s1)
                          else bump "workflow_emails" s1
                        else s1
                    | None => s1
                    end in
          if match opened with Some msg => has_excel_attachment msg | None => false end
          then bump "with_excel" s2 else bump "no_excel" s2);
       data_frames := frames';
       workflow_data :=
         match opened with
         | Some msg =>
             if makes_workflow_record msg
             then workflow_data st ++
                  [workflow_record (or_else (body msg) "") (sender msg)
                     (default "" (extract_field (or_else (body msg) "") "Serial Number"))]
             else workflow_data st
         | None => workflow_data st
         end;
       no_row_emails :=
         if yields_nothing opened then no_row_emails st ++ [f] else no_row_emails st |}.
Proof.
  intros Hmsg. unfold process_file. rewrite Hmsg. cbn [negb].
  destruct opened as [msg|].
  - destruct (process_attachments (sender msg) (attachments msg) false (data_frames st))
      as (frames' & Hfold & Hp & Hg).
    exists frames'. split; [done|]. split; [done|].
    rewrite Hfold. cbn [orb]. fold (has_excel_attachment msg).
    unfold yields_nothing, makes_workflow_record. fold (has_marker msg).
    destruct (has_marker msg); cbn [andb];
      [destruct (serial_accepted _)|]; destruct (has_excel_attachment msg); reflexivity.
  - exists (data_frames st). split; [done|]. split; [done|]. reflexivity.
Qed.

Lemma process_file_other (st : State) (f : string) (opened : option Message) :
  Py.endswith (Py.lower f) ".msg" = false -> process_file st (f, opened) = st.
Proof. intros H. unfold process_file. by rewrite H. Qed.

Lemma tally_cons (P : string * option Message -> bool) (e : string * option Message)
    (entries : list (string * option Message)) :
  tally P (e :: entries) = (if P e then 1 else 0) + tally P entries.
Proof.
  unfold tally. rewrite filter_cons. destruct (P e).
  - by rewrite decide_True.
  - by rewrite decide_False.
Qed.

(** What one turn of the loop adds to each counter and to each list. *)
Lemma process_file_adds (st : State) (e : string * option Message) :
  let st' := process_file st e in
  stats st' !!! "total_emails" =
    stats st !!! "total_emails" + (if counts_total e then 1 else 0) /\
  stats st' !!! "with_excel" =
    stats st !!! "with_excel" + (if counts_with_excel e then 1 else 0) /\
  stats st' !!! "no_excel" =
    stats st !!! "no_excel" + (if counts_total e && negb (counts_with_excel e) then 1 else 0) /\
  stats st' !!! "workflow_emails" =
    stats st !!! "workflow_emails" + (if counts_workflow e then 1 else 0) /\
  stats st' !!! "entries_created" =
    stats st !!! "entries_created" + (if counts_entry e then 1 else 0) /\
  length (workflow_data st') =
    length (workflow_data st) + (if counts_entry e then 1 else 0) /\
  no_row_emails st' =
    no_row_emails st ++ (if listed e then [e.1] else []) /\
  data_frames st `prefix_of` data_frames st' /\
  workflow_data st `prefix_of` workflow_data st' /\
  (Forall stored_frame (data_frames st) -> Forall stored_frame (data_frames st')).
Proof.
  destruct e as [f opened].
  unfold counts_with_excel, counts_workflow, counts_entry, listed, counts_total.
  cbn [fst snd]. cbv zeta.
  destruct (Py.endswith (Py.lower f) ".msg") eqn:Hmsg.
  2: { rewrite process_file_other by done. cbn [andb].
       rewrite !Nat.add_0_r, app_nil_r. done. }
  destruct (process_file_cases st f opened Hmsg) as (frames' & Hp & Hg & ->).
  cbn [andb stats data_frames workflow_data no_row_emails]. cbv zeta.
  split_and!; [..|done| |done].
  - destruct opened as [msg|]; [destruct (has_marker msg);
      [destruct (makes_workflow_record msg)|]; destruct (has_excel_attachment msg)|];
      simpl; bump_simpl; lia.
  - destruct opened as [msg|]; [destruct (has_marker msg);
      [destruct (makes_workflow_record msg)|]; destruct (has_excel_attachment msg)|];
      simpl; bump_simpl; lia.
  - destruct opened as [msg|]; [destruct (has_marker msg);
      [destruct (makes_workflow_record msg)|]; destruct (has_excel_attachment msg)|];
      simpl; bump_simpl; lia.
  - destruct opened as [msg|]; [destruct (has_marker msg);
      [destruct (makes_workflow_record msg)|]; destruct (has_excel_attachment msg)|];
      simpl; bump_simpl; lia.
  - destruct opened as [msg|]; [unfold makes_workflow_record; destruct (has_marker msg);
      [destruct (serial_accepted _)|]; destruct (has_excel_attachment msg)|];
      simpl; bump_simpl; lia.
  - destruct opened as [msg|]; [destruct (makes_workflow_record msg)|];
      rewrite ?length_app; simpl; lia.
  - destruct (yields_nothing opened); [done|by rewrite app_nil_r].
  - destruct opened as [msg|]; [destruct (makes_workflow_record msg)|];
      [by apply prefix_app_r|done..].
Qed.



(** *** The loop when the [try] raises part-way *)

Lemma try_attachments_read (who : string) (atts : list (attempt Attachment))
    (files : list Attachment) (acc : bool * list DataFrame) :
  all_read atts = Some files ->
  try_attachments who acc atts =
  (Returns (foldl (process_attachment who) acc files).1,
   (foldl (process_attachment who) acc files).2).
Proof.
  revert files acc. induction atts as [|[|att] atts IH]; intros files acc; simpl.
  - by intros [= <-].
  - done.
  - destruct (all_read atts) as [l|]; [|done]. simpl. intros [= <-].
    exact (IH l (process_attachment who acc att) eq_refl).
Qed.

Lemma try_attachments_raised (who : string) (atts : list (attempt Attachment))
    (acc : bool * list DataFrame) :
  all_read atts = None ->
  exists frames, try_attachments who acc atts = (Raises, frames).
Proof.
  revert acc. induction atts as [|[|att] atts IH]; intros acc; simpl.
  - done.
  - intros _. by eexists.
  - destruct (all_read atts) as [l|]; [done|]. intros _. by apply IH.
Qed.

(** A [try] that runs to its end is the loop body on the message read. *)
Lemma process_file_try_completes (st : State) (f : string) (msg : Reading)
    (m : Message) :
  read_message msg = Some m ->
  process_file_try st (f, Returns msg) = process_file st (f, Some m).
Proof.
  unfold read_message, read_head, process_file_try, process_file.
  destruct (negb _); [done|].
  destruct (read_sender msg) as [|who]; [done|].
  destruct (read_attachments msg) as [|atts]; [done|].
  destruct (all_read atts) as [files|] eqn:Hfiles; [|done].
  destruct (read_subject msg) as [|subj]; [done|].
  rewrite (try_attachments_read who atts files _ Hfiles).
  destruct (Py.contains _ _) eqn:Hmark.
  - destruct (read_body msg) as [|text]; [done|]. intros [= <-].
    cbn [subject body sender attachments]. rewrite Hmark.
    by destruct (foldl _ _ files).
  - intros [= <-]. cbn [subject body sender attachments]. rewrite Hmark.
    by destruct (foldl _ _ files).
Qed.

(** A [try] that raises: the file is counted, with the marker when the
    subject was reached, it goes to [no_excel] and it is listed. *)
Lemma process_file_try_raised (st : State) (f : string) (msg : Reading) :
  Py.endswith (Py.lower f) ".msg" = true ->
  read_message msg = None ->
  exists frames,
    process_file_try st (f, Returns msg) =
    {| stats := bump "no_excel"
                  (if marker_seen msg
                   then bump "workflow_emails" (bump "total_emails" (stats st))
                   else bump "total_emails" (stats st));
       data_frames := frames;
       workflow_data := workflow_data st;
       no_row_emails := no_row_emails st ++ [f] |}.
Proof.
  intros Hmsg. unfold read_message, marker_seen, read_head, process_file_try.
  rewrite Hmsg. cbn [negb].
  destruct (read_sender msg) as [|who]; [by eexists|].
  destruct (read_attachments msg) as [|atts]; [by eexists|].
  destruct (all_read atts) as [files|] eqn:Hfiles.
  - rewrite (try_attachments_read who atts files _ Hfiles).
    destruct (read_subject msg) as [|subj]; [by eexists|].
    destruct (Py.contains _ _); [|done].
    destruct (read_body msg); [by eexists|done].
  - destruct (try_attachments_raised who atts (false, data_frames st) Hfiles)
      as [frames ->]. by eexists.
Qed.

Lemma marker_seen_read (msg : Reading) (m : Message) :
  read_message msg = Some m -> marker_seen msg = has_marker m.
Proof.
  unfold read_message, marker_seen, has_marker.
  destruct (read_head msg) as [[[who files] subj]|]; [|done].
  destruct (Py.contains _ _) eqn:Hmark.
  - destruct (read_body msg); [done|]. by intros [= <-].
  - by intros [= <-].
Qed.

(** What one turn of the loop adds to each counter and to the list of
    files that gave nothing. *)
Lemma process_file_try_adds (st : State) (e : string * attempt Reading) :
  let st' := process_file_try st e in
  stats st' !!! "total_emails" =
    stats st !!! "total_emails" + (if counts_total (completed e) then 1 else 0) /\
  stats st' !!! "with_excel" =
    stats st !!! "with_excel" + (if counts_with_excel (completed e) then 1 else 0) /\
  stats st' !!! "no_excel" =
    stats st !!! "no_excel" +
    (if counts_total (completed e) && negb (counts_with_excel (completed e))
     then 1 else 0) /\
  stats st' !!! "workflow_emails" =
    stats st !!! "workflow_emails" + (if counts_marker e then 1 else 0) /\
  stats st' !!! "entries_created" =
    stats st !!! "entries_created" + (if counts_entry (completed e) then 1 else 0) /\
  no_row_emails st' =
    no_row_emails st ++ (if listed (completed e) then [e.1] else []).
Proof.
  destruct e as [f opened]. cbv zeta.
  destruct opened as [|msg].
  { assert (process_file_try st (f, Raises) = process_file st (f, None)) as ->.
    { unfold process_file_try, process_file. by destruct (negb _). }
    assert (counts_marker (f, Raises) = counts_workflow (f, None)) as -> by done.
    change (completed (f, Raises)) with (f, @None Message).
    destruct (process_file_adds st (f, None))
      as (G1 & G2 & G3 & G4 & G5 & _ & G7 & _).
    exact (conj G1 (conj G2 (conj G3 (conj G4 (conj G5 G7))))). }
  destruct (read_message msg) as [m|] eqn:Hread.
  { rewrite (process_file_try_completes st f msg m Hread).
    assert (counts_marker (f, Returns msg) = counts_workflow (f, Some m)) as ->.
    { unfold counts_marker, counts_workflow, counts_total. cbn [fst snd].
      by rewrite (marker_seen_read msg m Hread). }
    assert (completed (f, Returns msg) = (f, Some m)) as ->.
    { unfold completed. cbn [fst snd]. by rewrite Hread. }
    destruct (process_file_adds st (f, Some m))
      as (G1 & G2 & G3 & G4 & G5 & _ & G7 & _).
    exact (conj G1 (conj G2 (conj G3 (conj G4 (conj G5 G7))))). }
  unfold completed, counts_marker, counts_with_excel, counts_entry, listed,
    counts_total, yields_nothing.
  cbn [fst snd]. rewrite Hread.
  destruct (Py.endswith (Py.lower f) ".msg") eqn:Hmsg.
  - destruct (process_file_try_raised st f msg Hmsg Hread) as [frames ->].
    cbn [stats no_row_emails andb negb].
    destruct (marker_seen msg); split_and!; bump_simpl; try lia; done.
  - unfold process_file_try. rewrite Hmsg. cbn [negb andb].
    rewrite !Nat.add_0_r, app_nil_r. done.
Qed.

Lemma process_files_try_from (entries : list (string * attempt Reading)) (st : State) :
  let st' := foldl process_file_try st entries in
  let done := completed <$> entries in
  stats st' !!! "total_emails" = stats st !!! "total_emails" + tally counts_total done /\
  stats st' !!! "with_excel" = stats st !!! "with_excel" + tally counts_with_excel done /\
  stats st' !!! "no_excel" =
    stats st !!! "no_excel" +
    tally (fun e => counts_total e && negb (counts_with_excel e)) done /\
  stats st' !!! "workflow_emails" =
    stats st !!! "workflow_emails" +
    length (filter (fun e => counts_marker e = true) entries) /\
  stats st' !!! "entries_created" =
    stats st !!! "entries_created" + tally counts_entry done /\
  no_row_emails st' =
    no_row_emails st ++ (fst <$> filter (fun e => listed e = true) done).
Proof.
  revert st. induction entries as [|e entries IH]; intros st.
  - cbn [foldl fmap list_fmap]. unfold tally. rewrite !filter_nil. simpl.
    rewrite !Nat.add_0_r, app_nil_r. done.
  - change (foldl process_file_try st (e :: entries))
      with (foldl process_file_try (process_file_try st e) entries).
    cbv zeta. rewrite fmap_cons.
    destruct (IH (process_file_try st e)) as (H1 & H2 & H3 & H4 & H5 & H6).
    destruct (process_file_try_adds st e) as (G1 & G2 & G3 & G4 & G5 & G6).
    rewrite H1, H2, H3, H4, H5, H6, G1, G2, G3, G4, G5, G6, !tally_cons.
    rewrite !filter_cons.
    split_and!; try lia.
    + destruct (counts_marker e).
      * rewrite decide_True by done. simpl. lia.
      * rewrite decide_False by done. lia.
    + destruct (listed (completed e)).
      * rewrite decide_True by done. by rewrite fmap_cons, <-app_assoc.
      * rewrite decide_False by done. by rewrite app_nil_r.
Qed.

Lemma process_files_try_plain (entries : list (string * attempt Reading)) (st : State) :
  Forall no_late_failure entries ->
  foldl process_file_try st entries = foldl process_file st (completed <$> entries).
Proof.
  intros Hall. revert st. induction Hall as [|[f opened] entries He _ IH]; intros st.
  - done.
  - rewrite fmap_cons. cbn [foldl]. rewrite IH. f_equal.
    unfold no_late_failure, completed in *. cbn [fst snd] in *.
    destruct opened as [|msg]; [done|].
    destruct He as [m Hm]. rewrite Hm. by apply process_file_try_completes.
Qed.

(** X8: what the loop has counted when it ends, whether or not the reading
    of a message raises part-way.  [total_emails] is the number of [.msg]
    entries; [with_excel] counts those whose [try] ran to its end and that
    carry an attachment with an Excel name (readable or not), [no_excel] the
    others; [workflow_emails] counts those whose subject was read and has the
    marker, even when the reading of the body raises afterwards;
    [entries_created] counts those that got a workflow record; and
    [no_row_emails] lists, in directory order, the entries whose [try] raised
    and those that have neither an Excel attachment nor a workflow record.
    When no [try] raises after the file was opened, the loop is the one on
    the messages read. *)
Theorem process_files_try_counters (entries : list (string * attempt Reading)) :
  let st := process_files_try entries in
  let done := completed <$> entries in
  stats st !!! "total_emails" = tally counts_total done /\
  stats st !!! "with_excel" = tally counts_with_excel done /\
  stats st !!! "no_excel" =
    tally (fun e => counts_total e && negb (counts_with_excel e)) done /\
  stats st !!! "workflow_emails" =
    length (filter (fun e => counts_marker e = true) entries) /\
  stats st !!! "entries_created" = tally counts_entry done /\
  no_row_emails st = fst <$> filter (fun e => listed e = true) done /\
  (Forall no_late_failure entries -> st = process_files done).
Proof.
  destruct (process_files_try_from entries initial_state)
    as (H1 & H2 & H3 & H4 & H5 & H6).
  cbv zeta in *. unfold process_files_try, process_files.
  rewrite H1, H2, H3, H4, H5, H6.
  split_and!; try done. apply process_files_try_plain.
Qed.

(** A message whose body fails to read after the marker was found in its
    subject: it is counted as a workflow message and under [no_excel], it
    gets no record and it is listed. *)
Example process_files_try_body_raises :
  let st := process_files_try
              [("a.msg", Returns {| read_sender := Returns "J. Doe";
                                    read_attachments := Returns [];
                                    read_subject := Returns (Some WORKFLOW_SUBJECT_KEY);
                                    read_body := Raises |})] in
  stats st !!! "total_emails" = 1 /\ stats st !!! "workflow_emails" = 1 /\
  stats st !!! "no_excel" = 1 /\ stats st !!! "with_excel" = 0 /\
  stats st !!! "entries_created" = 0 /\
  workflow_data st = [] /\ no_row_emails st = ["a.msg"].
Proof. by vm_compute. Qed.




(** ** The workflow record *)

(** X12: a workflow record carries exactly the ten canonical columns, each
    with a text value (never a missing one); its serial is the extracted
    serial, trimmed; and when the body names no room, its location is the
    placeholder that the location pass marks as missing. *)
Theorem workflow_record_shape (body who serial : string) :
  let record := workflow_record body who serial in
  dom record = list_to_set cols /\
  (forall c, c ∈ cols -> exists s, record !! c = Some (Str s)) /\
  record !! SERIAL_COL = Some (Str (Py.strip serial)) /\
  (extract_field body "[HEADER: ROOM]" = None ->
   forall table : list (string * string),
     location_pass table [cell_at record "Location"] =
     {| loc_values := [Str WORKFLOW_NO_ROOM]; loc_fill := [true];
        corrections_count := 0; missing_loc_count := 1 |}).
Proof.
  intros record. unfold record, workflow_record. split_and!.
  - rewrite dom_list_to_map_L. reflexivity.
  - intros c Hc. unfold cols in Hc.
    repeat (apply elem_of_cons in Hc as [->|Hc]; [by eexists|]).
    by apply elem_of_nil in Hc.
  - reflexivity.
  - intros Hroom table.
    assert (cell_at (list_to_map
              [("Serial Number", Str (Py.strip serial));
               ("Device Model", Str (or_else (extract_field body "[HEADER: MODEL]") WORKFLOW_DEFAULT));
               ("P.O. Number", Str "");
               ("Device Owner", Str (or_else (extract_field body "Full Name") WORKFLOW_DEFAULT));
               ("Computer Name", Str WORKFLOW_DEFAULT);
               ("Date of Latest Change", Str (or_else (extract_field body "Date") WORKFLOW_DEFAULT));
               ("Changed By", Str (or_else (clean_name (extract_field body "[HEADER: STAFF]")) who));
               ("Location", Str (or_else (extract_field body "[HEADER: ROOM]") WORKFLOW_NO_ROOM));
               ("Classification", Str WORKFLOW_DEFAULT);
               ("Comments", Str "")]) "Location"
            = Str (or_else (extract_field body "[HEADER: ROOM]") WORKFLOW_NO_ROOM)) as ->
      by reflexivity.
    rewrite Hroom. reflexivity.
Qed.

Lemma workflow_record_shape_witness :
  extract_field "Serial Number: B2" "[HEADER: ROOM]" = None /\
  location_pass [("BLD1", "BLDG1")]
    [cell_at (workflow_record "Serial Number: B2" "Pat" "B2") "Location"] =
  {| loc_values := [Str WORKFLOW_NO_ROOM]; loc_fill := [true];
     corrections_count := 0; missing_loc_count := 1 |}.
Proof.
  split; [by vm_compute|].
  apply (proj2 (proj2 (proj2 (workflow_record_shape "Serial Number: B2" "Pat" "B2")))).
  by vm_compute.
Defined.

(** ** Step 2, again *)

(** The rows after the missing columns are created, as one map over the
    rows before. *)
Lemma ensure_columns_map (cs : list string) (df : DataFrame) :
  exists g : row -> row,
    rows (foldl ensure_column df cs) = g <$> rows df /\
    forall r c, g r !! c =
      if bool_decide (c ∈ cs /\ c ∉ columns df) then Some (Str "") else r !! c.
Proof.
  revert df. induction cs as [|c0 cs IH]; intros df; cbn [foldl].
  - exists id. split; [by rewrite list_fmap_id|]. intros r c.
    rewrite bool_decide_eq_false_2; [done|]. rewrite elem_of_nil. tauto.
  - destruct (IH (ensure_column df c0)) as (g & Hrows & Hlook).
    unfold ensure_column in Hrows, Hlook |- *.
    destruct (bool_decide (c0 ∈ columns df)) eqn:H0.
    + apply bool_decide_eq_true in H0.
      exists g. split; [done|]. intros r c. rewrite Hlook.
      apply (f_equal (fun b : bool => if b then _ else _)).
      apply bool_decide_ext. rewrite elem_of_cons. intuition congruence.
    + apply bool_decide_eq_false in H0.
      rewrite set_column_scalar_rows in Hrows.
      exists (fun r => g (<[c0 := Str ""]> r)).
      split; [by rewrite Hrows, <-list_fmap_compose|].
      intros r c. rewrite Hlook.
      assert (columns (set_column_scalar df c0 (Str "")) = columns df ++ [c0]) as ->.
      { unfold set_column_scalar, set_column. cbn [columns].
        by rewrite bool_decide_eq_false_2. }
      destruct (decide (c = c0)) as [->|Hne].
      * rewrite bool_decide_eq_false_2.
        2: { rewrite elem_of_app, list_elem_of_singleton. tauto. }
        rewrite lookup_insert_eq, bool_decide_eq_true_2; [done|].
        split; [by left|done].
      * rewrite lookup_insert_ne by done.
        apply (f_equal (fun b : bool => if b then _ else _)).
        apply bool_decide_ext.
        rewrite elem_of_cons, elem_of_app, list_elem_of_singleton.
        intuition congruence.
Qed.

Lemma assemble_Some (to_datetime : list cell -> option (list (option date)))
    (ignore_models : list string) (data_frames : list DataFrame)
    (workflow_data : list row) (out : DataFrame) :
  assemble to_datetime ignore_models data_frames workflow_data = Some out ->
  df_empty (merged to_datetime ignore_models data_frames workflow_data) = false /\
  out = sort_priority_devices
          {| columns := cols;
             rows := reindex cols <$>
                     rows (foldl ensure_column
                             (merged to_datetime ignore_models data_frames workflow_data)
                             cols) |}.
Proof.
  unfold assemble.
  destruct (bool_decide (data_frames = []) && bool_decide (workflow_data = []));
    [intros H; discriminate H|].
  destruct (df_empty (merged _ _ _ _)); [intros H; discriminate H|].
  rewrite select_ensure_columns. cbn [fmap option_fmap option_map].
  intros H. apply (inj Some) in H. by subst out.
Qed.

Lemma df_empty_false (df : DataFrame) :
  df_empty df = false -> columns df <> [] /\ rows df <> [].
Proof.
  unfold df_empty. intros [H1 H2]%orb_false_iff.
  by apply bool_decide_eq_false in H1, H2.
Qed.

(** X13: the last steps of step 2 (column fill, selection, priority sort)
    lose and change nothing: the table has as many rows as the merged set
    that passed the final validation, at least one; every canonical column
    that the merged set has holds the same values, up to the order of the
    sort; and every row has a valid serial. *)
Theorem assemble_keeps_rows
    (to_datetime : list cell -> option (list (option date)))
    (ignore_models : list string) (data_frames : list DataFrame)
    (workflow_data : list row) (out : DataFrame) :
  assemble to_datetime ignore_models data_frames workflow_data = Some out ->
  let final_df := merged to_datetime ignore_models data_frames workflow_data in
  rows out <> [] /\
  length (rows out) = length (rows final_df) /\
  (forall c, c ∈ cols -> c ∈ columns final_df -> column out c ≡ₚ column final_df c) /\
  Forall (fun r => bad_serial (cell_at r SERIAL_COL) = false) (rows out).
Proof.
  intros [Hne ->]%assemble_Some final_df. fold final_df in Hne |- *.
  destruct (df_empty_false _ Hne) as [_ Hrows].
  destruct (ensure_columns_map cols final_df) as (g & -> & Hg).
  rewrite <-list_fmap_compose.
  set (sel := (reindex cols ∘ g) <$> rows final_df).
  assert (rows (sort_priority_devices {| columns := cols; rows := sel |}) ≡ₚ sel)
    as Hperm.
  { rewrite sort_priority_devices_rows by by_compute. cbn [rows].
    rewrite partition_Permutation. rewrite fmap_fixed; [done|].
    intros r (r0 & -> & _)%list_elem_of_fmap. apply without_helpers_reindex. }
  assert (forall c, c ∈ cols -> c ∈ columns final_df ->
            column (sort_priority_devices {| columns := cols; rows := sel |}) c
            ≡ₚ column final_df c) as Hcol.
  { intros c Hc Hin. unfold column. rewrite Hperm. unfold sel.
    rewrite <-list_fmap_compose.
    assert ((fun r => cell_at r c) ∘ (reindex cols ∘ g) <$> rows final_df
            = (fun r => cell_at r c) <$> rows final_df) as ->; [|done].
    apply list_fmap_ext. intros _ r _. cbn [compose]. unfold cell_at.
    rewrite reindex_lookup, bool_decide_eq_true_2 by done. cbn [default from_option].
    unfold cell_at. rewrite Hg, bool_decide_eq_false_2; [done|]. tauto. }
  assert (SERIAL_COL ∈ columns final_df) as Hser.
  { unfold final_df, merged in Hne |- *.
    destruct (remove_bad_rows_cases
                (concat (all_dfs to_datetime ignore_models data_frames workflow_data)))
      as [He|[Hc He]]; rewrite He in Hne |- *; [discriminate Hne|done]. }
  split_and!.
  - intros Hnil. rewrite Hnil in Hperm. apply Permutation_nil_l in Hperm.
    unfold sel in Hperm. by destruct (rows final_df).
  - rewrite Hperm. unfold sel. by rewrite length_fmap.
  - exact Hcol.
  - assert (Forall (fun v => bad_serial v = false)
              (column (sort_priority_devices {| columns := cols; rows := sel |})
                      SERIAL_COL)) as Hall.
    { rewrite (Hcol SERIAL_COL) by (done || by_compute).
      unfold column, final_df, merged.
      apply Forall_fmap, Forall_forall. intros r Hr.
      rewrite remove_bad_rows_rows in Hr. destruct (bool_decide _).
      - by apply list_elem_of_filter in Hr as [? _].
      - by apply elem_of_nil in Hr. }
    unfold column in Hall. by apply Forall_fmap in Hall.
Qed.

Lemma assemble_keeps_rows_witness :
  let frame := {| columns := ["Serial Number"; "Device Model"];
                  rows := [ {[ "Serial Number" := Str "A1";
                               "Device Model" := Str "Dell" ]};
                            {[ "Serial Number" := Str "n/a";
                               "Device Model" := Str "iPad" ]};
                            {[ "Serial Number" := Str "A3";
                               "Device Model" := Str "MacBook Pro" ]} ] |} in
  exists out,
    assemble to_datetime_ref [] [frame] [] = Some out /\
    column out "Serial Number" = [Str "A3"; Str "A1"] /\
    length (rows out) = length (rows (merged to_datetime_ref [] [frame] [])).
Proof.
  intros frame.
  destruct (assemble to_datetime_ref [] [frame] []) as [out|] eqn:H;
    [|by vm_compute in H].
  exists out. split; [done|]. split.
  - vm_compute in H. apply (inj Some) in H. by subst out.
  - exact (proj1 (proj2 (assemble_keeps_rows _ _ _ _ _ H))).
Defined.

(** A row after [format_date_columns] is a row before it, with at most its
    date changed. *)
Lemma format_date_columns_elem
    (to_datetime : list cell -> option (list (option date))) (df : DataFrame) (r' : row) :
  r' ∈ rows (format_date_columns to_datetime df) ->
  exists r, r ∈ rows df /\ forall c, c <> DATE_COL -> r' !! c = r !! c.
Proof.
  rewrite format_date_columns_unfold.
  destruct (bool_decide (DATE_COL ∈ columns df)); [|by exists r'].
  destruct (to_datetime _) as [ts|]; [|by exists r'].
  unfold set_column. cbn [rows].
  intros (r & v & -> & Hr & _)%elem_of_zip_with.
  exists r. split; [done|]. intros c Hc. by rewrite lookup_insert_ne.
Qed.

(** X14: what the clean-up of the attachment group lets through: a row of
    its result has a valid serial, a serial that is none of the ignored
    serial texts (compared without case), and, when an exclusion list of
    models is configured and the group has a model column, a model text that
    contains none of the excluded fragments. *)
Theorem clean_excel_exclusions
    (to_datetime : list cell -> option (list (option date)))
    (ignore_models : list string) (data_frames : list DataFrame) (r : row) :
  r ∈ rows (clean_excel to_datetime ignore_models data_frames) ->
  bad_serial (cell_at r SERIAL_COL) = false /\
  ignored_serial r = false /\
  (ignore_models <> [] -> "Device Model" ∈ columns (concat data_frames) ->
   banned_model ignore_models r = false).
Proof.
  unfold clean_excel. cbv zeta.
  set (c1 := dropna_all (concat data_frames)).
  set (c2 := if bool_decide ("Device Model" ∈ columns c1)
                && negb (bool_decide (ignore_models = []))
             then keep_rows (fun r => negb (banned_model ignore_models r)) c1 else c1).
  set (c3 := if bool_decide (SERIAL_COL ∈ columns c2)
             then keep_rows (fun r => negb (ignored_serial r)) c2 else c2).
  intros (r0 & Hr0 & Hsame)%format_date_columns_elem.
  rewrite remove_bad_rows_rows in Hr0.
  destruct (bool_decide (SERIAL_COL ∈ columns c3)) eqn:Hs3;
    [|by apply elem_of_nil in Hr0].
  apply bool_decide_eq_true in Hs3.
  apply list_elem_of_filter in Hr0 as [Hvalid Hr0].
  assert (cell_at r SERIAL_COL = cell_at r0 SERIAL_COL) as Hser.
  { unfold cell_at. by rewrite Hsame. }
  assert (cell_at r "Device Model" = cell_at r0 "Device Model") as Hmod.
  { unfold cell_at. by rewrite Hsame. }
  assert (columns c3 = columns c2) as Hc3.
  { unfold c3. destruct (bool_decide (SERIAL_COL ∈ columns c2)); reflexivity. }
  assert (columns c2 = columns c1) as Hc2.
  { unfold c2. destruct (_ && _); reflexivity. }
  assert (r0 ∈ rows c2 /\ ignored_serial r0 = false) as [Hr2 Hign].
  { unfold c3 in Hr0. rewrite Hc3 in Hs3.
    rewrite (bool_decide_eq_true_2 _ Hs3) in Hr0. cbn [keep_rows rows] in Hr0.
    apply list_elem_of_filter in Hr0 as [Hk Hr0]. split; [done|].
    by apply negb_true_iff in Hk. }
  split_and!.
  - by rewrite Hser.
  - unfold ignored_serial in *. by rewrite Hser.
  - intros Him Hdm. unfold banned_model in *. rewrite Hmod.
    unfold c2 in Hr2.
    rewrite (bool_decide_eq_true_2 ("Device Model" ∈ columns c1)) in Hr2 by done.
    rewrite (bool_decide_eq_false_2 (ignore_models = [])) in Hr2 by done.
    cbn [andb negb keep_rows rows] in Hr2.
    apply list_elem_of_filter in Hr2 as [Hk _]. by apply negb_true_iff in Hk.
Qed.

Lemma clean_excel_exclusions_witness :
  let frame := {| columns := ["Serial Number"; "Device Model"];
                  rows := [ {[ "Serial Number" := Str "serial number";
                               "Device Model" := Str "x" ]};
                            {[ "Serial Number" := Str "A7";
                               "Device Model" := Str "Laser Printer" ]};
                            {[ "Serial Number" := Str "A8";
                               "Device Model" := Str "ThinkPad" ]} ] |} in
  let r : row := {[ "Serial Number" := Str "A8"; "Device Model" := Str "ThinkPad" ]} in
  r ∈ rows (clean_excel to_datetime_ref ["printer"] [frame]) /\
  bad_serial (cell_at r SERIAL_COL) = false /\
  banned_model ["printer"] r = false.
Proof.
  intros frame r.
  assert (r ∈ rows (clean_excel to_datetime_ref ["printer"] [frame])) as Hr.
  { apply (list_elem_of_lookup_2 _ 0). by vm_compute. }
  split; [exact Hr|].
  destruct (clean_excel_exclusions to_datetime_ref ["printer"] [frame] r Hr)
    as (H1 & _ & H3).
  split; [exact H1|]. apply H3; [discriminate|]. apply (bool_decide_unpack _). by vm_compute.
Defined.

(** ** Concatenation of frames *)

Lemma union_step_spec (acc l : list string) :
  let res := foldl (fun acc c => if bool_decide (c ∈ acc) then acc else acc ++ [c]) acc l in
  acc `prefix_of` res /\
  (NoDup acc -> NoDup res) /\
  (forall c, c ∈ res <-> c ∈ acc \/ c ∈ l).
Proof.
  revert acc. induction l as [|c0 l IH]; intros acc; cbn [foldl].
  - split_and!; [done..|]. intros c. rewrite elem_of_nil. tauto.
  - destruct (bool_decide (c0 ∈ acc)) eqn:H0.
    + apply bool_decide_eq_true in H0.
      destruct (IH acc) as (Hp & Hn & Hin). split_and!; [done..|].
      intros c. rewrite Hin, elem_of_cons. intuition congruence.
    + apply bool_decide_eq_false in H0.
      destruct (IH (acc ++ [c0])) as (Hp & Hn & Hin). split_and!.
      * by eapply prefix_app_l.
      * intros Hacc. apply Hn. apply NoDup_app. split_and!; [done| |apply NoDup_singleton].
        intros x Hx ->%list_elem_of_singleton. done.
      * intros c. rewrite Hin, elem_of_app, list_elem_of_singleton, elem_of_cons. tauto.
Qed.

Lemma union_step_keeps (l : list string) :
  NoDup l ->
  foldl (fun acc c => if bool_decide (c ∈ acc) then acc else acc ++ [c]) [] l = l.
Proof.
  intros Hl.
  assert (forall acc, NoDup (acc ++ l) ->
            foldl (fun acc c => if bool_decide (c ∈ acc) then acc else acc ++ [c]) acc l
            = acc ++ l) as H; [|by apply (H [])].
  clear Hl. induction l as [|c0 l IH]; intros acc Hnd; cbn [foldl].
  - by rewrite app_nil_r.
  - apply NoDup_app in Hnd as Hnd'. destruct Hnd' as (_ & Hdis & _).
    rewrite bool_decide_eq_false_2.
    + rewrite IH; [by rewrite <-app_assoc|]. by rewrite <-app_assoc.
    + intros Hin. apply (Hdis c0 Hin). by left.
Qed.

(** X15: [concat] keeps every row of every frame, in order, and gives the
    result each column of each frame exactly once; a row of the result
    carries a value for exactly these columns, its own where it had one and
    a missing value elsewhere; and the columns of the first frame come
    first, in their order. *)
Theorem concat_frames (dfs : list DataFrame) :
  NoDup (columns (concat dfs)) /\
  (forall c, c ∈ columns (concat dfs) <-> exists df, df ∈ dfs /\ c ∈ columns df) /\
  length (rows (concat dfs)) = sum_list ((fun df => length (rows df)) <$> dfs) /\
  (forall (i : nat) (r : row), mjoin (rows <$> dfs) !! i = Some r ->
     exists r', rows (concat dfs) !! i = Some r' /\
       forall c, r' !! c =
         if bool_decide (c ∈ columns (concat dfs)) then Some (cell_at r c) else None) /\
  (forall df rest, dfs = df :: rest -> NoDup (columns df) ->
     columns df `prefix_of` columns (concat dfs)).
Proof.
  unfold concat. cbn [columns rows]. unfold union_columns.
  destruct (union_step_spec [] (mjoin (columns <$> dfs))) as (_ & Hnd & Hin).
  cbv zeta in Hnd, Hin. split_and!.
  - apply Hnd. constructor.
  - intros c. rewrite Hin, elem_of_nil, list_elem_of_join. split.
    + intros [[]|(l & Hc & (df & -> & Hdf)%list_elem_of_fmap)]. by exists df.
    + intros (df & Hdf & Hc). right. exists (columns df). split; [done|].
      by apply list_elem_of_fmap_2.
  - rewrite length_fmap, length_join, <-list_fmap_compose. done.
  - intros i r Hr. eexists. rewrite list_lookup_fmap, Hr. split; [reflexivity|].
    intros c. apply reindex_lookup.
  - intros df rest -> Hdf. cbn [fmap list_fmap mjoin list_join].
    rewrite foldl_app, (union_step_keeps _ Hdf).
    by destruct (union_step_spec (columns df) (mjoin (columns <$> rest))) as (Hp & _).
Qed.

Lemma concat_frames_witness :
  let a := {| columns := ["Serial Number"; "Location"];
              rows := [ {[ "Serial Number" := Str "A1"; "Location" := Str "B 12" ]} ] |} in
  let b := {| columns := ["Location"; "Comments"];
              rows := [ {[ "Location" := Str "C 3"; "Comments" := Str "ok" ]} ] |} in
  [a; b] = a :: [b] /\ NoDup (columns a) /\
  columns (concat [a; b]) = ["Serial Number"; "Location"; "Comments"] /\
  columns a `prefix_of` columns (concat [a; b]).
Proof.
  intros a b.
  assert (NoDup (columns a)) as Hnd.
  { apply (bool_decide_unpack _). by vm_compute. }
  split; [reflexivity|]. split; [exact Hnd|]. split; [reflexivity|].
  exact (proj2 (proj2 (proj2 (proj2 (concat_frames [a; b])))) a [b] eq_refl Hnd).
Defined.

(** ** The header row *)

Lemma list_index_None (x : string) (l : list string) :
  list_index x l = None <-> x ∉ l.
Proof.
  induction l as [|y l IH]; simpl.
  - split; [intros _; apply not_elem_of_nil|done].
  - rewrite not_elem_of_cons. destruct (bool_decide (y = x)) eqn:Hy.
    + apply bool_decide_eq_true in Hy. split; [done|]. intros [? _]. congruence.
    + apply bool_decide_eq_false in Hy.
      destruct (list_index x l); simpl.
      * split; [done|]. intros [_ H]. by apply IH in H.
      * split; [|done]. intros _. split; [congruence|]. by apply IH.
Qed.

Lemma list_index_Some (x : string) (l : list string) (i : nat) :
  list_index x l = Some i ->
  l !! i = Some x /\ forall j, j < i -> l !! j <> Some x.
Proof.
  revert i. induction l as [|y l IH]; intros i; simpl; [done|].
  destruct (bool_decide (y = x)) eqn:Hy.
  - apply bool_decide_eq_true in Hy. intros [= <-]. split; [by rewrite Hy|]. lia.
  - apply bool_decide_eq_false in Hy.
    destruct (list_index x l) as [k|]; [|done]. simpl. intros [= <-].
    destruct (IH k eq_refl) as [Hk Hfirst]. split; [done|].
    intros [|j] Hj; simpl; [congruence|]. apply Hfirst. lia.
Qed.

Lemma assemble_columns (to_datetime : list cell -> option (list (option date)))
    (ignore_models : list string) (data_frames : list DataFrame)
    (workflow_data : list row) (out : DataFrame) :
  assemble to_datetime ignore_models data_frames workflow_data = Some out ->
  columns out = cols.
Proof. intros [_ ->]%assemble_Some. apply sort_priority_devices_columns. Qed.

(** X16: the lookup of the three audited columns in the header row.  It
    fails exactly when one of the three names is absent from the trimmed,
    lower-case headers; when it succeeds, each number is the position
    (counted from one) of the first header with that name; and on the table
    that step 2 produces it never fails: the location is column 8, the date
    column 6 and the serial column 1. *)
Theorem find_columns_spec :
  (forall first_row : list string,
     find_columns first_row = None <->
     "location" ∉ headers first_row \/
     "date of latest change" ∉ headers first_row \/
     "serial number" ∉ headers first_row) /\
  (forall (first_row : list string) (loc date ser : nat),
     find_columns first_row = Some (loc, date, ser) ->
     exists l d s, loc = S l /\ date = S d /\ ser = S s /\
       headers first_row !! l = Some "location" /\
       headers first_row !! d = Some "date of latest change" /\
       headers first_row !! s = Some "serial number" /\
       (forall j, j < l -> headers first_row !! j <> Some "location") /\
       (forall j, j < d -> headers first_row !! j <> Some "date of latest change") /\
       (forall j, j < s -> headers first_row !! j <> Some "serial number")) /\
  (forall (to_datetime : list cell -> option (list (option date)))
          (ignore_models : list string) (data_frames : list DataFrame)
          (workflow_data : list row) (out : DataFrame),
     assemble to_datetime ignore_models data_frames workflow_data = Some out ->
     find_columns (columns out) = Some (8, 6, 1)).
Proof.
  split; [|split].
  - intros first_row. unfold find_columns. cbv zeta.
    rewrite <-!list_index_None.
    destruct (list_index "location" _); [|by split; [left|]].
    destruct (list_index "date of latest change" _); [|by split; [right; left|]].
    destruct (list_index "serial number" _); [|by split; [right; right|]].
    split; [done|]. by intros [?|[?|?]].
  - intros first_row loc date ser. unfold find_columns. cbv zeta.
    destruct (list_index "location" _) as [l|] eqn:Hl; [|done].
    destruct (list_index "date of latest change" _) as [d|] eqn:Hd; [|done].
    destruct (list_index "serial number" _) as [s|] eqn:Hs; [|done].
    intros [= <- <- <-].
    apply list_index_Some in Hl as [? ?], Hd as [? ?], Hs as [? ?].
    exists l, d, s. rewrite !Nat.add_1_r. done.
  - intros to_datetime ignore_models data_frames workflow_data out H.
    by rewrite (assemble_columns _ _ _ _ _ H).
Qed.

Lemma find_columns_spec_witness :
  let frame := {| columns := ["Serial Number"; "Device Model"];
                  rows := [ {[ "Serial Number" := Str "A1";
                               "Device Model" := Str "Dell" ]} ] |} in
  exists out,
    assemble to_datetime_ref [] [frame] [] = Some out /\
    find_columns (columns out) = Some (8, 6, 1).
Proof.
  intros frame.
  destruct (assemble to_datetime_ref [] [frame] []) as [out|] eqn:H;
    [|by vm_compute in H].
  exists out. split; [done|].
  exact (proj2 (proj2 find_columns_spec) _ _ _ _ _ H).
Defined.

(** ** The column widths *)

Lemma width_fold (col : list cell) (acc : nat) :
  let w := foldl (fun len v => if cell_truthy v
                               then Nat.max len (String.length (str v)) else len)
                 acc col in
  acc <= w /\
  (forall v, v ∈ col -> cell_truthy v = true -> String.length (str v) <= w) /\
  (w = acc \/ exists v, v ∈ col /\ cell_truthy v = true /\ w = String.length (str v)).
Proof.
  revert acc. induction col as [|v col IH]; intros acc; cbn [foldl].
  - split_and!; [done| |by left]. by intros v ?%elem_of_nil.
  - cbv zeta.
    destruct (IH (if cell_truthy v then Nat.max acc (String.length (str v)) else acc))
      as (Hle & Hall & Hwho).
    destruct (cell_truthy v) eqn:Hv.
    + split_and!; [lia| |].
      * intros x [->|Hx]%elem_of_cons Hx'; [lia|by apply Hall].
      * destruct Hwho as [->|(x & Hx & Hx' & ->)].
        -- destruct (Nat.max_spec acc (String.length (str v))) as [[_ ->]|[_ ->]].
           ++ right. exists v. split; [by left|done].
           ++ by left.
        -- right. exists x. split; [by right|done].
    + split_and!; [done| |].
      * intros x [->|Hx]%elem_of_cons Hx'; [congruence|by apply Hall].
      * destruct Hwho as [->|(x & Hx & Hx' & ->)]; [by left|].
        right. exists x. split; [by right|done].
Qed.

(** X17: the width of a worksheet column is at least two, leaves two spare
    characters beside the text of every cell with a true value, and is no
    wider than that: it is two for a column without such a cell, and the
    length of the longest such text plus two otherwise. *)
Theorem column_width_fits (col : list cell) :
  2 <= column_width col /\
  (forall v, v ∈ col -> cell_truthy v = true ->
     String.length (str v) + 2 <= column_width col) /\
  (column_width col = 2 \/
   exists v, v ∈ col /\ cell_truthy v = true /\
             column_width col = String.length (str v) + 2).
Proof.
  unfold column_width. destruct (width_fold col 0) as (_ & Hall & Hwho).
  cbv zeta in *. split_and!; [lia| |].
  - intros v Hv Ht. specialize (Hall v Hv Ht). lia.
  - destruct Hwho as [->|(v & Hv & Ht & ->)]; [by left|].
    right. by exists v.
Qed.

(** ** The audit passes, seen from their counters *)

Lemma location_pass_closed (table : list (string * string)) (cells : list cell) :
  location_pass table cells =
  {| loc_values := (fun v => outcome_value v (location_rule table v)) <$> cells;
     loc_fill := (fun v => is_missing (location_rule table v)) <$> cells;
     corrections_count :=
       length (filter (fun v => is_corrected (location_rule table v) = true) cells);
     missing_loc_count :=
       length (filter (fun v => is_missing (location_rule table v) = true) cells) |}.
Proof.
  induction cells as [|v cells IH] using rev_ind; [done|].
  rewrite location_pass_snoc, location_step_rule, IH. simpl.
  rewrite !fmap_app, !length_filter_snoc. done.
Qed.

Lemma length_filter_exclusive {A} (f g : A -> bool) (l : list A) :
  (forall x, f x = true -> g x = false) ->
  length (filter (fun x => f x = true) l) + length (filter (fun x => g x = true) l)
  <= length l.
Proof.
  intros Hfg. induction l as [|x l IH]; [done|].
  rewrite !filter_cons. specialize (Hfg x).
  destruct (f x), (g x); simpl; try lia.
Qed.

Lemma first_prefix_key_elem (table : list (string * string)) (s bad good : string) :
  first_prefix_key table s = Some (bad, good) ->
  (bad, good) ∈ table /\ Py.startswith s bad = true.
Proof.
  unfold first_prefix_key. intros H.
  assert ((bad, good) ∈ filter (fun kv => Py.startswith s kv.1 = true) table) as Hin.
  { destruct (filter _ table) as [|kv l]; [done|].
    simpl in H. injection H as ->. by left. }
  by apply list_elem_of_filter in Hin as [? ?].
Qed.

(** X18: the location pass changes no length and counts each cell at most
    once: a cell is either marked as missing, or corrected, or left alone, so
    the two counters together never exceed the number of cells, and
    [missing_loc_count] is the number of marked cells.  A marked cell keeps
    its value; a value that changes becomes a text that starts with the
    replacement of an entry of the table.  With the empty table, as the
    source ships it, no value changes and no correction is counted. *)
Theorem location_pass_counts (table : list (string * string)) (cells : list cell) :
  let res := location_pass table cells in
  length (loc_values res) = length cells /\
  length (loc_fill res) = length cells /\
  corrections_count res + missing_loc_count res <= length cells /\
  missing_loc_count res = length (filter (fun b => b = true) (loc_fill res)) /\
  (forall (i : nat) (v w : cell),
     cells !! i = Some v -> loc_values res !! i = Some w ->
     (loc_fill res !! i = Some true /\ w = v) \/
     (loc_fill res !! i = Some false /\
      (w = v \/
       exists bad good rest, (bad, good) ∈ table /\ w = Str (good +:+ rest)))) /\
  loc_values (location_pass [] cells) = cells /\
  corrections_count (location_pass [] cells) = 0.
Proof.
  cbv zeta. rewrite !location_pass_closed. cbn [loc_values loc_fill
    corrections_count missing_loc_count].
  split_and!.
  - by rewrite length_fmap.
  - by rewrite length_fmap.
  - apply length_filter_exclusive. intros v.
    by destruct (location_rule table v).
  - by rewrite length_filter_true.
  - intros i v w Hv. rewrite !list_lookup_fmap, Hv. simpl. intros [= <-].
    destruct (location_rule table v) as [|fixed|] eqn:Ho; simpl.
    + by left.
    + right. split; [done|]. right.
      unfold location_rule in Ho. cbv zeta in Ho.
      destruct (bool_decide _); [done|].
      destruct (first_prefix_key table _) as [[bad good]|] eqn:Hk; [|done].
      injection Ho as <-. apply first_prefix_key_elem in Hk as [Hin _].
      by exists bad, good, (Py.drop (String.length bad)
        (without_spaces (Py.upper (Py.strip (cell_text v))))).
    + right. split; [done|by left].
  - induction cells as [|v cells IH]; [done|].
    rewrite fmap_cons, IH. f_equal.
    unfold location_rule. cbv zeta. by destruct (bool_decide _).
  - induction cells as [|v cells IH]; [done|].
    rewrite filter_cons. rewrite decide_False; [exact IH|].
    unfold location_rule. cbv zeta. by destruct (bool_decide _).
Qed.

Lemma outliers_count (to_ym : cell -> option year_month) (mode : year_month)
    (cells : list cell) :
  length (filter (fun b => b = true)
            ((fun v => match to_ym v with
                       | Some ym => bool_decide (ym ≠ mode)
                       | None => false
                       end) <$> cells))
  + occurrences mode (omap to_ym cells) = length (omap to_ym cells).
Proof.
  induction cells as [|v cells IH]; [done|].
  rewrite fmap_cons, filter_cons. cbn [omap list_omap]. fold (omap to_ym cells).
  destruct (to_ym v) as [ym|].
  - destruct (decide (ym = mode)) as [->|Hne].
    + rewrite bool_decide_eq_false_2 by auto. rewrite decide_False by done.
      rewrite occurrences_cons_eq. simpl. lia.
    + rewrite bool_decide_eq_true_2 by done. rewrite decide_True by done.
      rewrite occurrences_cons_ne by done. simpl. lia.
  - rewrite decide_False by done. exact IH.
Qed.

Lemma occurrences_all (ym : year_month) (dates : list year_month) :
  Forall (fun d => d = ym) dates -> occurrences ym dates = length dates.
Proof.
  unfold occurrences. induction 1 as [|d dates Hd _ IH]; [done|].
  rewrite filter_cons, decide_True by done. simpl. by rewrite IH.
Qed.

Lemma flags_none (to_ym : cell -> option year_month) (mode : year_month)
    (cells : list cell) :
  Forall (fun d => d = mode) (omap to_ym cells) ->
  (fun v => match to_ym v with
            | Some ym => bool_decide (ym ≠ mode)
            | None => false
            end) <$> cells = replicate (length cells) false.
Proof.
  induction cells as [|v cells IH]; [done|].
  cbn [omap list_omap]. fold (omap to_ym cells). rewrite fmap_cons.
  cbn [length replicate].
  destruct (to_ym v) as [ym|].
  - intros [-> H]%Forall_cons. rewrite bool_decide_eq_false_2 by auto.
    by rewrite IH.
  - intros H. by rewrite IH.
Qed.

(** X19: the arithmetic of the date pass.  It never fails; with at least one
    value whose conversion does not raise, the flagged cells and the cells
    of the consensus pair together are exactly the cells that converted, the
    consensus pair occurs among them at least as often as any other, and so
    at least one converted cell stays unflagged.  When every converted value
    gives one and the same pair, nothing is flagged. *)
Theorem date_pass_outliers (to_ym : cell -> option year_month) (cells : list cell) :
  let dates := omap to_ym cells in
  exists (fill : list bool) (outliers : nat),
    date_pass to_ym cells = Some (fill, outliers) /\
    outliers <= length dates /\
    (dates <> [] ->
     outliers < length dates /\
     exists mode, mode ∈ dates /\
       outliers + occurrences mode dates = length dates /\
       forall ym, occurrences ym dates <= occurrences mode dates) /\
    (forall ym, Forall (fun d => d = ym) dates ->
       fill = replicate (length cells) false /\ outliers = 0).
Proof.
  intros dates. unfold date_pass. fold dates.
  destruct (bool_decide (dates = [])) eqn:Hd.
  - apply bool_decide_eq_true in Hd.
    eexists _, _. split_and!; [done|lia|done|done].
  - apply bool_decide_eq_false in Hd.
    destruct (most_common_1_Counter dates Hd)
      as (mode & before & after & -> & Hsplit & Hnotin & Hmax & Hfirst).
    pose proof (outliers_count to_ym mode cells) as Hsum. fold dates in Hsum.
    assert (mode ∈ dates) as Hin.
    { rewrite Hsplit, elem_of_app. right. by left. }
    pose proof (occurrences_pos _ _ Hin) as Hpos.
    eexists _, _. split_and!; [done|lia| |].
    + intros _. split; [lia|]. by exists mode.
    + intros ym Hall.
      assert (ym = mode) as ->.
      { symmetry. by apply (proj1 (Forall_forall _ _) Hall mode). }
      rewrite (flags_none to_ym mode cells Hall).
      by rewrite filter_true_replicate_false.
Qed.

(** X20: what the check against a reference list never marks.  With the
    list read, the check is reported as performed, one flag is kept per
    serial and the count never exceeds the number of serials.  A serial
    whose text, surrounding blanks apart, is that of an entry of the list is
    never marked, nor is a serial whose text is blank; so nothing is marked
    when every serial is in the list.  An empty worksheet cell reads as the
    text None: it is marked unless the list holds that text. *)
Theorem serial_check_known (c : ascii) (p : string) (first_col serials : list cell) :
  let res := serial_check "Yes" (Some (String c p)) (Some first_col) serials in
  let fill := res.1.1 in
  let missing_serials := res.1.2 in
  res.2 = true /\
  length fill = length serials /\
  missing_serials <= length serials /\
  missing_serials = length (filter (fun b => b = true) fill) /\
  (forall (i : nat) (v w : cell),
     serials !! i = Some v -> w ∈ first_col ->
     Py.strip (str w) = Py.strip (str v) -> fill !! i = Some false) /\
  (forall (i : nat) (v : cell),
     serials !! i = Some v -> Py.strip (str v) = "" -> fill !! i = Some false) /\
  (Forall (fun v => v ∈ first_col) serials -> missing_serials = 0) /\
  (forall i : nat, serials !! i = Some PyNone ->
     (fill !! i = Some true <->
      forall w, w ∈ first_col -> Py.strip (str w) <> "None")).
Proof.
  cbv zeta. unfold serial_check.
  rewrite bool_decide_eq_true_2 by done.
  change (Py.truthy (or_else (Some (String c p)) "")) with true. cbv iota.
  cbn [fst snd].
  set (known := (fun v => Py.strip (str v)) <$> first_col).
  set (flag := fun v : cell =>
                 Py.truthy (Py.strip (str v)) &&
                 bool_decide (Py.strip (str v) ∉ (list_to_set known : gset string))).
  assert (forall v w, w ∈ first_col -> Py.strip (str w) = Py.strip (str v) ->
                      flag v = false) as Hknown.
  { intros v w Hw Heq. apply not_true_is_false. unfold flag.
    rewrite unknown_serial_flag. intros [_ Hn]. apply Hn.
    rewrite <-Heq. unfold known. apply list_elem_of_fmap. by exists w. }
  split_and!.
  - done.
  - by rewrite length_fmap.
  - rewrite length_filter_true. apply length_filter.
  - done.
  - intros i v w Hv Hw Heq. rewrite list_lookup_fmap, Hv. simpl.
    f_equal. by apply (Hknown v w).
  - intros i v Hv Hblank. rewrite list_lookup_fmap, Hv. simpl.
    f_equal. apply not_true_is_false. fold (flag v). unfold flag.
    rewrite unknown_serial_flag. by intros [? _].
  - intros Hall. rewrite length_filter_true.
    induction Hall as [|v l Hv _ IH]; [done|].
    rewrite filter_cons, decide_False; [exact IH|].
    fold (flag v). by rewrite (Hknown v v Hv).
  - intros i Hi. rewrite list_lookup_fmap, Hi. simpl. fold (flag PyNone).
    split.
    + intros [= Hflag] w Hw Heq. by rewrite (Hknown PyNone w Hw Heq) in Hflag.
    + intros Hnone. f_equal. unfold flag. apply unknown_serial_flag.
      split; [by vm_compute|].
      intros (w & Heq & Hw)%list_elem_of_fmap. by apply (Hnone w).
Qed.
